(** * dashboard.py: the analytics pipeline of the Proserv dashboard

    A shallow embedding of [src/dashboard.py].  The script loads two tables
    ([clients], [finance]), cleans them, and derives the tables behind the
    charts.  DataFrames are lists of rows in row order; int64 columns are
    [Z] with the wrap-around written out; float64 columns are IEEE 754
    binary64 values ([spec_float] with [prec = 53], [emax = 1024]); a Python
    [set] is a [gset]; the module-level statements run in source order over
    an environment of variables, and a raised exception stops the run. *)

From Stdlib Require Import ZArith List Bool String Ascii Lia QArith Qabs.
From Stdlib Require Import Floats.SpecFloat.
From stdpp Require Import gmap strings list sorting.

Local Open Scope Z_scope.

(* ===================================================================== *)
(** * Part I. Definitions *)
(* ===================================================================== *)

(** ** Numbers: int64 and float64 *)

Definition wrap64 (z : Z) : Z := (z + 2 ^ 63) mod 2 ^ 64 - 2 ^ 63.
Definition i64_add (a b : Z) : Z := wrap64 (a + b).
Definition i64_mul (a b : Z) : Z := wrap64 (a * b).
Definition i64_sum (l : list Z) : Z := fold_left i64_add l 0.

Abbreviation f64 := spec_float.
Abbreviation NaN := S754_nan.

Definition fsub : f64 -> f64 -> f64 := SFsub 53 1024.
Definition fmul : f64 -> f64 -> f64 := SFmul 53 1024.
Definition fdiv : f64 -> f64 -> f64 := SFdiv 53 1024.

(** Conversion of an integer to float64, round to nearest even. *)
Definition f64_of_Z (z : Z) : f64 := binary_normalize 53 1024 z 0 false.

Definition is_nan (x : f64) : bool :=
  match x with S754_nan => true | _ => false end.

(** Round an exact quotient [n / d] ([0 < d]) to the nearest integer, ties
    to the even one. *)
Definition round_half_even (n d : Z) : Z :=
  let q := n / d in
  match (2 * (n mod d) ?= d) with
  | Lt => q
  | Gt => q + 1
  | Eq => if Z.even q then q else q + 1
  end.

(** [np.rint]: nearest integral float64, ties to even, sign kept. *)
Definition rint (x : f64) : f64 :=
  match x with
  | S754_finite s m e =>
      if 0 <=? e then x
      else
        let n := round_half_even (Zpos m) (2 ^ (- e)) in
        if n =? 0 then S754_zero s
        else binary_normalize 53 1024 (cond_Zopp s n) 0 s
  | _ => x
  end.

(** [ndarray.round(decimals)] for [decimals >= 0], as numpy computes it:
    multiply by [10 ** decimals], [rint], divide by [10 ** decimals].
    This is what [round(series, decimals)] calls on a float64 column. *)
Definition np_round (decimals : Z) (x : f64) : f64 :=
  let f := f64_of_Z (10 ^ decimals) in
  fdiv (rint (fmul x f)) f.

(** A Python [int] as a binary float with exponent 0: its exact value,
    not yet rounded to 53 bits. *)
Definition int_exact (z : Z) : f64 :=
  match z with
  | Z0 => S754_zero false
  | Zpos p => S754_finite false p 0
  | Zneg p => S754_finite true p 0
  end.

(** Python's [round(x, 1)] on a [float]: the exact decimal value of [x]
    rounded half-even to one digit, then the float64 nearest to that
    decimal. *)
Definition py_round1 (x : f64) : f64 :=
  match x with
  | S754_finite s m e =>
      let n :=
        if 0 <=? e then 10 * Zpos m * 2 ^ e
        else round_half_even (10 * Zpos m) (2 ^ (- e)) in
      if n =? 0 then S754_zero s
      else fdiv (int_exact (cond_Zopp s n)) (int_exact 10)
  | _ => x
  end.

(** The exact rational value of a finite float64 (0 on infinities and NaN). *)
Definition F2Q (x : f64) : Q :=
  match x with
  | S754_finite s m e =>
      let v := if 0 <=? e then inject_Z (Zpos m * 2 ^ e)
               else Qmake (Zpos m) (Z.to_pos (2 ^ (- e))) in
      if s then Qopp v else v
  | _ => 0%Q
  end.

(** ** Exceptions *)

Inductive exn : Type :=
  | ZeroDivisionError
  | ValueError
  | IndexError
  | NameError
  | TypeError
  | KeyError.

Inductive result (A : Type) : Type :=
  | Ok (a : A)
  | Raise (e : exn).
Arguments Ok {A} a.
Arguments Raise {A} e.

Definition bind {A B : Type} (m : result A) (k : A -> result B) : result B :=
  match m with
  | Ok a => k a
  | Raise e => Raise e
  end.

Notation "'do' x <- m ; k" := (bind m (fun x => k))
  (at level 10, x name, m at level 100, k at level 200).

Fixpoint mapM {A B : Type} (f : A -> result B) (l : list A) : result (list B) :=
  match l with
  | [] => Ok []
  | a :: l' => do b <- f a; do bs <- mapM f l'; Ok (b :: bs)
  end.

(** Python's [a / b] on two [int]s: the exact quotient rounded once to
    float64.  (Python raises OverflowError where this gives an infinity;
    the one quotient of the script is at most 100.) *)
Definition py_truediv (a b : Z) : result f64 :=
  if b =? 0 then Raise ZeroDivisionError
  else Ok (fdiv (int_exact a) (int_exact b)).

(** ** Keys, group-by and sorting *)

(** The order pandas sorts group keys by: integers by value, strings
    lexicographically by character code, tuples lexicographically. *)
Class Cmp (K : Type) := cmp : K -> K -> comparison.

#[export] Instance Z_cmp : Cmp Z := Z.compare.
#[export] Instance string_cmp : Cmp string := String.compare.
#[export] Instance pair_cmp {A B : Type} `{Cmp A, Cmp B} : Cmp (A * B) :=
  fun p q => match cmp p.1 q.1 with Eq => cmp p.2 q.2 | c => c end.

(** What the order of a key type has to satisfy. *)
Class CmpLaws (K : Type) `{Cmp K} : Prop := {
  cmp_eq : forall a b : K, cmp a b = Eq <-> a = b;
  cmp_antisym : forall a b : K, cmp b a = CompOpp (cmp a b);
  cmp_trans : forall a b c : K, cmp a b = Lt -> cmp b c = Lt -> cmp a c = Lt
}.

Definition key_lt {K : Type} `{Cmp K} (a b : K) : Prop := cmp a b = Lt.

Fixpoint insert_key {K : Type} `{Cmp K} (k : K) (l : list K) : list K :=
  match l with
  | [] => [k]
  | x :: l' =>
      match cmp k x with
      | Lt => k :: l
      | Eq => l
      | Gt => x :: insert_key k l'
      end
  end.

(** [sorted(column.unique())]: the distinct values in ascending order;
    also the group keys of a [groupby], which sorts them. *)
Definition sorted_unique {K : Type} `{Cmp K} (l : list K) : list K :=
  foldr insert_key [] l.

(** [frame.groupby(key)[col].agg()]: one row per distinct key, keys
    ascending, the aggregate taken over the rows of that key in row order. *)
Definition groupby {R K V : Type} `{Cmp K, EqDecision K}
    (key : R -> K) (agg : list R -> V) (rows : list R) : list (K * V) :=
  fmap (fun k => (k, agg (filter (fun r => key r = k) rows)))
      (sorted_unique (fmap key rows)).

(** A stable sort: a row goes before the first row it is [le] to, so rows
    that compare equal keep their input order. *)
Fixpoint insert_row {R : Type} (le : R -> R -> bool) (x : R) (l : list R) : list R :=
  match l with
  | [] => [x]
  | y :: l' => if le x y then x :: l else y :: insert_row le x l'
  end.

Definition stable_sort {R : Type} (le : R -> R -> bool) (l : list R) : list R :=
  foldr (insert_row le) [] l.

(** How many of the rows already passed, whose keys are [seen], belong
    to group [k]. *)
Definition passed {K : Type} `{EqDecision K} (k : K) (seen : list K) : nat :=
  length (filter (fun k' => k' = k) seen).

(** [frame.groupby(key).head(n)]: the rows whose running count within
    their group is below [n], in frame order.  [seen] holds the keys of
    the rows already passed. *)
Fixpoint head_from {R K : Type} `{EqDecision K} (key : R -> K) (n : nat)
    (seen : list K) (l : list R) : list R :=
  match l with
  | [] => []
  | r :: l' =>
      if (passed (key r) seen <? n)%nat
      then r :: head_from key n (key r :: seen) l'
      else head_from key n (key r :: seen) l'
  end.

Definition groupby_head {R K : Type} `{EqDecision K} (key : R -> K) (n : nat)
    (l : list R) : list R :=
  head_from key n [] l.

(** [pd.merge(left, right, on=key, how="left")]: left rows in order, each
    paired with its matching right rows in right order, or with no right
    row (all right columns null) when none matches. *)
Definition join_row {L R K : Type} `{EqDecision K}
    (lkey : L -> K) (rkey : R -> K) (right : list R) (l : L)
    : list (L * option R) :=
  match filter (fun r => rkey r = lkey l) right with
  | [] => [(l, None)]
  | ms => fmap (fun r => (l, Some r)) ms
  end.

Definition merge_left {L R K : Type} `{EqDecision K}
    (lkey : L -> K) (rkey : R -> K) (left : list L) (right : list R)
    : list (L * option R) :=
  flat_map (join_row lkey rkey right) left.

Definition sum_Z (l : list Z) : Z := foldr Z.add 0 l.

(** Largest element of a non-empty int64 group ([0] on the empty list,
    which no group is). *)
Definition max_list (l : list Z) : Z :=
  match l with
  | [] => 0
  | x :: l' => foldr Z.max x l'
  end.

(** ** The two input tables *)

(** A row of [clients] after cleaning (lines 18-30) when [Renewal_No] is
    an int64 column, which it is when the sheet has a renewal number in
    every row: no null [Company], [Department] or [Year]. *)
Record ClientRow : Type := mkClient {
  Company : string;
  Department : string;
  Renewal_No : Z;
  Year : Z
}.

(** A row of [finance] after line 36. *)
Record FinanceRow : Type := mkFinance {
  fin_Department : string;
  fin_Year : Z;
  Total_Sales : f64;
  Total_Profit : f64
}.

(** A row of [clients] after cleaning when the sheet has a blank
    [Renewal Number] somewhere: the column is then float64, a blank cell
    is NaN, here [None], and line 30 does not drop it.  The other cells
    hold the whole numbers of the sheet, written as the integers they
    are. *)
Record ClientRowF : Type := mkClientF {
  f_Company : string;
  f_Department : string;
  f_Renewal_No : option Z;
  f_Year : Z
}.

(** A row of [data/clients.xlsx]; a blank cell is [None].
    [raw_Renewal_Date] is the year that
    [pd.to_datetime(str(v) + "-01-01", errors="coerce").dt.year] gives for
    the cell, [None] when the date is coerced to NaT. *)
Record RawClient : Type := mkRawClient {
  raw_Company : option string;
  raw_Department : option string;
  raw_Renewal_No : option Z;
  raw_Renewal_Date : option Z
}.

(** A row of [data/finance.xlsx].  [rawf_Year] is the integer that
    [astype(int)] gives for the cell, [None] when the cast raises (a
    non-numeric string, a missing value). *)
Record RawFinance : Type := mkRawFinance {
  rawf_Department : string;
  rawf_Year : option Z;
  rawf_Total_Sales : f64;
  rawf_Total_Profit : f64
}.

(** [read_excel] gives the [Renewal Number] column the dtype int64 when
    no cell of the sheet is blank, and float64 otherwise. *)
Definition int64_column (raw : list RawClient) : bool :=
  forallb (fun r => match raw_Renewal_No r with Some _ => true | None => false end)
          raw.

(** Lines 18-30: [dropna(subset=["Company", "Department", "Year"])]; the
    [Renewal_No] cell is not looked at. *)
Definition clean_client_f (r : RawClient) : option ClientRowF :=
  match raw_Company r, raw_Department r, raw_Renewal_Date r with
  | Some c, Some d, Some y => Some (mkClientF c d (raw_Renewal_No r) y)
  | _, _, _ => None
  end.

Definition clean_clients_f (raw : list RawClient) : list ClientRowF :=
  omap clean_client_f raw.

(** The same for an int64 column, where every cell holds a number. *)
Definition clean_client (r : RawClient) : option ClientRow :=
  match raw_Company r, raw_Department r, raw_Renewal_No r, raw_Renewal_Date r with
  | Some c, Some d, Some n, Some y => Some (mkClient c d n y)
  | _, _, _, _ => None
  end.

Definition clean_clients (raw : list RawClient) : list ClientRow :=
  omap clean_client raw.

(** The columns [Company], [Department] and [Year] of a row of a float64
    table, for the statements that read no other column ([Renewal_No] is
    set to 0 and not read). *)
Definition without_renewal (r : ClientRowF) : ClientRow :=
  mkClient (f_Company r) (f_Department r) 0 (f_Year r).

(** An int64 row as the row of a float64 table with the same cells. *)
Definition as_float (r : ClientRow) : ClientRowF :=
  mkClientF (Company r) (Department r) (Some (Renewal_No r)) (Year r).

(** Line 36: [finance["Year"].astype(int)]. *)
Definition cast_year (r : RawFinance) : result FinanceRow :=
  match rawf_Year r with
  | Some y => Ok (mkFinance (rawf_Department r) y (rawf_Total_Sales r) (rawf_Total_Profit r))
  | None => Raise ValueError
  end.

Definition clean_finance (raw : list RawFinance) : result (list FinanceRow) :=
  mapM cast_year raw.

(** ** 1. Active clients by year (lines 41-42) *)

Definition nunique (l : list string) : Z :=
  Z.of_nat (size (list_to_set l : gset string)).

Definition clients_per_year_of (clients : list ClientRow) : list (Z * Z) :=
  groupby Year (fun g => nunique (fmap Company g)) clients.

(** [pct_change()]: [data / data.shift(1) - 1]. *)
Fixpoint pct_change_from (prev : f64) (l : list Z) : list f64 :=
  match l with
  | [] => []
  | a :: l' =>
      fsub (fdiv (f64_of_Z a) prev) (f64_of_Z 1) :: pct_change_from (f64_of_Z a) l'
  end.

Definition pct_change (l : list Z) : list f64 := pct_change_from NaN l.

Definition Growth_of (rows : list (Z * Z)) : list f64 :=
  fmap (fun x => np_round 1 (fmul x (f64_of_Z 100))) (pct_change (fmap snd rows)).

(** ** 2. Renewal frequency (lines 51-52) *)

(** [clients.groupby("Company")["Renewal_No"].max()]. *)
Definition max_renewal_by_company (clients : list ClientRow) : list (string * Z) :=
  groupby Company (fun g => max_list (fmap Renewal_No g)) clients.

(** [.value_counts().sort_index().reset_index()]: one row per value
    with the number of companies that have it, values ascending. *)
Definition renewal_counts_of (clients : list ClientRow) : list (Z * Z) :=
  groupby snd (fun g => Z.of_nat (length g)) (max_renewal_by_company clients).

(** [max()] of a float64 group skips the NaN cells and is NaN when the
    group has no other cell. *)
Definition max_skipna (l : list (option Z)) : option Z :=
  match omap id l with
  | [] => None
  | x :: l' => Some (max_list (x :: l'))
  end.

(** Line 51 on a float64 column: the largest [Renewal_No] of each
    company, then [value_counts()], which leaves the NaN entries out. *)
Definition max_renewal_by_company_f (clients : list ClientRowF)
    : list (string * option Z) :=
  groupby f_Company (fun g => max_skipna (f_Renewal_No <$> g)) clients.

Definition renewal_counts_f (clients : list ClientRowF) : list (Z * Z) :=
  groupby id (fun g => Z.of_nat (length g))
          (omap snd (max_renewal_by_company_f clients)).

(** ** 3-4. Market share by department (lines 62-63, 72-74) *)

(** [rows.groupby("Department")["Company"].count()]. *)
Definition contracts_by_department (rows : list ClientRow) : list (string * Z) :=
  groupby Department (fun g => Z.of_nat (length g)) rows.

(** [round(100 * col / col.sum(), 1)]. *)
Definition Share_of (rows : list (string * Z)) : list f64 :=
  let total := i64_sum (fmap snd rows) in
  fmap (fun r => np_round 1 (fdiv (f64_of_Z (i64_mul 100 r.2)) (f64_of_Z total))) rows.

Definition first_contracts_of (clients : list ClientRow) : list ClientRow :=
  filter (fun r => Renewal_No r = 0) clients.

(** A market-share view with its [Share_%] column. *)
Definition share_view (rows : list ClientRow) : list (string * Z * f64) :=
  let counts := contracts_by_department rows in
  zip counts (Share_of counts).

(** ** 5. Client retention (lines 83-94) *)

Record ChurnRow : Type := mkChurn {
  churn_Year : Z;
  Churn : f64;
  Retention : f64
}.

(** [set(clients[clients["Year"] == y]["Company"])]. *)
Definition companies_in (clients : list ClientRow) (y : Z) : gset string :=
  list_to_set (fmap Company (filter (fun r => Year r = y) clients)).

(** [l[i]] on a Python list. *)
Definition py_index {A : Type} (l : list A) (i : nat) : result A :=
  match l !! i with
  | Some a => Ok a
  | None => Raise IndexError
  end.

(** Lines 89-92, given the two sets. *)
Definition churn_rates (current next_year : gset string) : result (f64 * f64) :=
  if (0 <? size current)%nat then
    do q <- py_truediv (100 * Z.of_nat (size (current ∖ next_year)))
                       (Z.of_nat (size current));
    let churn_rate := py_round1 q in
    Ok (churn_rate, fsub (f64_of_Z 100) churn_rate)
  else Ok (NaN, NaN).

(** The body of the loop of line 85 for one [(i, year)]. *)
Definition churn_body (clients : list ClientRow) (years : list Z) (i : nat)
    (year : Z) : result ChurnRow :=
  let current := companies_in clients year in
  do y' <- py_index years (i + 1);
  let next_year := companies_in clients y' in
  do rates <- churn_rates current next_year;
  Ok (mkChurn year rates.1 rates.2).

(** The loop of line 85 over the rest of [enumerate(years[:-1])];
    [churn_data] is the list appended to. *)
Fixpoint churn_loop (clients : list ClientRow) (years : list Z) (i : nat)
    (todo : list Z) (churn_data : list ChurnRow) : result (list ChurnRow) :=
  match todo with
  | [] => Ok churn_data
  | year :: todo' =>
      do row <- churn_body clients years i year;
      churn_loop clients years (S i) todo' (churn_data ++ [row])
  end.

Definition years_of (clients : list ClientRow) : list Z :=
  sorted_unique (fmap Year clients).

Definition churn_data_of (clients : list ClientRow) : result (list ChurnRow) :=
  let years := years_of clients in
  churn_loop clients years 0 (removelast years) [].

(** [churn_df[col]] (lines 98 and 100).  [pd.DataFrame(churn_data)] takes
    its columns from the keys of the dicts, so the frame built from the
    empty list has no column and the lookup raises KeyError, here [None]. *)
Definition churn_column {A : Type} (col : ChurnRow -> A)
    (churn_df : list ChurnRow) : option (list A) :=
  match churn_df with
  | [] => None
  | _ => Some (col <$> churn_df)
  end.

(** The [x] and [y] columns of the two traces of [fig5] (lines 98-101). *)
Definition fig5_traces (churn_df : list ChurnRow)
    : option ((list Z * list f64) * (list Z * list f64)) :=
  x1 ← churn_column churn_Year churn_df;
  y1 ← churn_column Churn churn_df;
  x2 ← churn_column churn_Year churn_df;
  y2 ← churn_column Retention churn_df;
  Some ((x1, y1), (x2, y2)).

(** ** 6. Financial performance (line 112) *)

Definition Profit_Margin (r : FinanceRow) : f64 :=
  np_round 1 (fmul (fdiv (Total_Profit r) (Total_Sales r)) (f64_of_Z 100)).

Definition Profit_Margin_of (finance : list FinanceRow) : list f64 :=
  fmap Profit_Margin finance.

(** ** 10. Key clients contribution (lines 119-127) *)

(** Row shapes of the tables of this section, each column added by the
    script being one more component on the right:
    [client_contracts] is [((Department, Company), Renewal_No)], then
    [+ Total_Contracts]; the first merge adds the matching row of
    [finance[["Department", "Year", "Total Profit"]]], if any; the second
    merge adds the matching row of [dept_totals]; then [Contracts_Share_%]
    and [Estimated_Profit]. *)
Abbreviation ContractRow := ((string * string) * Z)%type.
Abbreviation Contract := (ContractRow * Z)%type.
Abbreviation Merged1 := (Contract * option (string * Z * f64))%type.
Abbreviation Merged2 := (Merged1 * option (string * Z))%type.
Abbreviation Merged3 := (Merged2 * f64)%type.
Abbreviation ProfitRow := (Merged3 * f64)%type.

Definition m_Department (m : Merged1) : string := m.1.1.1.1.
Definition m_Company (m : Merged1) : string := m.1.1.1.2.
Definition m_Renewal_No (m : Merged1) : Z := m.1.1.2.
Definition m_Total_Contracts (m : Merged1) : Z := m.1.2.
(** The right columns are null where no finance row matched. *)
Definition m_Year (m : Merged1) : option Z := (fun f => f.1.2) <$> m.2.
Definition m_Total_Profit (m : Merged1) : f64 :=
  match m.2 with Some f => f.2 | None => NaN end.
Definition Dept_Total_Contracts (r : Merged2) : option Z := snd <$> r.2.

Definition p_Department (r : ProfitRow) : string := m_Department r.1.1.1.
Definition p_Company (r : ProfitRow) : string := m_Company r.1.1.1.
Definition p_Total_Contracts (r : ProfitRow) : Z := m_Total_Contracts r.1.1.1.
Definition p_Year (r : ProfitRow) : option Z := m_Year r.1.1.1.
Definition p_Total_Profit (r : ProfitRow) : f64 := m_Total_Profit r.1.1.1.
Definition p_Dept_Total_Contracts (r : ProfitRow) : option Z := Dept_Total_Contracts r.1.1.
Definition Contracts_Share (r : ProfitRow) : f64 := r.1.2.
Definition Estimated_Profit (r : ProfitRow) : f64 := r.2.

(** The key of line 119. *)
Definition pair_of (r : ClientRow) : string * string :=
  (Department r, Company r).

(** Line 119. *)
Definition client_contracts_of (clients : list ClientRow) : list ContractRow :=
  groupby pair_of (fun g => max_list (fmap Renewal_No g)) clients.

(** Line 120. *)
Definition add_Total_Contracts (rows : list ContractRow) : list Contract :=
  fmap (fun r => (r, i64_add r.2 1)) rows.

(** [finance[["Department", "Year", "Total Profit"]]]. *)
Definition finance_columns (finance : list FinanceRow) : list (string * Z * f64) :=
  fmap (fun f => (fin_Department f, fin_Year f, Total_Profit f)) finance.

(** Line 121. *)
Definition merge_finance (contracts : list Contract)
    (fin : list (string * Z * f64)) : list Merged1 :=
  merge_left (fun l : Contract => l.1.1.1) (fun f : string * Z * f64 => f.1.1)
             contracts fin.

(** Line 122. *)
Definition dept_totals_of (contracts : list Contract) : list (string * Z) :=
  groupby (fun r : Contract => r.1.1.1) (fun g => i64_sum (fmap snd g)) contracts.

(** Line 123. *)
Definition merge_totals (merged : list Merged1) (totals : list (string * Z))
    : list Merged2 :=
  merge_left m_Department fst merged totals.

(** Line 124, for one row. *)
Definition Contracts_Share_of (r : Merged2) : f64 :=
  np_round 1
    match Dept_Total_Contracts r with
    | Some t => fdiv (f64_of_Z (i64_mul 100 (m_Total_Contracts r.1))) (f64_of_Z t)
    | None => NaN
    end.

Definition add_Contracts_Share (rows : list Merged2) : list Merged3 :=
  fmap (fun r => (r, Contracts_Share_of r)) rows.

(** Line 125, for one row. *)
Definition Estimated_Profit_of (r : Merged3) : f64 :=
  np_round 2 (fmul (fdiv r.2 (f64_of_Z 100)) (m_Total_Profit r.1.1)).

Definition add_Estimated_Profit (rows : list Merged3) : list ProfitRow :=
  fmap (fun r => (r, Estimated_Profit_of r)) rows.

(** [x >= y] on float64: false when either is NaN. *)
Definition fge (x y : f64) : bool :=
  match SFcompare x y with
  | Some Gt | Some Eq => true
  | _ => false
  end.

(** Floats of one sign compare by exponent, then mantissa. *)
Definition lex_cmp (e1 : Z) (m1 : positive) (e2 : Z) (m2 : positive) : comparison :=
  match e1 ?= e2 with
  | Eq => (m1 ?= m2)%positive
  | c => c
  end.

(** Descending order on a float64 column with the nulls last, as
    [sort_values(ascending=False)] orders it: [x] may come before [y]. *)
Definition desc_nan_last (x y : f64) : bool :=
  match y with
  | S754_nan => true
  | _ => match SFcompare x y with
         | Some Gt | Some Eq => true
         | _ => false
         end
  end.

(** The order of [sort_values(["Department", "Estimated_Profit"],
    ascending=[True, False])]. *)
Definition sort_le (r1 r2 : ProfitRow) : bool :=
  match cmp (p_Department r1) (p_Department r2) with
  | Lt => true
  | Gt => false
  | Eq => desc_nan_last (Estimated_Profit r1) (Estimated_Profit r2)
  end.

(** [x] ties with [r] in that order: same department, and neither
    [Estimated_Profit] has to come before the other. *)
Definition tied (r x : ProfitRow) : bool :=
  bool_decide (p_Department x = p_Department r)
  && desc_nan_last (Estimated_Profit x) (Estimated_Profit r)
  && desc_nan_last (Estimated_Profit r) (Estimated_Profit x).

(** Line 126. *)
Definition sort_values (rows : list ProfitRow) : list ProfitRow :=
  stable_sort sort_le rows.

(** Line 127. *)
Definition head_15 (rows : list ProfitRow) : list ProfitRow :=
  groupby_head p_Department 15 rows.

(** The [Dept_Total_Contracts] of a department: the int64 sum of the
    [Total_Contracts] of its rows of [client_contracts]. *)
Definition dept_total (contracts : list Contract) (d : string) : Z :=
  i64_sum (fmap snd (filter (fun c : Contract => c.1.1.1 = d) contracts)).

(** A row of the first merge with the three columns lines 123-125 add. *)
Definition full_row (contracts : list Contract) (m : Merged1) : ProfitRow :=
  let r2 := (m, Some (m_Department m, dept_total contracts (m_Department m))) in
  let r3 := (r2, Contracts_Share_of r2) in
  (r3, Estimated_Profit_of r3).

(** [merged_clients_profit] after line 125, as a function of the cleaned
    tables. *)
Definition merged_clients_profit_of (clients : list ClientRow)
    (finance : list FinanceRow) : list ProfitRow :=
  let contracts := add_Total_Contracts (client_contracts_of clients) in
  add_Estimated_Profit
    (add_Contracts_Share
       (merge_totals (merge_finance contracts (finance_columns finance))
                     (dept_totals_of contracts))).

Definition top_clients_15_of (clients : list ClientRow)
    (finance : list FinanceRow) : list ProfitRow :=
  head_15 (sort_values (merged_clients_profit_of clients finance)).

(** ** The script: variables, statements, run *)

(** What a variable of the script holds.  A DataFrame is the list of its
    rows; a DataFrame that gets a column assigned or its columns renamed
    later has one constructor before and one after. *)
Inductive value : Type :=
  | VClients (rows : list ClientRow)
  | VClientsF (rows : list ClientRowF)
  | VFinance (rows : list FinanceRow)
  | VFinanceMargin (rows : list (FinanceRow * f64))
  | VYearly (rows : list (Z * Z))
  | VYearlyGrowth (rows : list (Z * Z * f64))
  | VValueCounts (rows : list (Z * Z))
  | VCounts (rows : list (Z * Z))
  | VByDept (rows : list (string * Z))
  | VShare (rows : list (string * Z * f64))
  | VYears (l : list Z)
  | VDicts (l : list ChurnRow)
  | VChurn (rows : list ChurnRow)
  | VTraces (xy : (list Z * list f64) * (list Z * list f64))
  | VContractRows (rows : list ContractRow)
  | VContracts (rows : list Contract)
  | VMerged1 (rows : list Merged1)
  | VMerged2 (rows : list Merged2)
  | VMerged3 (rows : list Merged3)
  | VProfit (rows : list ProfitRow).

(** The module namespace.  No two variables of the script are bound to
    the same object, so a name maps to its value and an in-place update of
    an object is an update of its one name. *)
Abbreviation Env := (gmap string value).

Definition stmt : Type := Env -> result Env.

Definition var (x : string) (s : Env) : result value :=
  match s !! x with
  | Some v => Ok v
  | None => Raise NameError
  end.

Definition assign (x : string) (v : value) (s : Env) : result Env :=
  Ok (<[x := v]> s).

(** How a run ends.  [NotModelled]: the run has reached line 119 with a
    float64 [Renewal_No] column; lines 119-127 are then float64
    arithmetic, which this development has for an int64 column only. *)
Inductive outcome : Type :=
  | Finished (s : Env)
  | Aborted (e : exn) (s : Env)
  | NotModelled (s : Env).

(** Statements run in order; the first exception ends the run, leaving
    the variables as they were when it was raised. *)
Fixpoint exec (prog : list stmt) (s : Env) : outcome :=
  match prog with
  | [] => Finished s
  | c :: prog' =>
      match c s with
      | Ok s' => exec prog' s'
      | Raise e => Aborted e s
      end
  end.

Section Statements.

Local Open Scope string_scope.

(** Lines 13 and 18-30. *)
Definition line_30 (clients_xlsx : list RawClient) : stmt := fun s =>
  if int64_column clients_xlsx
  then assign "clients" (VClients (clean_clients clients_xlsx)) s
  else assign "clients" (VClientsF (clean_clients_f clients_xlsx)) s.

(** Lines 14 and 35-36. *)
Definition line_36 (finance_xlsx : list RawFinance) : stmt := fun s =>
  do rows <- clean_finance finance_xlsx;
  assign "finance" (VFinance rows) s.

Definition line_41 : stmt := fun s =>
  do v <- var "clients" s;
  match v with
  | VClients c => assign "clients_per_year" (VYearly (clients_per_year_of c)) s
  | VClientsF c =>
      assign "clients_per_year"
             (VYearly (clients_per_year_of (without_renewal <$> c))) s
  | _ => Raise TypeError
  end.

Definition line_42 : stmt := fun s =>
  do v <- var "clients_per_year" s;
  match v with
  | VYearly rows => assign "clients_per_year" (VYearlyGrowth (zip rows (Growth_of rows))) s
  | _ => Raise TypeError
  end.

Definition line_51 : stmt := fun s =>
  do v <- var "clients" s;
  match v with
  | VClients c => assign "renewal_counts" (VValueCounts (renewal_counts_of c)) s
  | VClientsF c => assign "renewal_counts" (VValueCounts (renewal_counts_f c)) s
  | _ => Raise TypeError
  end.

(** Line 52: the two columns of [renewal_counts] get their names, the
    rows stay. *)
Definition line_52 : stmt := fun s =>
  do v <- var "renewal_counts" s;
  match v with
  | VValueCounts rows => assign "renewal_counts" (VCounts rows) s
  | _ => Raise TypeError
  end.

Definition line_62 : stmt := fun s =>
  do v <- var "clients" s;
  match v with
  | VClients c => assign "dept_share" (VByDept (contracts_by_department c)) s
  | VClientsF c =>
      assign "dept_share"
             (VByDept (contracts_by_department (without_renewal <$> c))) s
  | _ => Raise TypeError
  end.

Definition line_63 : stmt := fun s =>
  do v <- var "dept_share" s;
  match v with
  | VByDept rows => assign "dept_share" (VShare (zip rows (Share_of rows))) s
  | _ => Raise TypeError
  end.

Definition line_72 : stmt := fun s =>
  do v <- var "clients" s;
  match v with
  | VClients c => assign "first_contracts" (VClients (first_contracts_of c)) s
  | VClientsF c =>
      assign "first_contracts"
             (VClientsF (filter (fun r => f_Renewal_No r = Some 0) c)) s
  | _ => Raise TypeError
  end.

Definition line_73 : stmt := fun s =>
  do v <- var "first_contracts" s;
  match v with
  | VClients c => assign "first_share" (VByDept (contracts_by_department c)) s
  | VClientsF c =>
      assign "first_share"
             (VByDept (contracts_by_department (without_renewal <$> c))) s
  | _ => Raise TypeError
  end.

Definition line_74 : stmt := fun s =>
  do v <- var "first_share" s;
  match v with
  | VByDept rows => assign "first_share" (VShare (zip rows (Share_of rows))) s
  | _ => Raise TypeError
  end.

Definition line_83 : stmt := fun s =>
  do v <- var "clients" s;
  match v with
  | VClients c => assign "years" (VYears (years_of c)) s
  | VClientsF c => assign "years" (VYears (years_of (without_renewal <$> c))) s
  | _ => Raise TypeError
  end.

Definition line_84 : stmt := fun s => assign "churn_data" (VDicts []) s.

(** Lines 85-92. *)
Definition line_85 : stmt := fun s =>
  do vc <- var "clients" s;
  do vy <- var "years" s;
  do vd <- var "churn_data" s;
  match vc, vy, vd with
  | VClients c, VYears ys, VDicts acc =>
      do l <- churn_loop c ys 0 (removelast ys) acc;
      assign "churn_data" (VDicts l) s
  | VClientsF c, VYears ys, VDicts acc =>
      do l <- churn_loop (without_renewal <$> c) ys 0 (removelast ys) acc;
      assign "churn_data" (VDicts l) s
  | _, _, _ => Raise TypeError
  end.

Definition line_94 : stmt := fun s =>
  do v <- var "churn_data" s;
  match v with
  | VDicts l => assign "churn_df" (VChurn l) s
  | _ => Raise TypeError
  end.

(** Lines 97-101: [fig5] with its two traces, which read the columns of
    [churn_df]. *)
Definition line_98 : stmt := fun s =>
  do v <- var "churn_df" s;
  match v with
  | VChurn rows =>
      match fig5_traces rows with
      | Some xy => assign "fig5" (VTraces xy) s
      | None => Raise KeyError
      end
  | _ => Raise TypeError
  end.

Definition line_112 : stmt := fun s =>
  do v <- var "finance" s;
  match v with
  | VFinance rows => assign "finance" (VFinanceMargin (zip rows (Profit_Margin_of rows))) s
  | _ => Raise TypeError
  end.

(** Lines 119-127 are given for an int64 [Renewal_No] column. *)
Definition line_119 : stmt := fun s =>
  do v <- var "clients" s;
  match v with
  | VClients c => assign "client_contracts" (VContractRows (client_contracts_of c)) s
  | _ => Raise TypeError
  end.

Definition line_120 : stmt := fun s =>
  do v <- var "client_contracts" s;
  match v with
  | VContractRows rows => assign "client_contracts" (VContracts (add_Total_Contracts rows)) s
  | _ => Raise TypeError
  end.

Definition line_121 : stmt := fun s =>
  do vc <- var "client_contracts" s;
  do vf <- var "finance" s;
  match vc, vf with
  | VContracts cc, VFinance rows =>
      assign "merged_clients_profit" (VMerged1 (merge_finance cc (finance_columns rows))) s
  | VContracts cc, VFinanceMargin rows =>
      assign "merged_clients_profit"
             (VMerged1 (merge_finance cc (finance_columns (fmap fst rows)))) s
  | _, _ => Raise TypeError
  end.

Definition line_122 : stmt := fun s =>
  do v <- var "client_contracts" s;
  match v with
  | VContracts cc => assign "dept_totals" (VByDept (dept_totals_of cc)) s
  | _ => Raise TypeError
  end.

Definition line_123 : stmt := fun s =>
  do vm <- var "merged_clients_profit" s;
  do vt <- var "dept_totals" s;
  match vm, vt with
  | VMerged1 m, VByDept t => assign "merged_clients_profit" (VMerged2 (merge_totals m t)) s
  | _, _ => Raise TypeError
  end.

Definition line_124 : stmt := fun s =>
  do v <- var "merged_clients_profit" s;
  match v with
  | VMerged2 m => assign "merged_clients_profit" (VMerged3 (add_Contracts_Share m)) s
  | _ => Raise TypeError
  end.

Definition line_125 : stmt := fun s =>
  do v <- var "merged_clients_profit" s;
  match v with
  | VMerged3 m => assign "merged_clients_profit" (VProfit (add_Estimated_Profit m)) s
  | _ => Raise TypeError
  end.

Definition line_126 : stmt := fun s =>
  do v <- var "merged_clients_profit" s;
  match v with
  | VProfit m => assign "top_clients_per_dept" (VProfit (sort_values m)) s
  | _ => Raise TypeError
  end.

Definition line_127 : stmt := fun s =>
  do v <- var "top_clients_per_dept" s;
  match v with
  | VProfit m => assign "top_clients_15" (VProfit (head_15 m)) s
  | _ => Raise TypeError
  end.

(** The cleaning statements (the Normalizer) and the analyzers.  The
    other chart statements (lines 44-46, 54-57, 65-67, 76-78, 102-103,
    108-111, 113-114, 129-135) read a table and bind a figure that no
    statement reads; they are left out. *)
Definition normalizer (clients_xlsx : list RawClient)
    (finance_xlsx : list RawFinance) : list stmt :=
  [line_30 clients_xlsx; line_36 finance_xlsx].

(** Sections 1 to 6 of the script. *)
Definition sections_1_to_6 : list stmt :=
  [line_41; line_42; line_51; line_52; line_62; line_63; line_72; line_73;
   line_74; line_83; line_84; line_85; line_94; line_98; line_112].

(** Section 10. *)
Definition section_10 : list stmt :=
  [line_119; line_120; line_121; line_122; line_123; line_124; line_125;
   line_126; line_127].

Definition analyzers : list stmt :=
  [line_41; line_42; line_51; line_52; line_62; line_63; line_72; line_73;
   line_74; line_83; line_84; line_85; line_94; line_98; line_112; line_119;
   line_120; line_121; line_122; line_123; line_124; line_125; line_126;
   line_127].

(** Every variable an analyzer binds. *)
Definition analyzer_vars : list string :=
  ["clients_per_year"; "renewal_counts"; "dept_share"; "first_contracts";
   "first_share"; "years"; "churn_data"; "churn_df"; "fig5";
   "client_contracts"; "merged_clients_profit"; "dept_totals";
   "top_clients_per_dept"; "top_clients_15"].

End Statements.

(** The whole script, from the two loaded tables. *)
Definition dashboard (clients_xlsx : list RawClient)
    (finance_xlsx : list RawFinance) : outcome :=
  match exec (normalizer clients_xlsx finance_xlsx) ∅ with
  | Finished s =>
      if int64_column clients_xlsx then exec analyzers s
      else match exec sections_1_to_6 s with
           | Finished s' => NotModelled s'
           | o => o
           end
  | o => o
  end.

(** ** Measures and example tables used by the theorems *)

(** The exact sum of the [Share_%] column of a market-share view. *)
Definition share_sum (view : list (string * Z * f64)) : Q :=
  foldr Qplus 0%Q (F2Q <$> view.*2).

(** [| q - 100 | <= 0.1]. *)
Definition within_tenth_of_100 (q : Q) : bool :=
  Qle_bool (Qabs (q - 100)) (1 # 10).

(** Six departments with one first contract each. *)
Definition six_departments : list ClientRow :=
  [mkClient "C1" "D1" 0 2020; mkClient "C2" "D2" 0 2020;
   mkClient "C3" "D3" 0 2020; mkClient "C4" "D4" 0 2020;
   mkClient "C5" "D5" 0 2020; mkClient "C6" "D6" 0 2020]%string.

(** A finance row with no sales and a profit of 250. *)
Definition zero_sales_row : FinanceRow :=
  mkFinance "Sales" 2020 (S754_zero false) (f64_of_Z 250).

(** A finance row with sales of 80 and a profit of 23: a margin of
    exactly 28.75 percent. *)
Definition sales_80_row : FinanceRow :=
  mkFinance "Sales" 2021 (f64_of_Z 80) (f64_of_Z 23).

(** The example of the specification: A renews in 2021, B does not. *)
Definition three_contracts : list ClientRow :=
  [mkClient "A" "Sales" 0 2020; mkClient "A" "Sales" 1 2021;
   mkClient "B" "Sales" 0 2020]%string.

(** The largest [Renewal_No] among all rows of a company, whatever the
    department. *)
Definition company_max (clients : list ClientRow) (c : string) : Z :=
  max_list (Renewal_No <$> filter (fun r => Company r = c) clients).

(** The largest [Renewal_No] among the rows of a (Department, Company)
    pair. *)
Definition pair_max (clients : list ClientRow) (k : string * string) : Z :=
  max_list (Renewal_No <$> filter (fun r => pair_of r = k) clients).

(** Company A holds an original contract in Sales and a third renewal in
    Ops; one finance row for Sales. *)
Definition two_departments : list ClientRow :=
  [mkClient "A" "Sales" 0 2020; mkClient "A" "Ops" 3 2021]%string.

Definition sales_2021 : list FinanceRow :=
  [mkFinance "Sales" 2021 (f64_of_Z 1000) (f64_of_Z 250)]%string.

(** Sixteen companies of one department, Ops, each with one contract,
    the first fifteen of 2020 and the last of 2021. *)
Definition sixteen_companies : list ClientRow :=
  ((fun c => mkClient c "Ops" 0 2020)
   <$> ["C01"; "C02"; "C03"; "C04"; "C05"; "C06"; "C07"; "C08";
        "C09"; "C10"; "C11"; "C12"; "C13"; "C14"; "C15"]%string)
  ++ [mkClient "C16" "Ops" 0 2021]%string.

(** Sixteen companies of Sales over two years, company [Cnn] with the
    renewal number [nn]: sixteen different contract counts. *)
Definition sixteen_in_sales : list ClientRow :=
  [mkClient "C01" "Sales" 1 2020; mkClient "C02" "Sales" 2 2020;
   mkClient "C03" "Sales" 3 2020; mkClient "C04" "Sales" 4 2020;
   mkClient "C05" "Sales" 5 2020; mkClient "C06" "Sales" 6 2020;
   mkClient "C07" "Sales" 7 2020; mkClient "C08" "Sales" 8 2020;
   mkClient "C09" "Sales" 9 2021; mkClient "C10" "Sales" 10 2021;
   mkClient "C11" "Sales" 11 2021; mkClient "C12" "Sales" 12 2021;
   mkClient "C13" "Sales" 13 2021; mkClient "C14" "Sales" 14 2021;
   mkClient "C15" "Sales" 15 2021; mkClient "C16" "Sales" 16 2021]%string.

(** Two companies of Sales: A with one contract, B with four. *)
Definition one_and_four : list ClientRow :=
  [mkClient "A" "Sales" 0 2020; mkClient "B" "Sales" 0 2020;
   mkClient "B" "Sales" 3 2021]%string.

(** A sheet where company B has no renewal number. *)
Definition blank_renewal_sheet : list RawClient :=
  [mkRawClient (Some "A") (Some "Sales") (Some 0) (Some 2020);
   mkRawClient (Some "A") (Some "Sales") (Some 1) (Some 2021);
   mkRawClient (Some "B") (Some "Ops") None (Some 2020)]%string.

(** ** States of the run *)

Section States.
Local Open Scope string_scope.

(** The variables when the Normalizer has finished on a sheet whose
    [Renewal_No] column is int64, and on one where it is float64. *)
Definition normalized (c : list ClientRow) (f : list FinanceRow) : Env :=
  <["finance" := VFinance f]> (<["clients" := VClients c]> ∅).

Definition normalized_f (c : list ClientRowF) (f : list FinanceRow) : Env :=
  <["finance" := VFinance f]> (<["clients" := VClientsF c]> ∅).

(** The rows of [churn_df] (no row if the loop raised). *)
Definition churn_rows_of (c : list ClientRow) : list ChurnRow :=
  match churn_data_of c with
  | Ok rows => rows
  | Raise _ => []
  end.

(** The columns the traces of [fig5] read when [churn_df] has rows. *)
Definition traces_of (c : list ClientRow)
    : (list Z * list f64) * (list Z * list f64) :=
  let rows := churn_rows_of c in
  ((churn_Year <$> rows, Churn <$> rows), (churn_Year <$> rows, Retention <$> rows)).

(** What each variable holds when line 98 is reached. *)
Definition vars_at_line_98 (c : list ClientRow) (f : list FinanceRow)
    : list (string * value) :=
  [("clients", VClients c);
   ("finance", VFinance f);
   ("clients_per_year",
    VYearlyGrowth (zip (clients_per_year_of c) (Growth_of (clients_per_year_of c))));
   ("renewal_counts", VCounts (renewal_counts_of c));
   ("dept_share", VShare (share_view c));
   ("first_contracts", VClients (first_contracts_of c));
   ("first_share", VShare (share_view (first_contracts_of c)));
   ("years", VYears (years_of c));
   ("churn_data", VDicts (churn_rows_of c));
   ("churn_df", VChurn (churn_rows_of c))].

(** What each variable holds when the script has finished. *)
Definition final_vars (c : list ClientRow) (f : list FinanceRow)
    : list (string * value) :=
  let contracts := add_Total_Contracts (client_contracts_of c) in
  [("clients", VClients c);
   ("finance", VFinanceMargin (zip f (Profit_Margin_of f)));
   ("clients_per_year",
    VYearlyGrowth (zip (clients_per_year_of c) (Growth_of (clients_per_year_of c))));
   ("renewal_counts", VCounts (renewal_counts_of c));
   ("dept_share", VShare (share_view c));
   ("first_contracts", VClients (first_contracts_of c));
   ("first_share", VShare (share_view (first_contracts_of c)));
   ("years", VYears (years_of c));
   ("churn_data", VDicts (churn_rows_of c));
   ("churn_df", VChurn (churn_rows_of c));
   ("fig5", VTraces (traces_of c));
   ("client_contracts", VContracts contracts);
   ("merged_clients_profit", VProfit (merged_clients_profit_of c f));
   ("dept_totals", VByDept (dept_totals_of contracts));
   ("top_clients_per_dept", VProfit (sort_values (merged_clients_profit_of c f)));
   ("top_clients_15", VProfit (top_clients_15_of c f))].

(** Each analyzer statement with the variable it assigns. *)
Definition assigned_by : list (stmt * string) :=
  [(line_41, "clients_per_year"); (line_42, "clients_per_year");
   (line_51, "renewal_counts"); (line_52, "renewal_counts");
   (line_62, "dept_share");
   (line_63, "dept_share"); (line_72, "first_contracts");
   (line_73, "first_share"); (line_74, "first_share");
   (line_83, "years"); (line_84, "churn_data"); (line_85, "churn_data");
   (line_94, "churn_df"); (line_98, "fig5"); (line_112, "finance");
   (line_119, "client_contracts"); (line_120, "client_contracts");
   (line_121, "merged_clients_profit"); (line_122, "dept_totals");
   (line_123, "merged_clients_profit"); (line_124, "merged_clients_profit");
   (line_125, "merged_clients_profit"); (line_126, "top_clients_per_dept");
   (line_127, "top_clients_15")].

(** The statements that update a table that already exists: line 52
    renames the columns of [renewal_counts]
    ([renewal_counts.columns = ...]), the others assign a column
    ([df[col] = ...]). *)
Definition updates_in_place : list (stmt * string) :=
  [(line_42, "clients_per_year"); (line_52, "renewal_counts");
   (line_63, "dept_share");
   (line_74, "first_share"); (line_112, "finance");
   (line_120, "client_contracts"); (line_124, "merged_clients_profit");
   (line_125, "merged_clients_profit")].

End States.

(** [v'] is the table [v] with one more column: same rows, same values
    in the columns [v] has. *)
Definition adds_column (v v' : value) : Prop :=
  match v, v' with
  | VFinance r, VFinanceMargin r' => r'.*1 = r
  | VYearly r, VYearlyGrowth r' => r'.*1 = r
  | VByDept r, VShare r' => r'.*1 = r
  | VContractRows r, VContracts r' => r'.*1 = r
  | VMerged2 r, VMerged3 r' => r'.*1 = r
  | VMerged3 r, VProfit r' => r'.*1 = r
  | _, _ => False
  end.

(** [v'] is the table [v] with its columns renamed: same rows, same
    values. *)
Definition renames_columns (v v' : value) : Prop :=
  match v, v' with
  | VValueCounts r, VCounts r' => r' = r
  | _, _ => False
  end.

(** The variables after the first [n] analyzer statements, from the
    normalized tables. *)
Definition state_after (n : nat) (c : list ClientRow) (f : list FinanceRow)
    : option Env :=
  match exec (take n analyzers) (normalized c f) with
  | Finished s => Some s
  | _ => None
  end.

(** No table that a variable holds at some point of the run is different
    at a later point. *)
Definition never_updated (c : list ClientRow) (f : list FinanceRow) : Prop :=
  forall (n m : nat) (s s' : Env) (x : string) (v : value),
    (n <= m)%nat ->
    state_after n c f = Some s -> state_after m c f = Some s' ->
    s !! x = Some v -> s' !! x = Some v.

(** Finance sheets: one whose second year is not a number, one that is
    clean. *)
Definition finance_bad_year : list RawFinance :=
  [mkRawFinance "Sales" (Some 2021) (f64_of_Z 1000) (f64_of_Z 250);
   mkRawFinance "Sales" None (f64_of_Z 900) (f64_of_Z 200)]%string.

Definition finance_clean : list RawFinance :=
  [mkRawFinance "Sales" (Some 2021) (f64_of_Z 1000) (f64_of_Z 250)]%string.

Definition clients_sheet : list RawClient :=
  [mkRawClient (Some "A") (Some "Sales") (Some 0) (Some 2020);
   mkRawClient (Some "A") (Some "Sales") (Some 1) (Some 2021);
   mkRawClient (Some "B") (Some "Sales") (Some 0) (Some 2020);
   mkRawClient None (Some "Ops") (Some 0) (Some 2020)]%string.

(** A sheet whose rows are all of 2020: one year only. *)
Definition one_year_sheet : list RawClient :=
  [mkRawClient (Some "A") (Some "Sales") (Some 0) (Some 2020);
   mkRawClient (Some "B") (Some "Sales") (Some 0) (Some 2020)]%string.

(** ** The table of the last chart, and the sections of the script *)

(** The table [fig_top15] draws (line 129): [top_clients_15] sorted once
    more by the order of line 126. *)
Definition fig_top15_rows (top_clients_15 : list ProfitRow) : list ProfitRow :=
  sort_values top_clients_15.

Section Blocks.
Local Open Scope string_scope.

(** The analyzers section by section of the script, each with the
    variable its chart reads. *)
Definition analyzer_blocks : list (list stmt * string) :=
  [([line_41; line_42], "clients_per_year");
   ([line_51; line_52], "renewal_counts");
   ([line_62; line_63], "dept_share");
   ([line_72; line_73; line_74], "first_share");
   ([line_83; line_84; line_85; line_94; line_98], "churn_df");
   ([line_112], "finance");
   ([line_119; line_120; line_121; line_122; line_123; line_124; line_125;
     line_126; line_127], "top_clients_15")].

End Blocks.

(** One client in one year. *)
Definition one_year : list ClientRow :=
  [mkClient "A" "Sales" 0 2020]%string.

(* ===================================================================== *)
(** * Part II. Lemmas and theorems *)
(* ===================================================================== *)

(** ** The key orders are strict total orders *)

#[export] Instance Z_cmp_laws : CmpLaws Z.
Proof.
  split; unfold cmp, Z_cmp.
  - intros a b. apply Z.compare_eq_iff.
  - intros a b. apply Z.compare_antisym.
  - intros a b c. rewrite !Z.compare_lt_iff. lia.
Qed.

Lemma ascii_compare_refl (a : ascii) : Ascii.compare a a = Eq.
Proof. unfold Ascii.compare. apply N.compare_refl. Qed.

Lemma ascii_compare_trans (a b c : ascii) :
  Ascii.compare a b = Lt -> Ascii.compare b c = Lt -> Ascii.compare a c = Lt.
Proof. unfold Ascii.compare. rewrite !N.compare_lt_iff. lia. Qed.

Lemma string_compare_refl (s : string) : String.compare s s = Eq.
Proof.
  induction s as [|a s IH]; simpl; [done|]. by rewrite ascii_compare_refl.
Qed.

Lemma string_compare_trans (s1 s2 s3 : string) :
  String.compare s1 s2 = Lt -> String.compare s2 s3 = Lt ->
  String.compare s1 s3 = Lt.
Proof.
  revert s2 s3.
  induction s1 as [|a s1 IH]; intros [|b s2] [|c s3]; simpl; try done.
  destruct (Ascii.compare a b) eqn:Hab; try done;
    destruct (Ascii.compare b c) eqn:Hbc; try done; intros H12 H23.
  - apply Ascii.compare_eq_iff in Hab, Hbc. subst.
    rewrite ascii_compare_refl. eauto.
  - apply Ascii.compare_eq_iff in Hab. subst. by rewrite Hbc.
  - apply Ascii.compare_eq_iff in Hbc. subst. by rewrite Hab.
  - by rewrite (ascii_compare_trans a b c).
Qed.

#[export] Instance string_cmp_laws : CmpLaws string.
Proof.
  split; unfold cmp, string_cmp.
  - intros a b. split; [apply String.compare_eq_iff|].
    intros ->. apply string_compare_refl.
  - intros a b. apply String.compare_antisym.
  - apply string_compare_trans.
Qed.

#[export] Instance pair_cmp_laws {A B : Type} `{CmpLaws A, CmpLaws B} :
  CmpLaws (A * B).
Proof.
  split; unfold cmp, pair_cmp.
  - intros [a1 b1] [a2 b2]; simpl.
    destruct (cmp a1 a2) eqn:Ha.
    + apply cmp_eq in Ha as ->. rewrite cmp_eq. naive_solver.
    + split; [done|]. intros [= -> _].
      assert (cmp a2 a2 = Eq) by by apply cmp_eq. congruence.
    + split; [done|]. intros [= -> _].
      assert (cmp a2 a2 = Eq) by by apply cmp_eq. congruence.
  - intros [a1 b1] [a2 b2]; simpl.
    rewrite (cmp_antisym a1 a2).
    destruct (cmp a1 a2); simpl; try done. apply cmp_antisym.
  - intros [a1 b1] [a2 b2] [a3 b3]; simpl.
    destruct (cmp a1 a2) eqn:H12; try done;
      destruct (cmp a2 a3) eqn:H23; try done; intros Hb1 Hb2.
    + apply cmp_eq in H12, H23. subst.
      assert (cmp a3 a3 = Eq) as -> by by apply cmp_eq. eauto using cmp_trans.
    + apply cmp_eq in H12. subst. by rewrite H23.
    + apply cmp_eq in H23. subst. by rewrite H12.
    + by rewrite (cmp_trans a1 a2 a3).
Qed.

(** ** [sorted_unique] and [groupby] *)

Section SortedUnique.
Context {K : Type} `{CmpLaws K}.

Lemma cmp_refl (a : K) : cmp a a = Eq.
Proof. by apply cmp_eq. Qed.

Lemma cmp_gt_lt (a b : K) : cmp a b = Gt -> cmp b a = Lt.
Proof. intros Hab. by rewrite cmp_antisym, Hab. Qed.

Lemma elem_of_insert_key (x k : K) (l : list K) :
  x ∈ insert_key k l <-> x = k \/ x ∈ l.
Proof.
  induction l as [|y l IH]; simpl.
  - set_solver.
  - destruct (cmp k y) eqn:Hky.
    + apply cmp_eq in Hky as ->. set_solver.
    + set_solver.
    + rewrite !elem_of_cons, IH. tauto.
Qed.

Lemma elem_of_sorted_unique (x : K) (l : list K) :
  x ∈ sorted_unique l <-> x ∈ l.
Proof.
  unfold sorted_unique. induction l as [|y l IH]; simpl; [done|].
  rewrite elem_of_insert_key, elem_of_cons, IH. done.
Qed.

Lemma insert_key_sorted (k : K) (l : list K) :
  StronglySorted key_lt l -> StronglySorted key_lt (insert_key k l).
Proof.
  induction l as [|y l IH]; simpl; intros Hs.
  - repeat constructor.
  - apply StronglySorted_cons in Hs as [Hy Hs].
    destruct (cmp k y) eqn:Hky.
    + by apply StronglySorted_cons.
    + apply StronglySorted_cons. split; [|by apply StronglySorted_cons].
      constructor; [done|].
      eapply Forall_impl; [exact Hy|]. intros z Hz. by eapply cmp_trans.
    + apply StronglySorted_cons. split; [|auto].
      apply Forall_forall. intros z [->|Hz]%elem_of_insert_key.
      * by apply cmp_gt_lt.
      * by eapply Forall_forall in Hy.
Qed.

Lemma sorted_unique_sorted (l : list K) :
  StronglySorted key_lt (sorted_unique l).
Proof.
  unfold sorted_unique. induction l; simpl;
    [constructor | by apply insert_key_sorted].
Qed.

Lemma key_lt_sorted_NoDup (l : list K) : StronglySorted key_lt l -> NoDup l.
Proof.
  induction 1 as [|x l _ IH Hx]; constructor; [|done].
  intros Hin. eapply Forall_forall in Hx; [|done].
  unfold key_lt in Hx. by rewrite cmp_refl in Hx.
Qed.

Lemma sorted_unique_NoDup (l : list K) : NoDup (sorted_unique l).
Proof. apply key_lt_sorted_NoDup, sorted_unique_sorted. Qed.

End SortedUnique.

Section GroupBy.
Context {R K V : Type} `{CmpLaws K} `{EqDecision K}.
Implicit Types (key : R -> K) (agg : list R -> V) (rows : list R).

Lemma groupby_keys key agg rows :
  (groupby key agg rows).*1 = sorted_unique (key <$> rows).
Proof.
  unfold groupby.
  induction (sorted_unique (key <$> rows)) as [|k ks IH]; simpl; [done|].
  by f_equal.
Qed.

Lemma length_groupby key agg rows :
  length (groupby key agg rows) = length (sorted_unique (key <$> rows)).
Proof. unfold groupby. by rewrite length_fmap. Qed.

Lemma elem_of_groupby key agg rows (k : K) (v : V) :
  (k, v) ∈ groupby key agg rows <->
  k ∈ key <$> rows /\ v = agg (filter (fun r => key r = k) rows).
Proof.
  unfold groupby. rewrite list_elem_of_fmap. split.
  - intros (k' & Heq & Hk). simplify_eq.
    split; [by apply (proj1 (elem_of_sorted_unique _ _))|done].
  - intros [Hk ->]. exists k. split; [done|].
    by apply (proj2 (elem_of_sorted_unique _ _)).
Qed.

(** A key that occurs has a non-empty group. *)
Lemma group_nonempty key rows (k : K) :
  k ∈ key <$> rows -> filter (fun r => key r = k) rows <> [].
Proof.
  intros (r & -> & Hr)%list_elem_of_fmap Hnil.
  by eapply (filter_nil_not_elem_of _ _ r) in Hnil.
Qed.

End GroupBy.

(** ** The groups of a [groupby] partition the rows *)

Lemma sum_Z_zero {A : Type} (l : list A) : sum_Z ((fun _ => 0) <$> l) = 0.
Proof. unfold sum_Z. induction l; csimpl; lia. Qed.

Lemma sum_Z_add {A : Type} (f g : A -> Z) (l : list A) :
  sum_Z ((fun a => f a + g a) <$> l) = sum_Z (f <$> l) + sum_Z (g <$> l).
Proof. unfold sum_Z. induction l; csimpl; lia. Qed.

Lemma sum_Z_ext {A : Type} (f g : A -> Z) (l : list A) :
  (forall a, f a = g a) -> sum_Z (f <$> l) = sum_Z (g <$> l).
Proof.
  intros Hfg. unfold sum_Z. induction l; csimpl; [done|]. by rewrite Hfg, IHl.
Qed.

Lemma sum_Z_indicator_0 {K : Type} `{EqDecision K} (x : K) (ks : list K) :
  x ∉ ks -> sum_Z ((fun k => if decide (x = k) then 1 else 0) <$> ks) = 0.
Proof.
  induction ks as [|k ks IH]; [done|].
  rewrite not_elem_of_cons. intros [Hne Hx]. unfold sum_Z in *. csimpl.
  rewrite IH by done. by destruct (decide (x = k)).
Qed.

Lemma sum_Z_indicator {K : Type} `{EqDecision K} (x : K) (ks : list K) :
  NoDup ks -> x ∈ ks ->
  sum_Z ((fun k => if decide (x = k) then 1 else 0) <$> ks) = 1.
Proof.
  induction 1 as [|k ks Hk Hnd IH]; [by intros ?%elem_of_nil|].
  rewrite elem_of_cons. intros Hx. unfold sum_Z. csimpl.
  fold (sum_Z ((fun k => if decide (x = k) then 1 else 0) <$> ks)).
  destruct (decide (x = k)) as [->|Hne].
  - by rewrite sum_Z_indicator_0.
  - rewrite IH; [done|]. by destruct Hx.
Qed.

(** Over distinct keys that cover the rows, the group sizes add up to
    the number of rows. *)
Lemma group_sizes_sum {R K : Type} `{EqDecision K} (key : R -> K)
    (ks : list K) (rows : list R) :
  NoDup ks -> (forall r, r ∈ rows -> key r ∈ ks) ->
  sum_Z ((fun k => Z.of_nat (length (filter (fun r => key r = k) rows))) <$> ks)
  = Z.of_nat (length rows).
Proof.
  intros Hnd. induction rows as [|r rows IH]; intros Hcov.
  - simpl. apply sum_Z_zero.
  - rewrite (sum_Z_ext _ (fun k =>
      (if decide (key r = k) then 1 else 0)
      + Z.of_nat (length (filter (fun r => key r = k) rows)))).
    + rewrite sum_Z_add, IH, sum_Z_indicator; simpl; try lia; try done.
      * apply Hcov. by left.
      * intros r' Hr'. apply Hcov. by right.
    + intros k. rewrite filter_cons. destruct (decide (key r = k)); simpl; lia.
Qed.

Lemma sum_groupby_length {R K : Type} `{CmpLaws K} `{EqDecision K}
    (key : R -> K) (rows : list R) :
  sum_Z (groupby key (fun g => Z.of_nat (length g)) rows).*2
  = Z.of_nat (length rows).
Proof.
  unfold groupby. rewrite <- list_fmap_compose.
  rewrite <- (group_sizes_sum key (sorted_unique (key <$> rows)) rows).
  - done.
  - apply sorted_unique_NoDup.
  - intros r Hr. apply elem_of_sorted_unique, list_elem_of_fmap. eauto.
Qed.

(** ** [max_list] *)

Lemma max_list_spec (l : list Z) :
  l <> [] -> max_list l ∈ l /\ forall y, y ∈ l -> y <= max_list l.
Proof.
  destruct l as [|x l]; [done|intros _]. unfold max_list.
  induction l as [|z l IH]; simpl.
  - split; [by left|]. intros y ->%list_elem_of_singleton. lia.
  - destruct IH as [Hin Hle].
    assert (forall y, y ∈ x :: z :: l -> y = z \/ y ∈ x :: l) as Hsplit.
    { intros y. rewrite !elem_of_cons. tauto. }
    split.
    + destruct (Z.max_spec z (foldr Z.max x l)) as [[_ ->]|[_ ->]].
      * apply elem_of_cons in Hin as [Hin|Hin].
        -- rewrite Hin. by left.
        -- by do 2 right.
      * right. by left.
    + intros y [->|Hy]%Hsplit; [lia|]. specialize (Hle y Hy). lia.
Qed.

(** ** 2. Renewal frequency *)

Lemma key_lt_Z_sorted (l : list Z) :
  StronglySorted key_lt l -> StronglySorted Z.lt l.
Proof.
  induction 1 as [|x l _ IH Hx]; constructor; [done|].
  eapply Forall_impl; [exact Hx|]. intros y Hy. by apply Z.compare_lt_iff.
Qed.

Lemma size_sorted_unique (l : list string) :
  length (sorted_unique l) = size (list_to_set l : gset string).
Proof.
  rewrite <- (size_list_to_set (C := gset string) (sorted_unique l))
    by apply sorted_unique_NoDup.
  f_equal. apply set_eq. intros x.
  rewrite !elem_of_list_to_set. apply elem_of_sorted_unique.
Qed.

Lemma max_renewal_by_company_spec (clients : list ClientRow) (c : string) (m : Z) :
  (c, m) ∈ max_renewal_by_company clients ->
  (exists r, r ∈ clients /\ Company r = c /\ Renewal_No r = m)
  /\ forall r, r ∈ clients -> Company r = c -> Renewal_No r <= m.
Proof.
  unfold max_renewal_by_company. intros [Hc ->]%elem_of_groupby.
  apply group_nonempty in Hc.
  destruct (max_list_spec (Renewal_No <$> filter (fun r => Company r = c) clients))
    as [Hin Hmax].
  { by destruct (filter _ clients). }
  split.
  - apply list_elem_of_fmap in Hin as (r & Hr & [Hcr Hin]%list_elem_of_filter).
    exists r. by rewrite Hr.
  - intros r Hr Hcr. apply Hmax, list_elem_of_fmap. exists r.
    split; [done|]. by apply list_elem_of_filter.
Qed.

Lemma filter_fmap {A B : Type} (P : B -> Prop) `{forall y, Decision (P y)}
    (f : A -> B) (l : list A) :
  filter P (f <$> l) = f <$> filter (fun x => P (f x)) l.
Proof.
  induction l as [|x l IH]; [done|]. csimpl.
  rewrite !filter_cons, IH. by destruct (decide (P (f x))).
Qed.

Lemma filter_all {A : Type} (P : A -> Prop) `{forall x, Decision (P x)}
    (l : list A) :
  (forall x, x ∈ l -> P x) -> filter P l = l.
Proof.
  induction l as [|x l IH]; intros HP; [done|].
  rewrite filter_cons_True by (apply HP; by left).
  f_equal. apply IH. intros y Hy. apply HP. by right.
Qed.

Lemma filter_none {A : Type} (P : A -> Prop) `{forall x, Decision (P x)}
    (l : list A) :
  (forall x, x ∈ l -> ~ P x) -> filter P l = [].
Proof.
  induction l as [|x l IH]; intros HP; [done|].
  rewrite filter_cons_False by (apply HP; by left).
  apply IH. intros y Hy. apply HP. by right.
Qed.

Lemma filter_same_on {A : Type} (P Q : A -> Prop)
    `{forall x, Decision (P x), forall x, Decision (Q x)} (l : list A) :
  (forall x, x ∈ l -> P x <-> Q x) -> filter P l = filter Q l.
Proof.
  induction l as [|x l IH]; intros HPQ; [done|].
  rewrite !filter_cons, IH by (intros y Hy; apply HPQ; by right).
  pose proof (HPQ x (list_elem_of_here _ _)) as Hx.
  destruct (decide (P x)) as [HP|HP], (decide (Q x)) as [HQ|HQ];
    try done; tauto.
Qed.

(** [max()] with the NaN cells skipped. *)
Lemma max_skipna_None (l : list (option Z)) :
  max_skipna l = None <-> forall x, x ∈ l -> x = None.
Proof.
  unfold max_skipna. destruct (omap id l) as [|y l'] eqn:E; split; try done.
  - intros _ [x|] Hx; [|done].
    assert (x ∈ omap id l) as Hin by (apply list_elem_of_omap; eauto).
    rewrite E in Hin. by apply elem_of_nil in Hin.
  - intros Hnone.
    assert (y ∈ omap id l) as Hin by (rewrite E; left).
    apply list_elem_of_omap in Hin as (x & Hx & Hy). simpl in Hy. subst x.
    by specialize (Hnone _ Hx).
Qed.

Lemma max_skipna_Some (l : list (option Z)) (m : Z) :
  max_skipna l = Some m ->
  Some m ∈ l /\ forall n, Some n ∈ l -> n <= m.
Proof.
  unfold max_skipna. destruct (omap id l) as [|y l'] eqn:E; [done|].
  intros Hm. assert (m = max_list (omap id l)) as -> by (rewrite E; congruence).
  destruct (max_list_spec (omap id l)) as [Hin Hmax]; [by rewrite E|].
  clear Hm E. split.
  - apply list_elem_of_omap in Hin as (x & Hx & Hy). simpl in Hy. by subst x.
  - intros n Hn. apply Hmax, list_elem_of_omap. eauto.
Qed.

Lemma length_omap_filter {A B : Type} (f : A -> option B) (l : list A) :
  length (omap f l) = length (filter (fun a => is_Some (f a)) l).
Proof.
  induction l as [|a l IH]; [done|]. csimpl. rewrite filter_cons.
  destruct (f a) as [b|] eqn:E.
  - rewrite decide_True by eauto. simpl. by rewrite IH.
  - rewrite decide_False by (by intros [? ?]). done.
Qed.

Lemma omap_fmap {A B C : Type} (f : B -> option C) (g : A -> B) (l : list A) :
  omap f (g <$> l) = omap (fun a => f (g a)) l.
Proof.
  induction l as [|a l IH]; csimpl; [done|]. rewrite IH. by destruct (f (g a)).
Qed.

Lemma omap_fmap_some {A B : Type} (g : A -> B) (l : list A) :
  omap (fun a => Some (g a)) l = g <$> l.
Proof. induction l as [|a l IH]; csimpl; [done|]. by rewrite IH. Qed.

Lemma max_skipna_fmap_Some (l : list Z) :
  l <> [] -> max_skipna (Some <$> l) = Some (max_list l).
Proof.
  intros Hl. unfold max_skipna. rewrite omap_fmap. unfold id.
  rewrite omap_fmap_some, list_fmap_id. by destruct l.
Qed.

Lemma filter_as_float (clients : list ClientRow) (c : string) :
  filter (fun r => f_Company r = c) (as_float <$> clients)
  = as_float <$> filter (fun r => Company r = c) clients.
Proof.
  induction clients as [|r l IH]; [done|]. csimpl.
  rewrite !filter_cons, IH. cbn [as_float f_Company].
  by destruct (decide (Company r = c)).
Qed.

(** On a table without blank cells the float64 reading of line 51 gives
    the rows of the int64 reading. *)
Lemma renewal_counts_f_int64 (clients : list ClientRow) :
  renewal_counts_f (as_float <$> clients) = renewal_counts_of clients.
Proof.
  unfold renewal_counts_f, renewal_counts_of.
  assert (Hper : max_renewal_by_company_f (as_float <$> clients)
                 = (fun p => (p.1, Some p.2)) <$> max_renewal_by_company clients).
  { unfold max_renewal_by_company_f, max_renewal_by_company, groupby.
    rewrite <- !list_fmap_compose.
    replace ((f_Company ∘ as_float) <$> clients) with (Company <$> clients)
      by (by apply list_fmap_ext).
    apply list_fmap_ext. intros i c Hc. unfold compose. cbn [fst snd]. f_equal.
    rewrite filter_as_float, <- list_fmap_compose.
    change (f_Renewal_No ∘ as_float) with (Some ∘ Renewal_No).
    rewrite list_fmap_compose. apply max_skipna_fmap_Some.
    intros Hnil%fmap_nil_inv. revert Hnil. apply group_nonempty.
    apply elem_of_sorted_unique. by apply list_elem_of_lookup_2 in Hc. }
  rewrite Hper. unfold groupby.
  rewrite omap_fmap. cbn [snd fst].
  rewrite omap_fmap_some, list_fmap_id.
  apply list_fmap_ext. intros i v _. f_equal.
  by rewrite filter_fmap, length_fmap.
Qed.

Lemma length_filter_omap_snd {A : Type} (l : list (A * option Z)) (v : Z) :
  length (filter (fun v' => id v' = v) (omap snd l))
  = length (filter (fun p => p.2 = Some v) l).
Proof.
  induction l as [|[c [m|]] l IH]; [done| |]; csimpl; rewrite ?filter_cons;
    cbn [snd]; unfold id in *; repeat case_decide; simplify_eq; simpl; congruence.
Qed.

(** The buckets of a float64 column count the companies that have a
    renewal number in some row. *)
Lemma renewal_counts_f_sum (sheet : list ClientRowF) :
  sum_Z (renewal_counts_f sheet).*2
  = Z.of_nat (size (list_to_set
                      (f_Company <$> filter (fun r => is_Some (f_Renewal_No r)) sheet)
                    : gset string)).
Proof.
  unfold renewal_counts_f. rewrite sum_groupby_length. f_equal.
  unfold max_renewal_by_company_f, groupby.
  rewrite omap_fmap. cbn [snd].
  rewrite length_omap_filter.
  rewrite <- (size_list_to_set (C := gset string)).
  2:{ apply NoDup_filter, sorted_unique_NoDup. }
  f_equal. apply set_eq. intros c.
  rewrite !elem_of_list_to_set, list_elem_of_filter, elem_of_sorted_unique,
          !list_elem_of_fmap.
  split.
  - intros [[m Hm] _]. apply max_skipna_Some in Hm as [Hin _].
    apply list_elem_of_fmap in Hin as (r & Hr & [Hc Hin]%list_elem_of_filter).
    exists r. split; [done|]. apply list_elem_of_filter. split; [|done].
    by rewrite <- Hr.
  - intros (r & -> & [Hcell Hr]%list_elem_of_filter). split.
    + destruct (max_skipna (f_Renewal_No <$> filter (fun r' => f_Company r' = f_Company r)
                                             sheet)) as [m|] eqn:E; [done|].
      destruct Hcell as [n Hn].
      assert (Some n = None); [|done].
      apply (proj1 (max_skipna_None _) E), list_elem_of_fmap.
      exists r. split; [done|]. by apply list_elem_of_filter.
    + by exists r.
Qed.

(** C7, amended.  On an int64 column each distinct company has one
    entry, its maximum observed [Renewal_No]; the buckets of
    [renewal_counts] are keyed by that maximum, hold the number of
    companies that reach it, come in ascending order of [Renewal_Times],
    and their [Number_of_Clients] add up to the number of distinct
    companies of the cleaned [clients].  On a float64 column, which is
    what a sheet with a blank [Renewal Number] gives, the entry of a
    company is the maximum of its renewal numbers that are not blank; it
    is null exactly for a company all of whose renewal numbers are blank,
    and such a company is in no bucket: the [Number_of_Clients] add up
    to the number of distinct companies that have a renewal number in
    some row.  Without a blank the float64 reading gives the rows of
    the int64 one. *)
Theorem renewal_counts_partition (clients : list ClientRow)
    (sheet : list ClientRowF) :
  let per_company := max_renewal_by_company clients in
  let buckets := renewal_counts_of clients in
  let per_company_f := max_renewal_by_company_f sheet in
  let buckets_f := renewal_counts_f sheet in
  (per_company.*1 = sorted_unique (Company <$> clients)
   /\ (forall c m, (c, m) ∈ per_company ->
         (exists r, r ∈ clients /\ Company r = c /\ Renewal_No r = m)
         /\ forall r, r ∈ clients -> Company r = c -> Renewal_No r <= m)
   /\ (forall v n, (v, n) ∈ buckets <->
         v ∈ per_company.*2
         /\ n = Z.of_nat (length (filter (fun p => p.2 = v) per_company)))
   /\ StronglySorted Z.lt buckets.*1
   /\ sum_Z buckets.*2
      = Z.of_nat (size (list_to_set (Company <$> clients) : gset string)))
  /\ renewal_counts_f (as_float <$> clients) = buckets
  /\ per_company_f.*1 = sorted_unique (f_Company <$> sheet)
  /\ (forall c m, (c, Some m) ∈ per_company_f ->
        (exists r, r ∈ sheet /\ f_Company r = c /\ f_Renewal_No r = Some m)
        /\ forall r n, r ∈ sheet -> f_Company r = c ->
                       f_Renewal_No r = Some n -> n <= m)
  /\ (forall c, (c, None) ∈ per_company_f <->
        c ∈ f_Company <$> sheet
        /\ forall r, r ∈ sheet -> f_Company r = c -> f_Renewal_No r = None)
  /\ (forall v n, (v, n) ∈ buckets_f <->
        Some v ∈ per_company_f.*2
        /\ n = Z.of_nat (length (filter (fun p => p.2 = Some v) per_company_f)))
  /\ StronglySorted Z.lt buckets_f.*1
  /\ sum_Z buckets_f.*2
     = Z.of_nat (size (list_to_set
                         (f_Company <$> filter (fun r => is_Some (f_Renewal_No r))
                                               sheet)
                       : gset string)).
Proof.
  intros per_company buckets per_company_f buckets_f.
  split; [|split; [|split; [|split; [|split; [|split; [|split]]]]]].
  - repeat split.
    + apply groupby_keys.
    + by apply max_renewal_by_company_spec.
    + by apply max_renewal_by_company_spec.
    + by apply elem_of_groupby in H as [? _].
    + by apply elem_of_groupby in H as [_ ?].
    + intros [Hv ->]. by apply elem_of_groupby.
    + unfold buckets, renewal_counts_of. rewrite groupby_keys.
      apply key_lt_Z_sorted, sorted_unique_sorted.
    + unfold buckets, renewal_counts_of. rewrite sum_groupby_length.
      unfold per_company, max_renewal_by_company.
      by rewrite length_groupby, size_sorted_unique.
  - apply renewal_counts_f_int64.
  - apply groupby_keys.
  - intros c m [Hc Hm]%elem_of_groupby. symmetry in Hm.
    apply max_skipna_Some in Hm as [Hin Hmax]. split.
    + apply list_elem_of_fmap in Hin as (r & Hr & [Hcr Hin]%list_elem_of_filter).
      by exists r.
    + intros r n Hr Hcr Hn. apply Hmax, list_elem_of_fmap. exists r.
      split; [done|]. by apply list_elem_of_filter.
  - intros c. unfold per_company_f, max_renewal_by_company_f.
    rewrite elem_of_groupby. split.
    + intros [Hc Hm]. split; [done|]. symmetry in Hm.
      intros r Hr Hcr. apply (proj1 (max_skipna_None _) Hm), list_elem_of_fmap.
      exists r. split; [done|]. by apply list_elem_of_filter.
    + intros [Hc Hnone]. split; [done|]. symmetry.
      apply max_skipna_None.
      intros x (r & -> & [Hcr Hr]%list_elem_of_filter)%list_elem_of_fmap.
      by apply Hnone.
  - intros v n. unfold buckets_f, per_company_f, renewal_counts_f.
    rewrite elem_of_groupby, list_fmap_id, length_filter_omap_snd.
    assert (Hin : v ∈ omap snd (max_renewal_by_company_f sheet)
                  <-> Some v ∈ (max_renewal_by_company_f sheet).*2).
    { rewrite list_elem_of_omap, list_elem_of_fmap. split.
      - intros (p & Hp & Hv). by exists p.
      - intros (p & Hv & Hp). by exists p. }
    by rewrite Hin.
  - unfold buckets_f, renewal_counts_f. rewrite groupby_keys, list_fmap_id.
    apply key_lt_Z_sorted, sorted_unique_sorted.
  - apply renewal_counts_f_sum.
Qed.

Lemma renewal_counts_partition_witness :
  ("A"%string, 1) ∈ max_renewal_by_company three_contracts
  /\ (exists r, r ∈ three_contracts /\ Company r = "A"%string /\ Renewal_No r = 1)
  /\ (1, 1) ∈ renewal_counts_of three_contracts
  /\ sum_Z (renewal_counts_of three_contracts).*2 = 2
  /\ renewal_counts_of three_contracts = [(0, 1); (1, 1)]
  /\ renewal_counts_f (clean_clients_f blank_renewal_sheet) = [(1, 1)]
  /\ sum_Z (renewal_counts_f (clean_clients_f blank_renewal_sheet)).*2 = 1.
Proof.
  destruct (renewal_counts_partition three_contracts
              (clean_clients_f blank_renewal_sheet))
    as ((_ & Hmax & Hbuckets & _ & Hsum) & _ & _ & _ & _ & _ & _ & Hsum_f).
  assert (("A"%string, 1) ∈ max_renewal_by_company three_contracts) as HA
    by by left.
  split; [done|]. split; [by apply (Hmax "A"%string 1 HA)|].
  split; [apply Hbuckets; split; [by left|by vm_compute]|].
  split; [by rewrite Hsum|]. split; [by vm_compute|].
  split; [by vm_compute|]. by rewrite Hsum_f.
Defined.

(** ** int64 sums *)

Lemma wrap64_idemp (z : Z) : wrap64 (wrap64 z) = wrap64 z.
Proof.
  unfold wrap64.
  replace ((z + 2 ^ 63) mod 2 ^ 64 - 2 ^ 63 + 2 ^ 63)
    with ((z + 2 ^ 63) mod 2 ^ 64) by lia.
  by rewrite Z.mod_mod.
Qed.

Lemma wrap64_add_l (a b : Z) : wrap64 (wrap64 a + b) = wrap64 (a + b).
Proof.
  unfold wrap64.
  replace ((a + 2 ^ 63) mod 2 ^ 64 - 2 ^ 63 + b + 2 ^ 63)
    with ((a + 2 ^ 63) mod 2 ^ 64 + b) by lia.
  rewrite Zplus_mod_idemp_l. do 2 f_equal. lia.
Qed.

Lemma wrap64_small (z : Z) : - 2 ^ 63 <= z < 2 ^ 63 -> wrap64 z = z.
Proof. intros Hz. unfold wrap64. rewrite Z.mod_small; lia. Qed.

Lemma fold_left_i64_add (l : list Z) (acc : Z) :
  wrap64 acc = acc -> fold_left i64_add l acc = wrap64 (acc + sum_Z l).
Proof.
  revert acc. unfold sum_Z.
  induction l as [|x l IH]; intros acc Hacc; simpl.
  - by rewrite Z.add_0_r.
  - rewrite IH by apply wrap64_idemp.
    unfold i64_add. rewrite wrap64_add_l. f_equal. lia.
Qed.

(** The int64 sum is the mathematical sum wrapped to 64 bits. *)
Lemma i64_sum_wrap (l : list Z) : i64_sum l = wrap64 (sum_Z l).
Proof. unfold i64_sum. by rewrite fold_left_i64_add. Qed.

(** ** 3-4. Market share *)

Lemma share_view_rows (rows : list ClientRow) :
  share_view rows =
  (fun r => (r, np_round 1 (fdiv (f64_of_Z (i64_mul 100 r.2))
                (f64_of_Z (i64_sum (contracts_by_department rows).*2)))))
  <$> contracts_by_department rows.
Proof.
  unfold share_view, Share_of. cbv zeta.
  by rewrite zip_with_fmap_r, zip_with_diag.
Qed.

Lemma share_view_counts (rows : list ClientRow) :
  (share_view rows).*1 = contracts_by_department rows.
Proof.
  rewrite share_view_rows, <- list_fmap_compose. apply list_fmap_id.
Qed.

(** C6, the failing part: with six departments of one contract each,
    every share is 16.7 and the shares add up to about 100.2, in the
    all-contracts view and in the first-contracts view. *)
Lemma share_sum_six_departments :
  within_tenth_of_100 (share_sum (share_view six_departments)) = false
  /\ within_tenth_of_100
       (share_sum (share_view (first_contracts_of six_departments))) = false
  /\ (share_view six_departments).*2
     = replicate 6 (S754_finite false 4700632111067955 (-48)).
Proof. by vm_compute. Qed.

(** C6, amended.  A market-share view over a table [rows] (all of
    [clients], or [first_contracts_of clients]) has one row per distinct
    department of [rows], in ascending order; [Total_Contracts] is the
    number of rows of that department; [Share_%] is
    [round(100 * Total_Contracts / total, 1)] in int64 and float64
    arithmetic, where [total], the int64 sum of the column, is the number
    of rows of the table.  A department is in the first-contracts view
    exactly when it has a row with [Renewal_No = 0].  The sum of the
    shares is not claimed to be within 0.1 of 100. *)
Theorem share_view_spec (clients rows : list ClientRow) :
  let view := share_view rows in
  let total := i64_sum view.*1.*2 in
  view.*1.*1 = sorted_unique (Department <$> rows)
  /\ (forall d tc sh, (d, tc, sh) ∈ view ->
        tc = Z.of_nat (length (filter (fun r => Department r = d) rows))
        /\ sh = np_round 1 (fdiv (f64_of_Z (i64_mul 100 tc)) (f64_of_Z total)))
  /\ total = wrap64 (Z.of_nat (length rows))
  /\ (forall d, d ∈ (share_view (first_contracts_of clients)).*1.*1 <->
        exists r, r ∈ clients /\ Department r = d /\ Renewal_No r = 0).
Proof.
  intros view total. unfold total, view. rewrite !share_view_counts.
  split; [apply groupby_keys|]. split; [|split].
  - intros d tc sh. rewrite share_view_rows.
    intros ([d' tc'] & [= -> -> ->] & Hin)%list_elem_of_fmap.
    by apply elem_of_groupby in Hin as [_ ->].
  - unfold contracts_by_department.
    by rewrite i64_sum_wrap, sum_groupby_length.
  - intros d. unfold contracts_by_department. rewrite groupby_keys.
    rewrite elem_of_sorted_unique, list_elem_of_fmap.
    unfold first_contracts_of. setoid_rewrite list_elem_of_filter.
    naive_solver.
Qed.

Lemma share_view_spec_witness :
  exists sh,
    ("Sales"%string, 3, sh) ∈ share_view three_contracts
    /\ 3 = Z.of_nat (length (filter (fun r => Department r = "Sales"%string)
                                    three_contracts))
    /\ sh = np_round 1 (fdiv (f64_of_Z (i64_mul 100 3)) (f64_of_Z 3))
    /\ "Sales"%string ∈ (share_view (first_contracts_of three_contracts)).*1.*1.
Proof.
  destruct (share_view_spec three_contracts three_contracts)
    as (_ & Hrows & Htotal & Hfirst).
  eexists. split; [by left|].
  destruct (Hrows "Sales"%string 3 _ (list_elem_of_here _ _)) as [Htc Hsh].
  split; [exact Htc|]. split; [exact Hsh|].
  apply Hfirst. exists (mkClient "A" "Sales" 0 2020).
  split; [by left|]. split; reflexivity.
Defined.

(** ** 6. Financial performance *)

(** C1, the failing part: on a row with [Total Sales = 0] and a profit
    of 250 the margin is computed, and is [+inf], not a null.  And the
    order of the operations matters: with a profit of 23 on sales of 80,
    line 112 gives 28.7 where [round(100 * 23 / 80, 1)] is 28.8. *)
Lemma profit_margin_zero_sales_inf :
  Total_Sales zero_sales_row = S754_zero false
  /\ Profit_Margin zero_sales_row = S754_infinity false
  /\ is_nan (Profit_Margin zero_sales_row) = false
  /\ ~ (forall r, Total_Sales r = S754_zero false ->
                  is_nan (Profit_Margin r) = true)
  /\ Profit_Margin sales_80_row = S754_finite false 8078331831595827 (-48)
  /\ np_round 1 (fdiv (fmul (f64_of_Z 100) (Total_Profit sales_80_row))
                      (Total_Sales sales_80_row))
     = S754_finite false 8106479329266893 (-48).
Proof.
  assert (Profit_Margin zero_sales_row = S754_infinity false) as Hinf
    by by vm_compute.
  split; [done|]. split; [done|]. split; [by rewrite Hinf|].
  split; [|split; by vm_compute].
  intros Hguard. specialize (Hguard zero_sales_row eq_refl).
  by rewrite Hinf in Hguard.
Qed.

(** C1, amended.  [Profit Margin_%] is
    [round((Total Profit / Total Sales) * 100, 1)] on every finance row,
    computed in float64 with no guard and no exception: when
    [Total Sales] is zero the margin is the IEEE 754 quotient carried
    through, NaN (null) when [Total Profit] is zero or NaN and an infinity
    with the sign of the quotient otherwise. *)
Theorem profit_margin_spec (finance : list FinanceRow) (d : string) (y : Z)
    (s : bool) (p : f64) :
  Profit_Margin_of finance
  = (fun r => np_round 1 (fmul (fdiv (Total_Profit r) (Total_Sales r))
                               (f64_of_Z 100))) <$> finance
  /\ Profit_Margin (mkFinance d y (S754_zero s) p)
     = match p with
       | S754_zero _ | S754_nan => NaN
       | S754_infinity sp | S754_finite sp _ _ => S754_infinity (xorb sp s)
       end.
Proof.
  split; [done|].
  destruct p as [sp|sp| |sp m e], s; try destruct sp; reflexivity.
Qed.

(** ** float64 operations that never give NaN *)

Lemma shr_1_nonneg (mrs : shr_record) :
  0 <= shr_m mrs -> 0 <= shr_m (shr_1 mrs).
Proof.
  destruct mrs as [m r s]; simpl.
  destruct m as [|p|p]; simpl; [done| |lia].
  destruct p; simpl; lia.
Qed.

Lemma iter_shr_1_nonneg (p : positive) (mrs : shr_record) :
  0 <= shr_m mrs -> 0 <= shr_m (SpecFloat.iter_pos shr_1 p mrs).
Proof.
  revert mrs. induction p as [p IH|p IH|]; intros mrs Hm; simpl.
  - by apply IH, IH, shr_1_nonneg.
  - by apply IH, IH.
  - by apply shr_1_nonneg.
Qed.

Lemma shr_fexp_nonneg (m e : Z) (l : location) :
  0 <= m -> 0 <= shr_m (shr_fexp 53 1024 m e l).1.
Proof.
  intros Hm. unfold shr_fexp, shr.
  assert (0 <= shr_m (shr_record_of_loc m l)) as Hrec.
  { destruct l as [|[]]; simpl; lia. }
  destruct (fexp 53 1024 (Zdigits2 m + e) - e); simpl; try done.
  by apply iter_shr_1_nonneg.
Qed.

Lemma round_nearest_even_nonneg (m : Z) (l : location) :
  0 <= m -> 0 <= round_nearest_even m l.
Proof.
  intros Hm. destruct l as [|[]]; simpl; try lia.
  destruct (Z.even m); lia.
Qed.

Lemma binary_round_aux_not_nan (s : bool) (m e : Z) (l : location) :
  0 <= m -> is_nan (binary_round_aux 53 1024 s m e l) = false.
Proof.
  intros Hm. unfold binary_round_aux.
  pose proof (shr_fexp_nonneg m e l Hm) as H1.
  destruct (shr_fexp 53 1024 m e l) as [mrs' e']. simpl in H1.
  pose proof (shr_fexp_nonneg _ e' loc_Exact
    (round_nearest_even_nonneg _ (loc_of_shr_record mrs') H1)) as H2.
  destruct (shr_fexp 53 1024 _ e' loc_Exact) as [mrs'' e'']. simpl in H2.
  destruct (shr_m mrs'') as [|p|p]; [done| |lia].
  by destruct (e'' <=? 1024 - 53).
Qed.

Lemma binary_normalize_not_nan (m e : Z) (sz : bool) :
  is_nan (binary_normalize 53 1024 m e sz) = false.
Proof.
  unfold binary_normalize, binary_round.
  destruct m as [|p|p]; [done| |];
    destruct (shl_align _ _ _) as [mz ez]; by apply binary_round_aux_not_nan.
Qed.

Lemma fdiv_finite_not_nan (x : f64) (sy : bool) (my : positive) (ey : Z) :
  is_nan x = false -> is_nan (fdiv x (S754_finite sy my ey)) = false.
Proof.
  destruct x as [sx|sx| |sx mx ex]; try done. intros _.
  unfold fdiv, SFdiv, SFdiv_core_binary.
  set (m' := match _ with Z.pos _ => Z.shiftl (Z.pos mx) _ | _ => _ end).
  assert (0 <= m') as Hm'.
  { unfold m'. destruct (_ - _ - _)%Z; try lia. by apply Z.shiftl_nonneg. }
  pose proof (Z_div_mod m' (Z.pos my) eq_refl) as Hdiv.
  destruct (Z.div_eucl m' (Z.pos my)) as [q r].
  apply binary_round_aux_not_nan. nia.
Qed.

Lemma fsub_finite_not_nan (sx : bool) (mx : positive) (ex : Z) (y : f64) :
  is_nan y = false -> is_nan (fsub (S754_finite sx mx ex) y) = false.
Proof.
  destruct y as [sy|sy| |sy my ey]; try done. intros _.
  unfold fsub, SFsub. apply binary_normalize_not_nan.
Qed.

Lemma int_exact_not_nan (z : Z) : is_nan (int_exact z) = false.
Proof. by destruct z. Qed.

Lemma py_round1_not_nan (x : f64) :
  is_nan x = false -> is_nan (py_round1 x) = false.
Proof.
  destruct x as [s|s| |s m e]; try done. intros _. unfold py_round1.
  destruct (_ =? 0); [done|].
  apply fdiv_finite_not_nan, int_exact_not_nan.
Qed.

(** ** 5. Client retention *)

Lemma years_of_spec (clients : list ClientRow) :
  StronglySorted Z.lt (years_of clients)
  /\ forall y, y ∈ years_of clients <-> exists r, r ∈ clients /\ Year r = y.
Proof.
  unfold years_of. split.
  - apply key_lt_Z_sorted, sorted_unique_sorted.
  - intros y. rewrite elem_of_sorted_unique, list_elem_of_fmap. naive_solver.
Qed.

(** The rates of one pair of years: never an exception. *)
Lemma churn_rates_nonempty (current next_year : gset string) :
  size current <> 0%nat ->
  exists q,
    py_truediv (100 * Z.of_nat (size (current ∖ next_year)))
               (Z.of_nat (size current)) = Ok q
    /\ churn_rates current next_year
       = Ok (py_round1 q, fsub (f64_of_Z 100) (py_round1 q)).
Proof.
  intros Hne. unfold churn_rates, py_truediv.
  destruct (Z.eqb_spec (Z.of_nat (size current)) 0) as [Hz|_]; [lia|].
  destruct (Nat.ltb_spec 0 (size current)) as [_|Hlt]; [|lia].
  eexists. split; [done|]. done.
Qed.

Lemma churn_rates_empty (current next_year : gset string) :
  size current = 0%nat -> churn_rates current next_year = Ok (NaN, NaN).
Proof. intros Hz. unfold churn_rates. by rewrite Hz. Qed.

Lemma churn_rates_total (current next_year : gset string) :
  exists rates, churn_rates current next_year = Ok rates.
Proof.
  destruct (decide (size current = 0%nat)) as [Hz|Hne].
  - eexists. by apply churn_rates_empty.
  - destruct (churn_rates_nonempty current next_year Hne) as (q & _ & Hq).
    eauto.
Qed.

Lemma churn_loop_spec (clients : list ClientRow) (years todo : list Z)
    (i : nat) (acc : list ChurnRow) :
  (forall j y, todo !! j = Some y -> is_Some (years !! (i + j + 1)%nat)) ->
  exists rows,
    churn_loop clients years i todo acc = Ok (acc ++ rows)
    /\ length rows = length todo
    /\ forall j row, rows !! j = Some row ->
         exists y y', todo !! j = Some y /\ years !! (i + j + 1)%nat = Some y'
           /\ churn_Year row = y
           /\ churn_rates (companies_in clients y) (companies_in clients y')
              = Ok (Churn row, Retention row).
Proof.
  revert i acc. induction todo as [|year todo IH]; intros i acc Hnext.
  - exists []. simpl. rewrite app_nil_r. split; [done|]. split; [done|].
    intros j row Hj. by rewrite lookup_nil in Hj.
  - destruct (Hnext 0%nat year eq_refl) as [y' Hy'].
    destruct (churn_rates_total (companies_in clients year)
                                (companies_in clients y')) as [rates Hrates].
    destruct (IH (S i) (acc ++ [mkChurn year rates.1 rates.2])) as
      (rows & Hloop & Hlen & Hrows).
    { intros j y Hj. replace (S i + j + 1)%nat with (i + S j + 1)%nat by lia.
      by apply (Hnext (S j) y). }
    exists (mkChurn year rates.1 rates.2 :: rows). split; [|split].
    + simpl. unfold churn_body, py_index.
      replace (i + 1)%nat with (i + 0 + 1)%nat by lia.
      rewrite Hy'. simpl. rewrite Hrates. simpl.
      rewrite Hloop. by rewrite <- app_assoc.
    + simpl. by rewrite Hlen.
    + intros [|j] row Hj.
      * simpl in Hj. injection Hj as <-. exists year, y'.
        split; [done|]. split; [done|]. split; [done|].
        simpl. by destruct rates.
      * simpl in Hj. destruct (Hrows j row Hj) as (y & y2 & Hy & Hy2 & Hrow).
        exists y, y2. split; [done|].
        replace (i + S j + 1)%nat with (S i + j + 1)%nat by lia. done.
Qed.

Lemma lookup_removelast {A : Type} (l : list A) (j : nat) (x : A) :
  removelast l !! j = Some x <-> l !! j = Some x /\ (S j < length l)%nat.
Proof.
  rewrite removelast_firstn_len.
  destruct (decide (j < pred (length l))%nat) as [Hlt|Hge].
  - rewrite lookup_take_lt by done. split; [|naive_solver].
    intros Hj. split; [done|lia].
  - rewrite lookup_take_ge by lia. split; [done|]. intros [_ ?]. lia.
Qed.

Lemma length_removelast {A : Type} (l : list A) :
  length (removelast l) = (length l - 1)%nat.
Proof. rewrite removelast_firstn_len, length_take. lia. Qed.

(** The rows of [churn_df]: one per consecutive pair of years. *)
Lemma churn_data_rows (clients : list ClientRow) :
  let years := years_of clients in
  exists rows,
    churn_data_of clients = Ok rows
    /\ length rows = (length years - 1)%nat
    /\ forall i row, rows !! i = Some row ->
         exists y y', years !! i = Some y /\ years !! S i = Some y'
           /\ churn_Year row = y
           /\ churn_rates (companies_in clients y) (companies_in clients y')
              = Ok (Churn row, Retention row).
Proof.
  intros years. unfold churn_data_of. fold years.
  destruct (churn_loop_spec clients years (removelast years) 0 []) as
    (rows & Hloop & Hlen & Hrows).
  { intros j y [_ Hj]%lookup_removelast. apply lookup_lt_is_Some. simpl. lia. }
  exists rows. split; [done|]. split.
  - by rewrite Hlen, length_removelast.
  - intros i row Hi. destruct (Hrows i row Hi) as (y & y' & Hy & Hy' & Hrow).
    apply lookup_removelast in Hy as [Hy _].
    exists y, y'. split; [done|]. split; [|done].
    by replace (S i) with (0 + i + 1)%nat by lia.
Qed.

Lemma churn_years (clients : list ClientRow) (rows : list ChurnRow) :
  length rows = (length (years_of clients) - 1)%nat ->
  (forall i row, rows !! i = Some row ->
     exists y, years_of clients !! i = Some y /\ churn_Year row = y) ->
  churn_Year <$> rows = removelast (years_of clients).
Proof.
  intros Hlen Hrows. apply list_eq_same_length with (length rows).
  - by rewrite length_removelast.
  - by rewrite length_fmap.
  - intros i y1 y2 Hi. rewrite list_lookup_fmap.
    destruct (rows !! i) as [row|] eqn:Hrow; [|done]. simpl.
    destruct (Hrows i row Hrow) as (y & Hy & Hrowy).
    intros [= <-] [Hy2 _]%lookup_removelast. congruence.
Qed.

Lemma elem_of_companies_in (clients : list ClientRow) (y : Z) (c : string) :
  c ∈ companies_in clients y <->
  exists r, r ∈ clients /\ Year r = y /\ Company r = c.
Proof.
  unfold companies_in. rewrite elem_of_list_to_set, list_elem_of_fmap.
  setoid_rewrite list_elem_of_filter. naive_solver.
Qed.

Lemma removelast_sorted (l : list Z) :
  StronglySorted Z.lt l -> StronglySorted Z.lt (removelast l).
Proof.
  intros Hs. destruct l as [|x l]; [done|].
  rewrite (app_removelast_last (l := x :: l) 0) in Hs by done.
  by apply StronglySorted_app_1_l in Hs.
Qed.

(** C4.  [years] is the ascending list of the distinct years of
    [clients].  The rates of a pair of sets never raise: for a non-empty
    [current], [Churn_%] is [round(100 * |current - next_year| /
    |current|, 1)] and [Retention_%] is [100 - Churn_%]; for an empty
    [current] both are NaN.  The loop returns one row per consecutive pair
    of years, [|years| - 1] rows (none when there is no year) in the order
    of the earlier year, row [i] holding the rates of the companies of
    [years[i]] against those of [years[i+1]]. *)
Theorem churn_retention_spec (clients : list ClientRow)
    (current next_year : gset string) :
  let years := years_of clients in
  (StronglySorted Z.lt years
   /\ forall y, y ∈ years <-> exists r, r ∈ clients /\ Year r = y)
  /\ (forall y c, c ∈ companies_in clients y <->
        exists r, r ∈ clients /\ Year r = y /\ Company r = c)
  /\ (size current <> 0%nat ->
      let q := fdiv (int_exact (100 * Z.of_nat (size (current ∖ next_year))))
                    (int_exact (Z.of_nat (size current))) in
      py_truediv (100 * Z.of_nat (size (current ∖ next_year)))
                 (Z.of_nat (size current)) = Ok q
      /\ churn_rates current next_year
         = Ok (py_round1 q, fsub (f64_of_Z 100) (py_round1 q)))
  /\ (size current = 0%nat -> churn_rates current next_year = Ok (NaN, NaN))
  /\ exists rows,
       churn_data_of clients = Ok rows
       /\ length rows = (length years - 1)%nat
       /\ (years <> [] -> S (length rows) = length years)
       /\ churn_Year <$> rows = removelast years
       /\ StronglySorted Z.lt (churn_Year <$> rows)
       /\ forall i y y', years !! i = Some y -> years !! S i = Some y' ->
            exists row, rows !! i = Some row /\ churn_Year row = y
              /\ churn_rates (companies_in clients y) (companies_in clients y')
                 = Ok (Churn row, Retention row).
Proof.
  intros years.
  split; [apply years_of_spec|].
  split; [apply elem_of_companies_in|].
  split.
  { intros Hne. destruct (churn_rates_nonempty current next_year Hne)
      as (q & Hq & Hrates).
    assert (q = fdiv (int_exact (100 * Z.of_nat (size (current ∖ next_year))))
                     (int_exact (Z.of_nat (size current)))) as Hqv.
    { unfold py_truediv in Hq. destruct (_ =? 0); [done|]. by injection Hq. }
    cbv zeta. by rewrite <- Hqv. }
  split; [apply churn_rates_empty|].
  destruct (churn_data_rows clients) as (rows & Hok & Hlen & Hrows).
  fold years in Hlen, Hrows.
  assert (churn_Year <$> rows = removelast years) as Hyears.
  { apply churn_years; [done|]. intros i row Hi.
    destruct (Hrows i row Hi) as (y & y' & Hy & _ & Hrow & _). eauto. }
  exists rows. repeat split; try done.
  - intros Hne. rewrite Hlen. destruct years; [done|]. simpl. lia.
  - rewrite Hyears. apply removelast_sorted, years_of_spec.
  - intros i y y' Hy Hy'.
    assert (is_Some (rows !! i)) as [row Hrow].
    { apply lookup_lt_is_Some. apply lookup_lt_Some in Hy'. lia. }
    destruct (Hrows i row Hrow) as (y1 & y2 & Hy1 & Hy2 & Hrowy & Hrates).
    exists row. replace y with y1 by congruence.
    replace y' with y2 by congruence. done.
Qed.

Lemma churn_retention_spec_witness :
  churn_rates ∅ ∅ = Ok (NaN, NaN)
  (* one of two companies lost: 50.0 and 50.0 *)
  /\ churn_rates {["A"; "B"]} {["A"]}
     = Ok (S754_finite false 7036874417766400 (-47),
           S754_finite false 7036874417766400 (-47))
  (* one of three lost: 33.333... gives 33.3 and 66.7 *)
  /\ churn_rates {["A"; "B"; "C"]} {["A"; "B"]}
     = Ok (S754_finite false 4686558362232422 (-47),
           S754_finite false 4693595236650189 (-46))
  (* two of three lost: 66.666... gives 66.7 and 33.3 *)
  /\ churn_rates {["A"; "B"; "C"]} {["A"]}
     = Ok (S754_finite false 4693595236650189 (-46),
           S754_finite false 4686558362232422 (-47))
  (* one of sixteen lost: 6.25 is a tie and gives 6.2, and 93.8 *)
  /\ churn_rates (list_to_set (Company <$> sixteen_companies))
                 (list_to_set (Company <$> take 15 sixteen_companies))
     = Ok (S754_finite false 6980579422424269 (-50),
           S754_finite false 6600588203864883 (-46))
  /\ churn_data_of three_contracts
     = Ok [mkChurn 2020 (S754_finite false 7036874417766400 (-47))
                        (S754_finite false 7036874417766400 (-47))]
  /\ exists rows row,
       churn_data_of three_contracts = Ok rows
       /\ S (length rows) = length (years_of three_contracts)
       /\ rows !! 0%nat = Some row /\ churn_Year row = 2020
       /\ churn_rates (companies_in three_contracts 2020)
                      (companies_in three_contracts 2021)
          = Ok (Churn row, Retention row).
Proof.
  assert (Hrates : forall current next_year : gset string,
            size current <> 0%nat ->
            churn_rates current next_year
            = Ok (py_round1
                    (fdiv (int_exact (100 * Z.of_nat (size (current ∖ next_year))))
                          (int_exact (Z.of_nat (size current)))),
                  fsub (f64_of_Z 100)
                    (py_round1
                       (fdiv (int_exact (100 * Z.of_nat (size (current ∖ next_year))))
                             (int_exact (Z.of_nat (size current))))))).
  { intros current next_year Hne.
    destruct (churn_retention_spec three_contracts current next_year)
      as (_ & _ & Hnonempty & _).
    by destruct (Hnonempty Hne) as [_ ->]. }
  split; [|split; [|split; [|split; [|split; [|split]]]]].
  - destruct (churn_retention_spec three_contracts ∅ ∅)
      as (_ & _ & _ & Hempty & _).
    by apply Hempty.
  - rewrite Hrates by (by vm_compute). by vm_compute.
  - rewrite Hrates by (by vm_compute). by vm_compute.
  - rewrite Hrates by (by vm_compute). by vm_compute.
  - rewrite Hrates by (by vm_compute). by vm_compute.
  - by vm_compute.
  - destruct (churn_retention_spec three_contracts ∅ ∅)
      as (_ & _ & _ & _ & rows & Hok & _ & Hcount & _ & _ & Hrows).
    destruct (Hrows 0%nat 2020 2021 eq_refl eq_refl) as (row & Hrow).
    exists rows, row. split; [done|]. split; [by apply Hcount|done].
Defined.

(** ** The empty-cohort branch is never taken *)

Lemma companies_in_nonempty (clients : list ClientRow) (y : Z) :
  y ∈ years_of clients -> size (companies_in clients y) <> 0%nat.
Proof.
  intros (r & Hr & Hy)%years_of_spec Hsize.
  apply size_empty_iff in Hsize.
  assert (Company r ∈ companies_in clients y) as Hin.
  { apply elem_of_companies_in. by exists r. }
  rewrite Hsize in Hin. by apply not_elem_of_empty in Hin.
Qed.

(** C9.  Every year of [years] has at least one company, so the guard
    of line 89 always holds: the loop returns, and in every row of
    [churn_df] both [Churn_%] and [Retention_%] are defined (not NaN). *)
Theorem churn_always_defined (clients : list ClientRow) :
  (forall y, y ∈ years_of clients -> size (companies_in clients y) <> 0%nat)
  /\ exists rows,
       churn_data_of clients = Ok rows
       /\ forall row, row ∈ rows ->
            is_nan (Churn row) = false /\ is_nan (Retention row) = false.
Proof.
  split; [apply companies_in_nonempty|].
  destruct (churn_data_rows clients) as (rows & Hok & _ & Hrows).
  exists rows. split; [done|].
  intros row [i Hi]%list_elem_of_lookup.
  destruct (Hrows i row Hi) as (y & y' & Hy & _ & _ & Hrates).
  assert (size (companies_in clients y) <> 0%nat) as Hne.
  { apply companies_in_nonempty. by eapply list_elem_of_lookup_2. }
  destruct (churn_rates_nonempty _ (companies_in clients y') Hne)
    as (q & Hq & Hrates').
  rewrite Hrates' in Hrates. injection Hrates as <- <-.
  assert (is_nan (py_round1 q) = false) as Hchurn.
  { apply py_round1_not_nan. unfold py_truediv in Hq.
    destruct (Z.of_nat (size (companies_in clients y))) as [|p|p] eqn:Hsz;
      [lia| |lia].
    simpl in Hq. injection Hq as <-.
    apply fdiv_finite_not_nan, int_exact_not_nan. }
  split; [done|]. by apply fsub_finite_not_nan.
Qed.

Lemma churn_always_defined_witness :
  size (companies_in three_contracts 2020) <> 0%nat
  /\ exists rows,
       churn_data_of three_contracts = Ok rows
       /\ Forall (fun row => is_nan (Churn row) = false
                             /\ is_nan (Retention row) = false) rows.
Proof.
  destruct (churn_always_defined three_contracts) as [Hyear (rows & Hok & Hrows)].
  split.
  - apply Hyear. by vm_compute; left.
  - exists rows. split; [done|]. by apply Forall_forall.
Defined.

(** ** The order of [sort_values] *)

Lemma SFcompare_antisym (x y : f64) :
  SFcompare y x = CompOpp <$> SFcompare x y.
Proof.
  destruct x as [sx|sx| |sx mx ex], y as [sy|sy| |sy my ey]; simpl; try done;
    try (by destruct sx); try (by destruct sy); try (by destruct sx, sy).
  assert (PosDef.Pos.compare_cont Eq my mx
          = CompOpp (PosDef.Pos.compare_cont Eq mx my)) as ->
    by apply (Pos.compare_antisym mx my).
  rewrite (Z.compare_antisym ex ey).
  by destruct sx, sy, (ex ?= ey), (PosDef.Pos.compare_cont Eq mx my).
Qed.

Lemma lex_cmp_Lt_trans e1 m1 e2 m2 e3 m3 :
  lex_cmp e1 m1 e2 m2 <> Gt -> lex_cmp e2 m2 e3 m3 <> Gt ->
  lex_cmp e1 m1 e3 m3 <> Gt.
Proof.
  unfold lex_cmp.
  destruct (Z.compare_spec e1 e2), (Z.compare_spec e2 e3),
    (Z.compare_spec e1 e3); subst; try lia; try done.
  destruct (Pos.compare_spec m1 m2), (Pos.compare_spec m2 m3),
    (Pos.compare_spec m1 m3); subst; try lia; done.
Qed.

Lemma lex_cmp_Gt_trans e1 m1 e2 m2 e3 m3 :
  lex_cmp e1 m1 e2 m2 <> Lt -> lex_cmp e2 m2 e3 m3 <> Lt ->
  lex_cmp e1 m1 e3 m3 <> Lt.
Proof.
  unfold lex_cmp.
  destruct (Z.compare_spec e1 e2), (Z.compare_spec e2 e3),
    (Z.compare_spec e1 e3); subst; try lia; try done.
  destruct (Pos.compare_spec m1 m2), (Pos.compare_spec m2 m3),
    (Pos.compare_spec m1 m3); subst; try lia; done.
Qed.

Lemma fge_finite (s1 s2 : bool) (m1 m2 : positive) (e1 e2 : Z) :
  fge (S754_finite s1 m1 e1) (S754_finite s2 m2 e2)
  = match s1, s2 with
    | true, false => false
    | false, true => true
    | false, false => if lex_cmp e1 m1 e2 m2 is Lt then false else true
    | true, true => if lex_cmp e1 m1 e2 m2 is Gt then false else true
    end.
Proof.
  unfold fge, lex_cmp. simpl.
  change (m1 ?= m2)%positive with (PosDef.Pos.compare_cont Eq m1 m2).
  by destruct s1, s2, (e1 ?= e2), (PosDef.Pos.compare_cont Eq m1 m2).
Qed.

Lemma fge_trans (x y z : f64) :
  fge x y = true -> fge y z = true -> fge x z = true.
Proof.
  destruct x as [sx|sx| |sx mx ex], y as [sy|sy| |sy my ey],
    z as [sz|sz| |sz mz ez];
    rewrite ?fge_finite; try done;
    try (by destruct sx); try (by destruct sy); try (by destruct sz);
    try (by destruct sx, sy); try (by destruct sx, sz);
    try (by destruct sy, sz); try (by destruct sx, sy, sz).
  destruct sx, sy, sz; try done.
  - pose proof (lex_cmp_Lt_trans ex mx ey my ez mz) as H.
    destruct (lex_cmp ex mx ey my), (lex_cmp ey my ez mz),
      (lex_cmp ex mx ez mz); try done; intros _ _; exfalso; by apply H.
  - pose proof (lex_cmp_Gt_trans ex mx ey my ez mz) as H.
    destruct (lex_cmp ex mx ey my), (lex_cmp ey my ez mz),
      (lex_cmp ex mx ez mz); try done; intros _ _; exfalso; by apply H.
Qed.

Lemma fge_total (x y : f64) :
  is_nan x = false -> is_nan y = false -> fge x y = false -> fge y x = true.
Proof.
  intros Hx Hy. unfold fge. rewrite (SFcompare_antisym x y).
  destruct x as [sx|sx| |sx mx ex], y as [sy|sy| |sy my ey]; try done;
    destruct (SFcompare _ _) as [[]|] eqn:Hc; try done;
    simpl in Hc; try (by destruct sx); try (by destruct sy);
    try (by destruct sx, sy).
Qed.

Lemma fge_not_nan (x y : f64) :
  fge x y = true -> is_nan x = false /\ is_nan y = false.
Proof. by destruct x, y. Qed.

Lemma desc_nan_last_fge (x y : f64) :
  desc_nan_last x y = (is_nan y || fge x y).
Proof. by destruct y. Qed.

Lemma desc_nan_last_trans (x y z : f64) :
  desc_nan_last x y = true -> desc_nan_last y z = true ->
  desc_nan_last x z = true.
Proof.
  rewrite !desc_nan_last_fge.
  destruct (is_nan z) eqn:Hz; [done|]. simpl. intros Hxy Hyz.
  destruct (fge_not_nan _ _ Hyz) as [Hy _]. rewrite Hy in Hxy.
  by eapply fge_trans.
Qed.

Lemma desc_nan_last_total (x y : f64) :
  desc_nan_last x y = false -> desc_nan_last y x = true.
Proof.
  rewrite !desc_nan_last_fge.
  destruct (is_nan y) eqn:Hy; [done|]. simpl.
  destruct (is_nan x) eqn:Hx; [done|]. simpl. by apply fge_total.
Qed.

Lemma sort_le_trans (r1 r2 r3 : ProfitRow) :
  sort_le r1 r2 = true -> sort_le r2 r3 = true -> sort_le r1 r3 = true.
Proof.
  unfold sort_le.
  destruct (cmp (p_Department r1) (p_Department r2)) eqn:H12; try done;
    destruct (cmp (p_Department r2) (p_Department r3)) eqn:H23; try done.
  - apply cmp_eq in H12, H23. rewrite H12, H23, cmp_refl.
    apply desc_nan_last_trans.
  - apply cmp_eq in H12. by rewrite H12, H23.
  - apply cmp_eq in H23. by rewrite <- H23, H12.
  - by rewrite (cmp_trans _ _ _ H12 H23).
Qed.

Lemma sort_le_total (r1 r2 : ProfitRow) :
  sort_le r1 r2 = false -> sort_le r2 r1 = true.
Proof.
  unfold sort_le. rewrite (cmp_antisym (p_Department r1) (p_Department r2)).
  destruct (cmp (p_Department r1) (p_Department r2)); simpl; try done.
  apply desc_nan_last_total.
Qed.

(** ** The stable sort *)

Section StableSort.
Context {R : Type} (le : R -> R -> bool).

Lemma insert_row_perm (x : R) (l : list R) : insert_row le x l ≡ₚ x :: l.
Proof.
  induction l as [|y l IH]; simpl; [done|].
  destruct (le x y); [done|]. rewrite IH. apply Permutation_swap.
Qed.

Lemma stable_sort_perm (l : list R) : stable_sort le l ≡ₚ l.
Proof.
  unfold stable_sort. induction l as [|x l IH]; simpl; [done|].
  by rewrite insert_row_perm, IH.
Qed.

(** Inserting a row leaves the rows of a class of ties in their order. *)
Lemma filter_insert_row (P : R -> Prop) `{forall x, Decision (P x)}
    (x : R) (l : list R) :
  (forall y, P x -> P y -> le x y = true) ->
  filter P (insert_row le x l) = filter P (x :: l).
Proof.
  intros Hties. induction l as [|y l IH]; simpl; [done|].
  destruct (le x y) eqn:Hxy; [done|].
  rewrite (filter_cons _ y), IH, !filter_cons.
  destruct (decide (P x)) as [Hx|Hx], (decide (P y)) as [Hy|Hy]; try done.
  by rewrite Hties in Hxy.
Qed.

Lemma stable_sort_stable (P : R -> Prop) `{forall x, Decision (P x)}
    (l : list R) :
  (forall x y, P x -> P y -> le x y = true) ->
  filter P (stable_sort le l) = filter P l.
Proof.
  intros Hties. unfold stable_sort.
  induction l as [|x l IH]; simpl; [done|].
  rewrite filter_insert_row by auto. by rewrite !filter_cons, IH.
Qed.

Hypothesis le_total : forall x y, le x y = false -> le y x = true.
Hypothesis le_trans :
  forall x y z, le x y = true -> le y z = true -> le x z = true.

Lemma insert_row_sorted (x : R) (l : list R) :
  StronglySorted (fun a b => le a b = true) l ->
  StronglySorted (fun a b => le a b = true) (insert_row le x l).
Proof.
  induction l as [|y l IH]; simpl; intros Hs.
  - repeat constructor.
  - apply StronglySorted_cons in Hs as [Hy Hs].
    destruct (le x y) eqn:Hxy.
    + apply StronglySorted_cons. split; [|by apply StronglySorted_cons].
      constructor; [done|].
      eapply Forall_impl; [exact Hy|]. intros z Hz. by eapply le_trans.
    + apply StronglySorted_cons. split; [|auto].
      rewrite insert_row_perm. constructor; [by apply le_total|done].
Qed.

Lemma stable_sort_sorted (l : list R) :
  StronglySorted (fun a b => le a b = true) (stable_sort le l).
Proof.
  unfold stable_sort. induction l; simpl;
    [constructor|by apply insert_row_sorted].
Qed.

End StableSort.

(** ** [groupby(...).head(n)] *)

Section GroupHead.
Context {R K : Type} `{EqDecision K} (key : R -> K).

Lemma filter_head_from (n : nat) (seen : list K) (l : list R) (k : K) :
  filter (fun r => key r = k) (head_from key n seen l)
  = take (n - passed k seen) (filter (fun r => key r = k) l).
Proof.
  revert seen. induction l as [|r l IH]; intros seen.
  - by destruct (n - passed k seen)%nat.
  - cbn [head_from]. rewrite (filter_cons _ r l).
    destruct (decide (key r = k)) as [<-|Hne].
    + assert (passed (key r) (key r :: seen) = S (passed (key r) seen)) as Hp.
      { unfold passed. by rewrite filter_cons_True. }
      destruct (Nat.ltb_spec (passed (key r) seen) n) as [Hlt|Hge].
      * rewrite filter_cons_True by done. rewrite IH, Hp.
        replace (n - passed (key r) seen)%nat
          with (S (n - S (passed (key r) seen))) by lia. done.
      * rewrite IH, Hp.
        by replace (n - passed (key r) seen)%nat with 0%nat by lia;
           replace (n - S (passed (key r) seen))%nat with 0%nat by lia.
    + assert (passed k (key r :: seen) = passed k seen) as Hp.
      { unfold passed. by rewrite filter_cons_False. }
      destruct (passed (key r) seen <? n)%nat.
      * rewrite filter_cons_False by done. by rewrite IH, Hp.
      * by rewrite IH, Hp.
Qed.

Lemma filter_groupby_head (n : nat) (l : list R) (k : K) :
  filter (fun r => key r = k) (groupby_head key n l)
  = take n (filter (fun r => key r = k) l).
Proof.
  unfold groupby_head. rewrite filter_head_from.
  unfold passed. rewrite filter_nil. simpl. by rewrite Nat.sub_0_r.
Qed.

Lemma head_from_sublist (n : nat) (seen : list K) (l : list R) :
  head_from key n seen l `sublist_of` l.
Proof.
  revert seen. induction l as [|r l IH]; intros seen; simpl; [done|].
  destruct (_ <? n)%nat; [by apply sublist_skip|by apply sublist_cons].
Qed.

End GroupHead.

(** ** Sorted lists under [filter], [take] and sublists *)

Lemma StronglySorted_sublist {A : Type} (R : A -> A -> Prop) (l k : list A) :
  l `sublist_of` k -> StronglySorted R k -> StronglySorted R l.
Proof.
  induction 1 as [|x l k Hlk IH|x l k Hlk IH]; intros Hs; [done| |].
  - apply StronglySorted_cons in Hs as [Hx Hs].
    apply StronglySorted_cons. split; [|auto].
    apply Forall_forall. intros y Hy. eapply Forall_forall in Hx; [done|].
    by eapply elem_of_sublist.
  - apply StronglySorted_cons in Hs as [_ Hs]. auto.
Qed.

Lemma StronglySorted_within {A : Type} (R R' : A -> A -> Prop) (P : A -> Prop)
    (l : list A) :
  (forall x y, P x -> P y -> R x y -> R' x y) ->
  Forall P l -> StronglySorted R l -> StronglySorted R' l.
Proof.
  intros Himpl HP Hs. induction Hs as [|x l Hs IH Hx]; [constructor|].
  apply Forall_cons in HP as [HPx HP]. constructor; [auto|].
  apply Forall_forall. intros y Hy.
  apply Himpl; [done| |]; by eapply Forall_forall.
Qed.

Lemma filter_filter_implied {A : Type} (P Q : A -> Prop)
    `{forall x, Decision (P x), forall x, Decision (Q x)} (l : list A) :
  (forall x, P x -> Q x) -> filter P (filter Q l) = filter P l.
Proof.
  intros HPQ. induction l as [|x l IH]; [done|].
  rewrite !(filter_cons _ x l).
  destruct (decide (Q x)) as [HQ|HQ].
  - rewrite filter_cons. destruct (decide (P x)); by rewrite IH.
  - rewrite IH. destruct (decide (P x)) as [HP|HP]; [|done].
    by apply HPQ in HP.
Qed.

Lemma filter_take_prefix {A : Type} (P : A -> Prop) `{forall x, Decision (P x)}
    (n : nat) (l : list A) :
  filter P (take n l) `prefix_of` filter P l.
Proof.
  rewrite <- (take_drop n l) at 2. rewrite filter_app.
  by apply prefix_app_r.
Qed.

(** ** 10. Key clients contribution: order and cap *)

Lemma sort_values_sorted (rows : list ProfitRow) :
  StronglySorted (fun a b => sort_le a b = true) (sort_values rows).
Proof.
  apply stable_sort_sorted; [apply sort_le_total|apply sort_le_trans].
Qed.

Lemma tied_sort_le (r x y : ProfitRow) :
  tied r x = true -> tied r y = true -> sort_le x y = true.
Proof.
  unfold tied, sort_le.
  intros [[Hx Hxr]%andb_prop _]%andb_prop [[Hy _]%andb_prop Hry]%andb_prop.
  apply bool_decide_eq_true in Hx, Hy. rewrite Hx, Hy, cmp_refl.
  by eapply desc_nan_last_trans.
Qed.

Lemma tied_department (r x : ProfitRow) :
  tied r x = true -> p_Department x = p_Department r.
Proof.
  unfold tied. intros [[Hx _]%andb_prop _]%andb_prop.
  by apply bool_decide_eq_true in Hx.
Qed.

Lemma filter_department_head_15 (rows : list ProfitRow) (d : string) :
  filter (fun x => p_Department x = d) (head_15 rows)
  = take 15 (filter (fun x => p_Department x = d) rows).
Proof. apply filter_groupby_head. Qed.

Lemma desc_nan_last_iff (x y : f64) :
  desc_nan_last x y = true <->
  is_nan y = true \/ SFcompare x y = Some Gt \/ SFcompare x y = Some Eq.
Proof.
  unfold desc_nan_last. destruct y as [sy|sy| |sy my ey];
    try (simpl is_nan; destruct (SFcompare x _) as [[]|]; split;
         first [done|intros [|[|]]; done|auto]).
Qed.

Lemma tied_iff (r x : ProfitRow) :
  tied r x = true <->
  p_Department x = p_Department r
  /\ ((is_nan (Estimated_Profit x) = true /\ is_nan (Estimated_Profit r) = true)
      \/ SFcompare (Estimated_Profit x) (Estimated_Profit r) = Some Eq).
Proof.
  unfold tied. rewrite !andb_true_iff, bool_decide_eq_true, !desc_nan_last_iff.
  rewrite (SFcompare_antisym (Estimated_Profit x) (Estimated_Profit r)).
  generalize (Estimated_Profit x) (Estimated_Profit r). intros a b.
  destruct (SFcompare a b) as [[]|] eqn:E; simpl;
    destruct a, b; simpl in *; try discriminate; intuition congruence.
Qed.

(** C3.  Of every department the output holds the first 15 rows of the
    sorted table, so as many as the department has in
    [merged_clients_profit], up to 15.  Within a department the rows are
    in descending order of [Estimated_Profit]: of two rows the later one
    has no [Estimated_Profit], or the earlier one compares greater or
    equal as float64.  The departments themselves ascend.  Rows of one
    department whose [Estimated_Profit] are equal, or both null, keep the
    order they have in [merged_clients_profit].  The sorted table is a
    permutation of [merged_clients_profit]. *)
Theorem top_clients_15_sorted (clients : list ClientRow)
    (finance : list FinanceRow) (d : string) (r : ProfitRow) :
  let merged := merged_clients_profit_of clients finance in
  let out := top_clients_15_of clients finance in
  (length (filter (fun x => p_Department x = d) out) <= 15)%nat
  /\ length (filter (fun x => p_Department x = d) out)
     = (15 `min` length (filter (fun x => p_Department x = d) merged))%nat
  /\ filter (fun x => p_Department x = d) out
     = take 15 (filter (fun x => p_Department x = d) (sort_values merged))
  /\ sort_values merged ≡ₚ merged
  /\ StronglySorted
       (fun x y =>
          is_nan (Estimated_Profit y) = true
          \/ SFcompare (Estimated_Profit x) (Estimated_Profit y) = Some Gt
          \/ SFcompare (Estimated_Profit x) (Estimated_Profit y) = Some Eq)
       (filter (fun x => p_Department x = d) out)
  /\ StronglySorted
       (fun x y => cmp (p_Department x) (p_Department y) <> Gt) out
  /\ filter (fun x =>
               p_Department x = p_Department r
               /\ ((is_nan (Estimated_Profit x) = true
                    /\ is_nan (Estimated_Profit r) = true)
                   \/ SFcompare (Estimated_Profit x) (Estimated_Profit r)
                      = Some Eq)) out
     `prefix_of`
     filter (fun x =>
               p_Department x = p_Department r
               /\ ((is_nan (Estimated_Profit x) = true
                    /\ is_nan (Estimated_Profit r) = true)
                   \/ SFcompare (Estimated_Profit x) (Estimated_Profit r)
                      = Some Eq)) merged.
Proof.
  intros merged out. unfold out, top_clients_15_of. fold merged.
  pose proof (sort_values_sorted merged) as Hsorted.
  split; [|split; [|split; [|split; [|split; [|split]]]]].
  - rewrite filter_department_head_15, length_take. lia.
  - rewrite filter_department_head_15, length_take. f_equal.
    apply Permutation_length, filter_Permutation, stable_sort_perm.
  - apply filter_department_head_15.
  - apply stable_sort_perm.
  - rewrite filter_department_head_15.
    apply StronglySorted_within
      with (R := fun a b => sort_le a b = true)
           (P := fun x => p_Department x = d).
    + intros x y Hx Hy. unfold sort_le. rewrite Hx, Hy, cmp_refl.
      apply desc_nan_last_iff.
    + apply Forall_forall. intros x Hx.
      pose proof (elem_of_sublist _ _ _ Hx (sublist_take _ _)) as Hx'.
      by apply list_elem_of_filter in Hx' as [? _].
    + eapply StronglySorted_sublist; [|exact Hsorted].
      etrans; [apply sublist_take|apply sublist_filter].
  - apply StronglySorted_within
      with (R := fun a b => sort_le a b = true) (P := fun _ => True).
    + intros x y _ _. unfold sort_le.
      by destruct (cmp (p_Department x) (p_Department y)).
    + by apply Forall_forall.
    + eapply StronglySorted_sublist; [|exact Hsorted].
      apply head_from_sublist.
  - rewrite <- (filter_same_on (fun x => tied r x = true) _ (head_15 _))
      by (intros x _; apply tied_iff).
    rewrite <- (filter_same_on (fun x => tied r x = true) _ merged)
      by (intros x _; apply tied_iff).
    rewrite <- (filter_filter_implied _ (fun x => p_Department x = p_Department r)
                 (head_15 _)) by apply tied_department.
    rewrite filter_department_head_15.
    etrans; [apply filter_take_prefix|].
    rewrite filter_filter_implied by apply tied_department.
    unfold sort_values.
    rewrite (stable_sort_stable sort_le (fun x => tied r x = true));
      [done|apply tied_sort_le].
Qed.

(** On [one_and_four] with a profit of 250 for Sales: company A, first
    in [merged_clients_profit], has an estimate of 50.0 and company B,
    second there, one of 200.0; the output lists B first. *)
Lemma top_clients_15_sorted_witness :
  p_Company <$> merged_clients_profit_of one_and_four sales_2021 = ["A"; "B"]%string
  /\ Estimated_Profit <$> merged_clients_profit_of one_and_four sales_2021
     = [S754_finite false 7036874417766400 (-47);
        S754_finite false 7036874417766400 (-45)]
  /\ p_Company <$> top_clients_15_of one_and_four sales_2021 = ["B"; "A"]%string
  /\ Estimated_Profit <$> top_clients_15_of one_and_four sales_2021
     = [S754_finite false 7036874417766400 (-45);
        S754_finite false 7036874417766400 (-47)]
  /\ SFcompare (S754_finite false 7036874417766400 (-45))
               (S754_finite false 7036874417766400 (-47)) = Some Gt
  /\ length (filter (fun x => p_Department x = "Sales"%string)
                    (top_clients_15_of one_and_four sales_2021)) = 2%nat
  /\ StronglySorted
       (fun x y =>
          is_nan (Estimated_Profit y) = true
          \/ SFcompare (Estimated_Profit x) (Estimated_Profit y) = Some Gt
          \/ SFcompare (Estimated_Profit x) (Estimated_Profit y) = Some Eq)
       (filter (fun x => p_Department x = "Sales"%string)
               (top_clients_15_of one_and_four sales_2021)).
Proof.
  split; [by vm_compute|]. split; [by vm_compute|].
  split; [by vm_compute|]. split; [by vm_compute|]. split; [done|].
  destruct (top_clients_15_sorted one_and_four sales_2021 "Sales"
              (full_row [] (("Sales", "A", 0, 1)%string, None)))
    as (_ & Hlen & _ & _ & Hsorted & _).
  split; [|exact Hsorted]. rewrite Hlen. by vm_compute.
Defined.

(** ** Left joins *)

Section MergeLeft.
Context {L R K : Type} `{EqDecision K} (lkey : L -> K) (rkey : R -> K).
Implicit Types (left : list L) (right : list R).

Lemma join_row_fst right (l : L) (p : L * option R) :
  p ∈ join_row lkey rkey right l -> p.1 = l.
Proof.
  unfold join_row. destruct (filter _ right) as [|r ms].
  - by intros ->%list_elem_of_singleton.
  - by intros (r' & -> & _)%list_elem_of_fmap.
Qed.

Lemma elem_of_merge_left_fst left right (p : L * option R) :
  p ∈ merge_left lkey rkey left right -> p.1 ∈ left.
Proof.
  unfold merge_left. induction left as [|l left IH]; simpl.
  - by intros ?%elem_of_nil.
  - intros [Hp|Hp]%elem_of_app.
    + apply join_row_fst in Hp as ->. by left.
    + right. auto.
Qed.

(** Filtering a join on a property of the left row filters the left table. *)
Lemma filter_merge_left (P : L -> Prop) `{forall l, Decision (P l)} left right :
  filter (fun p => P p.1) (merge_left lkey rkey left right)
  = merge_left lkey rkey (filter P left) right.
Proof.
  unfold merge_left. induction left as [|l left IH]; [done|].
  simpl. rewrite filter_app, IH, (filter_cons _ l left).
  destruct (decide (P l)) as [HP|HP]; simpl.
  - f_equal. apply filter_all. by intros p ->%join_row_fst.
  - rewrite filter_none; [done|]. by intros p ->%join_row_fst.
Qed.

(** A right table with exactly one row per left key adds its columns
    row by row. *)
Lemma merge_left_unique (g : L -> R) left right :
  (forall l, l ∈ left -> filter (fun r => rkey r = lkey l) right = [g l]) ->
  merge_left lkey rkey left right = (fun l => (l, Some (g l))) <$> left.
Proof.
  unfold merge_left. induction left as [|l left IH]; intros Hone; [done|].
  simpl. rewrite IH by (intros l' Hl'; apply Hone; by right).
  unfold join_row. by rewrite Hone by by left.
Qed.

Lemma merge_left_unmatched left right :
  (forall l, l ∈ left -> filter (fun r => rkey r = lkey l) right = []) ->
  merge_left lkey rkey left right = (fun l => (l, None)) <$> left.
Proof.
  unfold merge_left. induction left as [|l left IH]; intros Hnone; [done|].
  simpl. rewrite IH by (intros l' Hl'; apply Hnone; by right).
  unfold join_row. by rewrite Hnone by by left.
Qed.

End MergeLeft.

(** The one row of a [groupby] with a given key. *)
Lemma filter_groupby_key {R K V : Type} `{CmpLaws K} `{EqDecision K}
    (key : R -> K) (agg : list R -> V) (rows : list R) (k : K) :
  filter (fun kv => kv.1 = k) (groupby key agg rows)
  = if decide (k ∈ key <$> rows)
    then [(k, agg (filter (fun r => key r = k) rows))] else [].
Proof.
  unfold groupby. rewrite filter_fmap. simpl.
  pose proof (sorted_unique_NoDup (key <$> rows)) as Hnd.
  assert (forall ks : list K, NoDup ks ->
    filter (fun k' => k' = k) ks = if decide (k ∈ ks) then [k] else []) as Hone.
  { induction 1 as [|k' ks Hk' Hks IH]; [done|].
    rewrite filter_cons, IH. destruct (decide (k' = k)) as [->|Hne].
    - rewrite (decide_False (P := k ∈ ks)) by done.
      by rewrite (decide_True (P := k ∈ k :: ks)) by by left.
    - destruct (decide (k ∈ ks)).
      + by rewrite (decide_True (P := k ∈ k' :: ks)) by by right.
      + rewrite (decide_False (P := k ∈ k' :: ks)); [done|].
        by intros [->|?]%elem_of_cons. }
  rewrite Hone by done.
  destruct (decide (k ∈ sorted_unique (key <$> rows))) as [Hin|Hin];
    apply (elem_of_sorted_unique k (key <$> rows)) in Hin ||
    rewrite (elem_of_sorted_unique k (key <$> rows)) in Hin.
  - by rewrite decide_True.
  - by rewrite decide_False.
Qed.

(** ** 10. Key clients contribution: the merged table *)

Lemma contracts_rows (clients : list ClientRow) :
  add_Total_Contracts (client_contracts_of clients)
  = (fun k => ((k, pair_max clients k), i64_add (pair_max clients k) 1))
    <$> sorted_unique (pair_of <$> clients).
Proof.
  unfold add_Total_Contracts, client_contracts_of, groupby.
  by rewrite <- list_fmap_compose.
Qed.

Lemma elem_of_contracts (clients : list ClientRow) (c : Contract) :
  c ∈ add_Total_Contracts (client_contracts_of clients) ->
  c.1.1 ∈ pair_of <$> clients
  /\ c.1.2 = pair_max clients c.1.1 /\ c.2 = i64_add (pair_max clients c.1.1) 1.
Proof.
  rewrite contracts_rows. intros (k & -> & Hk)%list_elem_of_fmap. simpl.
  split; [|done]. by apply (elem_of_sorted_unique k (pair_of <$> clients)).
Qed.

Lemma filter_contracts_pair (clients : list ClientRow) (k : string * string) :
  k ∈ pair_of <$> clients ->
  filter (fun c : Contract => c.1.1 = k)
         (add_Total_Contracts (client_contracts_of clients))
  = [((k, pair_max clients k), i64_add (pair_max clients k) 1)].
Proof.
  intros Hk. unfold add_Total_Contracts, client_contracts_of.
  rewrite filter_fmap. simpl. rewrite filter_groupby_key.
  by rewrite decide_True.
Qed.

Lemma filter_dept_totals (contracts : list Contract) (d : string) :
  d ∈ (fun c : Contract => c.1.1.1) <$> contracts ->
  filter (fun t : string * Z => t.1 = d) (dept_totals_of contracts)
  = [(d, dept_total contracts d)].
Proof.
  intros Hd. unfold dept_totals_of. rewrite filter_groupby_key.
  by rewrite decide_True.
Qed.

(** Lines 121-125 in one pass over the first merge. *)
Lemma merged_rows (clients : list ClientRow) (finance : list FinanceRow) :
  let contracts := add_Total_Contracts (client_contracts_of clients) in
  merged_clients_profit_of clients finance
  = full_row contracts <$> merge_finance contracts (finance_columns finance).
Proof.
  intros contracts. unfold merged_clients_profit_of. fold contracts.
  unfold merge_totals.
  rewrite (merge_left_unique m_Department fst
             (fun m => (m_Department m, dept_total contracts (m_Department m)))).
  - unfold add_Estimated_Profit, add_Contracts_Share.
    by rewrite <- !list_fmap_compose.
  - intros m Hm. apply filter_dept_totals.
    apply elem_of_merge_left_fst in Hm.
    apply list_elem_of_fmap. by exists m.1.
Qed.

Lemma filter_finance_columns (finance : list FinanceRow) (d : string) :
  filter (fun f : string * Z * f64 => f.1.1 = d) (finance_columns finance)
  = finance_columns (filter (fun f => fin_Department f = d) finance).
Proof. unfold finance_columns. by rewrite filter_fmap. Qed.

(** The rows of one (Department, Company) pair: its contract row joined
    with the finance rows of the department. *)
Lemma merged_rows_of_pair (clients : list ClientRow) (finance : list FinanceRow)
    (d c : string) :
  let contracts := add_Total_Contracts (client_contracts_of clients) in
  (d, c) ∈ pair_of <$> clients ->
  filter (fun r => (p_Department r, p_Company r) = (d, c))
         (merged_clients_profit_of clients finance)
  = full_row contracts
    <$> join_row (fun l : Contract => l.1.1.1) (fun f : string * Z * f64 => f.1.1)
          (finance_columns finance)
          ((d, c, pair_max clients (d, c)), i64_add (pair_max clients (d, c)) 1).
Proof.
  intros contracts Hk. rewrite merged_rows. fold contracts.
  rewrite filter_fmap. f_equal.
  trans (merge_left (fun l : Contract => l.1.1.1)
           (fun f : string * Z * f64 => f.1.1)
           (filter (fun l : Contract => l.1.1 = (d, c)) contracts)
           (finance_columns finance)).
  - unfold merge_finance. rewrite <- filter_merge_left.
    apply filter_same_on. intros [[[[d' c'] mx] tc] o] _. by cbv.
  - unfold contracts. rewrite filter_contracts_pair by done.
    unfold merge_left. simpl. by rewrite app_nil_r.
Qed.

(** C2, the failing part: company A has contracts in two departments;
    its row for Sales counts 1 contract, not the 4 that the company's
    largest [Renewal_No] over all its rows, plus one, gives. *)
Lemma total_contracts_not_per_company :
  ~ (forall r, r ∈ merged_clients_profit_of two_departments sales_2021 ->
       p_Total_Contracts r
       = company_max two_departments (p_Company r) + 1).
Proof.
  intros Hall.
  assert (exists r,
            merged_clients_profit_of two_departments sales_2021 !! 1%nat = Some r
            /\ p_Department r = "Sales"%string
            /\ p_Total_Contracts r = 1
            /\ company_max two_departments (p_Company r) + 1 = 4)
    as (r & Hr & _ & H1 & H4).
  { eexists. split; [vm_compute; reflexivity|]. by vm_compute. }
  apply list_elem_of_lookup_2, Hall in Hr. lia.
Qed.

(** C2, amended.  [client_contracts] has one row per (Department, Company)
    pair of [clients], pairs ascending, with [Total_Contracts] one more
    than the largest [Renewal_No] among the rows of that pair (int64: the
    sum itself when it is in range).
    Every row of [merged_clients_profit] belongs to such a pair and carries
    its [Total_Contracts], the department's [Dept_Total_Contracts] (the
    int64 sum of [Total_Contracts] over the pairs of the department),
    [Contracts_Share_% = round(100 * Total_Contracts /
    Dept_Total_Contracts, 1)] and [Estimated_Profit =
    round(Contracts_Share_% / 100 * Total Profit, 2)].  The rows of a pair
    are, in order, one per finance row of its department whatever the
    year, with that row's [Year] and [Total Profit]; a pair whose
    department has no finance row has one row with neither. *)
Theorem merged_clients_profit_spec (clients : list ClientRow)
    (finance : list FinanceRow) :
  let merged := merged_clients_profit_of clients finance in
  let contracts := add_Total_Contracts (client_contracts_of clients) in
  contracts
  = (fun k => ((k, pair_max clients k), i64_add (pair_max clients k) 1))
    <$> sorted_unique (pair_of <$> clients)
  /\ (forall r, r ∈ merged ->
        (p_Department r, p_Company r) ∈ pair_of <$> clients
        /\ p_Total_Contracts r
           = i64_add (pair_max clients (p_Department r, p_Company r)) 1
        /\ (- 2 ^ 63 <= pair_max clients (p_Department r, p_Company r) + 1
                      < 2 ^ 63 ->
            p_Total_Contracts r
            = pair_max clients (p_Department r, p_Company r) + 1)
        /\ p_Dept_Total_Contracts r
           = Some (dept_total contracts (p_Department r))
        /\ Contracts_Share r
           = np_round 1 (fdiv (f64_of_Z (i64_mul 100 (p_Total_Contracts r)))
                              (f64_of_Z (dept_total contracts (p_Department r))))
        /\ Estimated_Profit r
           = np_round 2 (fmul (fdiv (Contracts_Share r) (f64_of_Z 100))
                              (p_Total_Profit r)))
  /\ (forall d c, (d, c) ∈ pair_of <$> clients ->
        (fun r => (p_Year r, p_Total_Profit r))
        <$> filter (fun r => (p_Department r, p_Company r) = (d, c)) merged
        = match filter (fun f => fin_Department f = d) finance with
          | [] => [(None, NaN)]
          | fs => (fun f => (Some (fin_Year f), Total_Profit f)) <$> fs
          end).
Proof.
  intros merged contracts. split; [apply contracts_rows|]. split.
  - intros r. unfold merged. rewrite merged_rows. fold contracts.
    intros (m & -> & Hm)%list_elem_of_fmap.
    apply elem_of_merge_left_fst, elem_of_contracts in Hm as (Hk & _ & Htc).
    destruct m as [[[[d c] mx] tc] o]. simpl in Hk, Htc.
    split; [done|]. split; [done|]. split; [|done].
    intros Hrange. change (p_Total_Contracts _) with tc.
    change (p_Department _, p_Company _) with (d, c).
    rewrite Htc. by apply wrap64_small.
  - intros d c Hk. unfold merged. rewrite merged_rows_of_pair by done.
    unfold join_row. cbn beta. rewrite filter_finance_columns.
    destruct (filter _ finance) as [|f fs]; [done|].
    csimpl. f_equal.
    unfold finance_columns. by rewrite <- !list_fmap_compose.
Qed.

Lemma merged_clients_profit_spec_witness :
  exists r,
    merged_clients_profit_of two_departments sales_2021 !! 1%nat = Some r
    /\ p_Total_Contracts r
       = pair_max two_departments (p_Department r, p_Company r) + 1
    /\ Estimated_Profit r
       = np_round 2 (fmul (fdiv (Contracts_Share r) (f64_of_Z 100))
                          (p_Total_Profit r))
    /\ (fun r => (p_Year r, p_Total_Profit r))
       <$> filter (fun r => (p_Department r, p_Company r) = ("Sales", "A")%string)
             (merged_clients_profit_of two_departments sales_2021)
       = [(Some 2021, f64_of_Z 250)].
Proof.
  destruct (merged_clients_profit_spec two_departments sales_2021)
    as (_ & Hrows & Hpairs).
  destruct (merged_clients_profit_of two_departments sales_2021 !! 1%nat)
    as [r|] eqn:Hr; [|by vm_compute in Hr].
  exists r. split; [done|].
  pose proof (list_elem_of_lookup_2 _ _ _ Hr) as Hin.
  destruct (Hrows r Hin) as (_ & _ & Htc & _ & _ & Hest).
  split; [|split; [exact Hest|]].
  - apply Htc. clear -Hr. vm_compute in Hr. injection Hr as <-.
    vm_compute. split; [discriminate|reflexivity].
  - apply (Hpairs "Sales"%string "A"%string). by left.
Defined.

(** ** 10. Key clients contribution: departments without finance rows *)

Lemma fmul_nan_r (x : f64) : fmul x NaN = NaN.
Proof. by destruct x. Qed.

Lemma estimated_profit_unmatched (contracts : list Contract) (c : Contract) :
  Estimated_Profit (full_row contracts (c, None)) = NaN.
Proof.
  unfold Estimated_Profit, full_row, Estimated_Profit_of. simpl.
  unfold m_Total_Profit. simpl. by rewrite fmul_nan_r.
Qed.

(** With no finance row for a department, its rows of the merged table
    are one per pair, in the order of the pairs. *)
Lemma unfinanced_department_rows (clients : list ClientRow)
    (finance : list FinanceRow) (d : string) :
  let contracts := add_Total_Contracts (client_contracts_of clients) in
  filter (fun f => fin_Department f = d) finance = [] ->
  filter (fun r => p_Department r = d) (merged_clients_profit_of clients finance)
  = (fun k => full_row contracts
                ((k, pair_max clients k, i64_add (pair_max clients k) 1), None))
    <$> filter (fun k => k.1 = d) (sorted_unique (pair_of <$> clients)).
Proof.
  intros contracts Hnone. rewrite merged_rows. fold contracts.
  rewrite filter_fmap.
  trans (full_row contracts
         <$> merge_left (fun l : Contract => l.1.1.1)
               (fun f : string * Z * f64 => f.1.1)
               (filter (fun l : Contract => l.1.1.1 = d) contracts)
               (finance_columns finance)).
  { f_equal. unfold merge_finance. rewrite <- filter_merge_left.
    apply filter_same_on. intros [[[[d' c'] mx] tc] o] _. by cbv. }
  rewrite merge_left_unmatched.
  - unfold contracts. rewrite contracts_rows, filter_fmap.
    by rewrite <- !list_fmap_compose.
  - intros l [Hl _]%list_elem_of_filter. rewrite Hl.
    by rewrite filter_finance_columns, Hnone.
Qed.

Lemma sort_values_unfinanced (clients : list ClientRow)
    (finance : list FinanceRow) (d : string) :
  let merged := merged_clients_profit_of clients finance in
  filter (fun f => fin_Department f = d) finance = [] ->
  filter (fun r => p_Department r = d) (sort_values merged)
  = filter (fun r => p_Department r = d) merged.
Proof.
  intros merged Hnone.
  assert (forall x, x ∈ merged ->
            p_Department x = d <->
            p_Department x = d /\ is_nan (Estimated_Profit x) = true) as Hnan.
  { intros x Hx. split; [|tauto]. intros Hd. split; [done|].
    assert (x ∈ filter (fun r => p_Department r = d) merged) as Hin
      by by apply list_elem_of_filter.
    unfold merged in Hin. rewrite unfinanced_department_rows in Hin by done.
    apply list_elem_of_fmap in Hin as (k & -> & _).
    by rewrite estimated_profit_unmatched. }
  rewrite (filter_same_on _ _ merged Hnan).
  rewrite (filter_same_on _
    (fun x => p_Department x = d /\ is_nan (Estimated_Profit x) = true)
    (sort_values merged)).
  - apply stable_sort_stable. intros x y [Hx _] [Hy Hnany].
    unfold sort_le. rewrite Hx, Hy, cmp_refl.
    by destruct (Estimated_Profit y).
  - intros x Hx. apply Hnan.
    by rewrite <- (stable_sort_perm sort_le merged).
Qed.

(** C10, amended.  The join is a left join on [Department]: a pair whose
    department has no finance row has exactly one row in
    [merged_clients_profit], with null [Year], [Total Profit] and
    [Estimated_Profit].  The rows of such a department are one per
    company, in ascending order of the company, and [top_clients_15]
    keeps the first 15 of them in that order: the pair's row is in the
    output when the department has at most 15 companies. *)
Theorem unfinanced_pair_rows (clients : list ClientRow)
    (finance : list FinanceRow) (d c : string) :
  (d, c) ∈ pair_of <$> clients ->
  filter (fun f => fin_Department f = d) finance = [] ->
  let merged := merged_clients_profit_of clients finance in
  let out := top_clients_15_of clients finance in
  let companies := snd <$> filter (fun k => k.1 = d)
                             (sorted_unique (pair_of <$> clients)) in
  (exists r,
     filter (fun r => (p_Department r, p_Company r) = (d, c)) merged = [r]
     /\ p_Year r = None /\ p_Total_Profit r = NaN /\ Estimated_Profit r = NaN)
  /\ p_Company <$> filter (fun r => p_Department r = d) merged = companies
  /\ filter (fun r => p_Department r = d) out
     = take 15 (filter (fun r => p_Department r = d) merged)
  /\ ((length companies <= 15)%nat ->
      filter (fun r => (p_Department r, p_Company r) = (d, c)) out
      = filter (fun r => (p_Department r, p_Company r) = (d, c)) merged).
Proof.
  intros Hk Hnone merged out companies.
  assert (p_Company <$> filter (fun r => p_Department r = d) merged = companies)
    as Hcompanies.
  { unfold merged. rewrite unfinanced_department_rows by done.
    unfold companies. by rewrite <- list_fmap_compose. }
  assert (filter (fun r => p_Department r = d) out
          = take 15 (filter (fun r => p_Department r = d) merged)) as Hout.
  { unfold out, top_clients_15_of. rewrite filter_department_head_15.
    fold merged. unfold merged. by rewrite sort_values_unfinanced. }
  split; [|split; [done|split; [done|]]].
  - unfold merged. rewrite merged_rows_of_pair by done.
    unfold join_row. cbn beta. cbn [fst]. rewrite filter_finance_columns, Hnone.
    eexists. split; [done|]. split; [done|]. split; [done|].
    apply estimated_profit_unmatched.
  - intros Hlen.
    rewrite <- (filter_filter_implied _ (fun r => p_Department r = d) out)
      by by intros x [= -> _].
    rewrite <- (filter_filter_implied _ (fun r => p_Department r = d) merged)
      by by intros x [= -> _].
    rewrite Hout, take_ge; [done|].
    rewrite <- Hcompanies, length_fmap in Hlen. done.
Qed.

Lemma unfinanced_pair_rows_witness :
  exists r,
    filter (fun r => (p_Department r, p_Company r) = ("Ops", "A")%string)
           (top_clients_15_of two_departments sales_2021) = [r]
    /\ p_Year r = None /\ p_Total_Profit r = NaN /\ Estimated_Profit r = NaN.
Proof.
  destruct (unfinanced_pair_rows two_departments sales_2021 "Ops" "A")
    as ((r & Hr & Hnull) & _ & _ & Hkept).
  - by right; left.
  - done.
  - exists r. split; [|exact Hnull].
    rewrite Hkept; [exact Hr|]. vm_compute. lia.
Defined.

(** ** The run of the script *)

Lemma exec_cons_ok (st : stmt) (prog : list stmt) (s s' : Env) :
  st s = Ok s' -> exec (st :: prog) s = exec prog s'.
Proof. intros Hst. simpl. by rewrite Hst. Qed.

Lemma exec_cons_raise (st : stmt) (prog : list stmt) (s : Env) (e : exn) :
  st s = Raise e -> exec (st :: prog) s = Aborted e s.
Proof. intros Hst. simpl. by rewrite Hst. Qed.

Lemma churn_data_of_rows (c : list ClientRow) :
  churn_data_of c = Ok (churn_rows_of c).
Proof.
  unfold churn_rows_of. by destruct (churn_data_rows c) as (rows & -> & _).
Qed.

Lemma finance_margin_rows (f : list FinanceRow) :
  (zip f (Profit_Margin_of f)).*1 = f.
Proof. apply fst_zip. unfold Profit_Margin_of. by rewrite length_fmap. Qed.

(** [churn_df] has a row, and so its columns, when [clients] has two
    years or more. *)
Lemma churn_rows_length (c : list ClientRow) :
  length (churn_rows_of c) = (length (years_of c) - 1)%nat.
Proof.
  destruct (churn_data_rows c) as (rows & Hrows & Hlen & _).
  unfold churn_rows_of. by rewrite Hrows.
Qed.

Lemma fig5_traces_two_years (c : list ClientRow) :
  (2 <= length (years_of c))%nat ->
  fig5_traces (churn_rows_of c) = Some (traces_of c).
Proof.
  intros Hge. pose proof (churn_rows_length c) as Hlen. unfold traces_of.
  destruct (churn_rows_of c) as [|row rows]; [simpl in Hlen; lia|done].
Qed.

Lemma fig5_traces_one_year (c : list ClientRow) :
  (length (years_of c) < 2)%nat -> fig5_traces (churn_rows_of c) = None.
Proof.
  intros Hlt. pose proof (churn_rows_length c) as Hlen.
  destruct (churn_rows_of c) as [|row rows]; [done|simpl in Hlen; lia].
Qed.

(** Read a variable out of a chain of assignments. *)
Ltac read_var :=
  unfold var at 1;
  repeat (rewrite lookup_insert_ne by done);
  rewrite lookup_insert_eq; cbn [bind].

(** Run the next statement, which reads its variables and assigns. *)
Ltac run_stmt line :=
  erewrite exec_cons_ok;
  [|unfold line, assign; repeat read_var; reflexivity].

(** Run lines 41 to 94 on an int64 table [c]. *)
Ltac run_to_line_94 c :=
  run_stmt line_41; run_stmt line_42; run_stmt line_51; run_stmt line_52;
  run_stmt line_62; run_stmt line_63; run_stmt line_72; run_stmt line_73;
  run_stmt line_74; run_stmt line_83; run_stmt line_84;
  (erewrite exec_cons_ok;
   [|unfold line_85, assign; repeat read_var;
     change (churn_loop c (years_of c) 0 (removelast (years_of c)) [])
       with (churn_data_of c);
     rewrite churn_data_of_rows; cbn [bind]; reflexivity]);
  run_stmt line_94.

(** Look a variable of a list up in a chain of assignments. *)
Ltac lookup_vars Hin :=
  repeat (apply elem_of_cons in Hin as [[= -> ->]|Hin]);
  try (repeat (rewrite lookup_insert_ne by done);
       by rewrite lookup_insert_eq);
  by apply elem_of_nil in Hin.

(** With two years or more the analyzers run to the end. *)
Lemma analyzers_run (c : list ClientRow) (f : list FinanceRow) :
  (2 <= length (years_of c))%nat ->
  exists s,
    exec analyzers (normalized c f) = Finished s
    /\ forall x v, (x, v) ∈ final_vars c f -> s !! x = Some v.
Proof.
  intros Hge%fig5_traces_two_years. eexists. split.
  - unfold analyzers, normalized. run_to_line_94 c.
    erewrite exec_cons_ok;
      [|unfold line_98, assign; repeat read_var; rewrite Hge; reflexivity].
    run_stmt line_112. run_stmt line_119.
    run_stmt line_120. run_stmt line_121. run_stmt line_122.
    run_stmt line_123. run_stmt line_124. run_stmt line_125.
    run_stmt line_126. run_stmt line_127.
    reflexivity.
  - intros x v Hin. unfold final_vars in Hin.
    rewrite finance_margin_rows. lookup_vars Hin.
Qed.

(** With fewer than two years the run stops at line 98: the tables of
    sections 1 to 5 are there, [finance] has no margin column, and no
    variable of section 10 is bound. *)
Lemma analyzers_key_error (c : list ClientRow) (f : list FinanceRow) :
  (length (years_of c) < 2)%nat ->
  exists s,
    exec analyzers (normalized c f) = Aborted KeyError s
    /\ (forall x v, (x, v) ∈ vars_at_line_98 c f -> s !! x = Some v)
    /\ forall x, x ∈ ["fig5"; "client_contracts"; "merged_clients_profit";
                      "dept_totals"; "top_clients_per_dept";
                      "top_clients_15"]%string -> s !! x = None.
Proof.
  intros Hlt%fig5_traces_one_year. eexists. split; [|split].
  - unfold analyzers, normalized. run_to_line_94 c.
    erewrite exec_cons_raise; [reflexivity|].
    unfold line_98. repeat read_var. by rewrite Hlt.
  - intros x v Hin. unfold vars_at_line_98 in Hin. lookup_vars Hin.
  - intros x Hin.
    repeat (apply elem_of_cons in Hin as [->|Hin]);
      try (by repeat (rewrite lookup_insert_ne by done)).
    by apply elem_of_nil in Hin.
Qed.

(** Sections 1 to 6 on a float64 table. *)
Lemma sections_1_to_6_run_f (c : list ClientRowF) (f : list FinanceRow) :
  (2 <= length (years_of (without_renewal <$> c)))%nat ->
  exists s,
    exec sections_1_to_6 (normalized_f c f) = Finished s
    /\ s !! "clients"%string = Some (VClientsF c)
    /\ s !! "renewal_counts"%string = Some (VCounts (renewal_counts_f c)).
Proof.
  intros Hge%fig5_traces_two_years. eexists. split; [|split].
  - unfold sections_1_to_6, normalized_f.
    run_stmt line_41. run_stmt line_42. run_stmt line_51. run_stmt line_52.
    run_stmt line_62. run_stmt line_63. run_stmt line_72. run_stmt line_73.
    run_stmt line_74. run_stmt line_83. run_stmt line_84.
    erewrite exec_cons_ok;
      [|unfold line_85, assign; repeat read_var;
        change (churn_loop (without_renewal <$> c)
                  (years_of (without_renewal <$> c)) 0
                  (removelast (years_of (without_renewal <$> c))) [])
          with (churn_data_of (without_renewal <$> c));
        rewrite churn_data_of_rows; cbn [bind]; reflexivity].
    run_stmt line_94.
    erewrite exec_cons_ok;
      [|unfold line_98, assign; repeat read_var; rewrite Hge; reflexivity].
    run_stmt line_112. reflexivity.
  - repeat (rewrite lookup_insert_ne by done). by rewrite lookup_insert_eq.
  - repeat (rewrite lookup_insert_ne by done). by rewrite lookup_insert_eq.
Qed.

(** ** The Normalizer *)

Lemma clean_finance_raise (raw : list RawFinance) :
  (exists r, r ∈ raw /\ rawf_Year r = None) ->
  clean_finance raw = Raise ValueError.
Proof.
  intros (r & Hr & Hnone). unfold clean_finance.
  induction raw as [|r' raw IH]; [by apply elem_of_nil in Hr|]. simpl.
  unfold cast_year at 1. destruct (rawf_Year r') as [y|] eqn:Hy; [|done].
  simpl. apply elem_of_cons in Hr as [->|Hr]; [congruence|].
  by rewrite IH.
Qed.

Lemma clean_finance_ok (raw : list RawFinance) :
  (forall r, r ∈ raw -> is_Some (rawf_Year r)) ->
  exists rows,
    clean_finance raw = Ok rows
    /\ Forall2 (fun r row =>
                  rawf_Year r = Some (fin_Year row)
                  /\ fin_Department row = rawf_Department r
                  /\ Total_Sales row = rawf_Total_Sales r
                  /\ Total_Profit row = rawf_Total_Profit r) raw rows.
Proof.
  unfold clean_finance. induction raw as [|r raw IH]; intros Hall.
  - exists []. by split; [|constructor].
  - destruct (Hall r) as [y Hy]; [by left|].
    destruct IH as (rows & Hrows & Hall2);
      [intros r' Hr'; apply Hall; by right|].
    eexists (_ :: rows). simpl. unfold cast_year at 1.
    rewrite Hy. simpl. rewrite Hrows. simpl. split; [done|].
    by constructor.
Qed.

Lemma normalizer_ok (clients_xlsx : list RawClient)
    (finance_xlsx : list RawFinance) (f : list FinanceRow) :
  clean_finance finance_xlsx = Ok f ->
  exec (normalizer clients_xlsx finance_xlsx) ∅
  = Finished (if int64_column clients_xlsx
              then normalized (clean_clients clients_xlsx) f
              else normalized_f (clean_clients_f clients_xlsx) f).
Proof.
  intros Hf. unfold normalizer, line_30, line_36, exec. rewrite Hf.
  by destruct (int64_column clients_xlsx).
Qed.

Lemma dashboard_cast_ok (clients_xlsx : list RawClient)
    (finance_xlsx : list RawFinance) (f : list FinanceRow) :
  int64_column clients_xlsx = true ->
  clean_finance finance_xlsx = Ok f ->
  dashboard clients_xlsx finance_xlsx
  = exec analyzers (normalized (clean_clients clients_xlsx) f).
Proof.
  intros Hint Hf. unfold dashboard.
  by rewrite (normalizer_ok _ _ f Hf), Hint.
Qed.

Lemma dashboard_float (clients_xlsx : list RawClient)
    (finance_xlsx : list RawFinance) (f : list FinanceRow) :
  int64_column clients_xlsx = false ->
  clean_finance finance_xlsx = Ok f ->
  dashboard clients_xlsx finance_xlsx
  = match exec sections_1_to_6 (normalized_f (clean_clients_f clients_xlsx) f) with
    | Finished s => NotModelled s
    | o => o
    end.
Proof.
  intros Hint Hf. unfold dashboard.
  by rewrite (normalizer_ok _ _ f Hf), Hint.
Qed.

Lemma dashboard_cast_raise (clients_xlsx : list RawClient)
    (finance_xlsx : list RawFinance) (e : exn) :
  clean_finance finance_xlsx = Raise e ->
  dashboard clients_xlsx finance_xlsx
  = Aborted e
      (<["clients"%string :=
           if int64_column clients_xlsx
           then VClients (clean_clients clients_xlsx)
           else VClientsF (clean_clients_f clients_xlsx)]> ∅).
Proof.
  intros Hf. unfold dashboard, normalizer, line_30, line_36, exec. rewrite Hf.
  by destruct (int64_column clients_xlsx).
Qed.

(** C8.  If the [Year] of some finance row cannot be cast, the run
    aborts with the ValueError of line 36 and no variable of any analyzer
    is bound.  If every [Year] can be cast, line 36 gives the finance rows
    with the cast years and the other columns as loaded, and the
    Normalizer finishes with [finance] bound to them.  On a sheet with
    an int64 [Renewal_No] column the analyzers then run on the cleaned
    tables: to the end when [clients] has two years or more, binding
    every analyzer variable and giving [finance] its margin column; up to
    the KeyError of line 98 when it has fewer, [finance] still being the
    table of line 36. *)
Theorem invalid_finance_year_aborts (clients_xlsx : list RawClient)
    (finance_xlsx : list RawFinance) :
  ((exists r, r ∈ finance_xlsx /\ rawf_Year r = None) ->
   exists s,
     dashboard clients_xlsx finance_xlsx = Aborted ValueError s
     /\ forall x, x ∈ analyzer_vars -> s !! x = None)
  /\ ((forall r, r ∈ finance_xlsx -> is_Some (rawf_Year r)) ->
      exists rows s0,
        clean_finance finance_xlsx = Ok rows
        /\ Forall2 (fun r row =>
                      rawf_Year r = Some (fin_Year row)
                      /\ fin_Department row = rawf_Department r
                      /\ Total_Sales row = rawf_Total_Sales r
                      /\ Total_Profit row = rawf_Total_Profit r)
                   finance_xlsx rows
        /\ exec (normalizer clients_xlsx finance_xlsx) ∅ = Finished s0
        /\ s0 !! "finance"%string = Some (VFinance rows)
        /\ (int64_column clients_xlsx = true ->
            let c := clean_clients clients_xlsx in
            dashboard clients_xlsx finance_xlsx
            = exec analyzers (normalized c rows)
            /\ ((2 <= length (years_of c))%nat ->
                exists s,
                  dashboard clients_xlsx finance_xlsx = Finished s
                  /\ s !! "finance"%string
                     = Some (VFinanceMargin (zip rows (Profit_Margin_of rows)))
                  /\ forall x, x ∈ analyzer_vars -> is_Some (s !! x))
            /\ ((length (years_of c) < 2)%nat ->
                exists s,
                  dashboard clients_xlsx finance_xlsx = Aborted KeyError s
                  /\ s !! "finance"%string = Some (VFinance rows)
                  /\ s !! "fig5"%string = None
                  /\ s !! "top_clients_15"%string = None))).
Proof.
  split.
  - intros Hbad%clean_finance_raise. eexists. split.
    + by apply dashboard_cast_raise.
    + intros x Hx. unfold analyzer_vars in Hx.
      repeat (apply elem_of_cons in Hx as [->|Hx]);
        try by rewrite lookup_insert_ne.
      by apply elem_of_nil in Hx.
  - intros (rows & Hrows & Hall)%clean_finance_ok.
    exists rows. eexists. split; [done|]. split; [done|].
    split; [by apply normalizer_ok|].
    split; [by destruct (int64_column clients_xlsx); apply lookup_insert_eq|].
    intros Hint c.
    pose proof (dashboard_cast_ok _ _ rows Hint Hrows) as Hrun. fold c in Hrun.
    split; [done|]. split.
    + intros Hge. destruct (analyzers_run c rows Hge) as (s & Hs & Hvars).
      exists s. split; [by rewrite Hrun|].
      split; [apply Hvars; unfold final_vars; by right; left|].
      intros x Hx. unfold analyzer_vars in Hx.
      repeat (apply elem_of_cons in Hx as [->|Hx]);
        try (eexists; apply Hvars; unfold final_vars;
             solve [repeat first [apply list_elem_of_here
                                 |apply list_elem_of_further]]).
      by apply elem_of_nil in Hx.
    + intros Hlt.
      destruct (analyzers_key_error c rows Hlt) as (s & Hs & Hvars & Hnone).
      exists s. split; [by rewrite Hrun|].
      split; [apply Hvars; unfold vars_at_line_98; by right; left|].
      split; apply Hnone;
        repeat first [apply list_elem_of_here|apply list_elem_of_further].
Qed.

Lemma invalid_finance_year_aborts_witness :
  (exists s,
     dashboard clients_sheet finance_bad_year = Aborted ValueError s
     /\ s !! "top_clients_15"%string = None)
  /\ (exists rows s,
        clean_finance finance_clean = Ok rows
        /\ fin_Year <$> rows = [2021]
        /\ years_of (clean_clients clients_sheet) = [2020; 2021]
        /\ dashboard clients_sheet finance_clean = Finished s
        /\ is_Some (s !! "top_clients_15"%string))
  /\ (exists s,
        years_of (clean_clients one_year_sheet) = [2020]
        /\ dashboard one_year_sheet finance_clean = Aborted KeyError s
        /\ s !! "top_clients_15"%string = None).
Proof.
  split; [|split].
  - destruct (invalid_finance_year_aborts clients_sheet finance_bad_year)
      as [Hbad _].
    destruct Hbad as (s & Hs & Hvars).
    + eexists. split; [by right; left|done].
    + exists s. split; [done|]. apply Hvars.
      unfold analyzer_vars.
      repeat first [apply list_elem_of_here|apply list_elem_of_further].
  - destruct (invalid_finance_year_aborts clients_sheet finance_clean)
      as [_ Hgood].
    destruct Hgood as (rows & s0 & Hrows & _ & _ & _ & Hrun).
    { intros r ->%list_elem_of_singleton. by eexists. }
    destruct (Hrun eq_refl) as (_ & Hge & _).
    destruct Hge as (s & Hs & _ & Hvars); [by vm_compute|].
    exists rows, s. split; [done|]. split.
    { vm_compute in Hrows. by injection Hrows as <-. }
    split; [by vm_compute|]. split; [done|]. apply Hvars.
    unfold analyzer_vars.
    repeat first [apply list_elem_of_here|apply list_elem_of_further].
  - destruct (invalid_finance_year_aborts one_year_sheet finance_clean)
      as [_ Hgood].
    destruct Hgood as (rows & s0 & Hrows & _ & _ & _ & Hrun).
    { intros r ->%list_elem_of_singleton. by eexists. }
    destruct (Hrun eq_refl) as (_ & _ & Hlt).
    destruct Hlt as (s & Hs & _ & _ & Hnone); [by vm_compute|].
    exists s. split; [by vm_compute|]. done.
Defined.

(** ** Counterexamples that need the run *)

(** C7, the failing part.  Company B of [blank_renewal_sheet] has no
    renewal number.  Line 30 keeps its row, the run goes through
    sections 1 to 6, and [renewal_counts] has the one bucket of company
    A: the [Number_of_Clients] add up to 1, the distinct companies of the
    cleaned [clients] are 2. *)
Lemma renewal_counts_blank_company :
  exists s,
    dashboard blank_renewal_sheet finance_clean = NotModelled s
    /\ s !! "clients"%string
       = Some (VClientsF [mkClientF "A" "Sales" (Some 0) 2020;
                          mkClientF "A" "Sales" (Some 1) 2021;
                          mkClientF "B" "Ops" None 2020]%string)
    /\ s !! "renewal_counts"%string = Some (VCounts [(1, 1)])
    /\ sum_Z [(1, 1)].*2 = 1
    /\ size (list_to_set (f_Company <$> clean_clients_f blank_renewal_sheet)
             : gset string) = 2%nat
    /\ sum_Z (renewal_counts_f (clean_clients_f blank_renewal_sheet)).*2
       <> Z.of_nat (size (list_to_set
                            (f_Company <$> clean_clients_f blank_renewal_sheet)
                          : gset string)).
Proof.
  destruct (sections_1_to_6_run_f (clean_clients_f blank_renewal_sheet)
              sales_2021) as (s & Hs & Hc & Hr); [by vm_compute|].
  exists s. split.
  { rewrite (dashboard_float _ _ sales_2021); [by rewrite Hs|done|by vm_compute]. }
  split; [exact Hc|]. split.
  { rewrite Hr. by vm_compute. }
  split; [done|]. split; [by vm_compute|]. by vm_compute.
Qed.

(** C10, the failing part: sixteen companies over two years in a
    department without finance rows.  The run reaches lines 119-127;
    each company has its one row in the merged table, and the last of
    them has none in [top_clients_15]. *)
Lemma unfinanced_company_dropped :
  years_of sixteen_companies = [2020; 2021]
  /\ (exists s,
        exec analyzers (normalized sixteen_companies sales_2021) = Finished s
        /\ s !! "merged_clients_profit"%string
           = Some (VProfit (merged_clients_profit_of sixteen_companies sales_2021))
        /\ s !! "top_clients_15"%string
           = Some (VProfit (top_clients_15_of sixteen_companies sales_2021)))
  /\ filter (fun f => fin_Department f = "Ops"%string) sales_2021 = []
  /\ length (filter (fun r => (p_Department r, p_Company r) = ("Ops", "C16")%string)
               (merged_clients_profit_of sixteen_companies sales_2021)) = 1%nat
  /\ filter (fun r => (p_Department r, p_Company r) = ("Ops", "C16")%string)
            (top_clients_15_of sixteen_companies sales_2021) = [].
Proof.
  split; [by vm_compute|]. split; [|by vm_compute].
  destruct (analyzers_run sixteen_companies sales_2021) as (s & Hs & Hvars);
    [by vm_compute|].
  exists s. split; [done|].
  split; apply Hvars; unfold final_vars;
    repeat first [apply list_elem_of_here|apply list_elem_of_further].
Qed.

(** ** Which tables the analyzers change *)

Lemma length_pct_change_from (prev : f64) (l : list Z) :
  length (pct_change_from prev l) = length l.
Proof. revert prev. induction l; intros prev; simpl; [done|]. by rewrite IHl. Qed.

Lemma growth_rows (rows : list (Z * Z)) : (zip rows (Growth_of rows)).*1 = rows.
Proof.
  apply fst_zip. unfold Growth_of, pct_change.
  by rewrite length_fmap, length_pct_change_from, length_fmap.
Qed.

Lemma share_rows (rows : list (string * Z)) : (zip rows (Share_of rows)).*1 = rows.
Proof. apply fst_zip. unfold Share_of. by rewrite length_fmap. Qed.

Lemma fst_with_column {A B : Type} (g : A -> B) (l : list A) :
  ((fun r => (r, g r)) <$> l).*1 = l.
Proof. rewrite <- list_fmap_compose. apply list_fmap_id. Qed.

Create HintDb columns.
#[export] Hint Resolve growth_rows share_rows finance_margin_rows : columns.
#[export] Hint Extern 1 (_.*1 = _) => apply fst_with_column : columns.

(** Take a statement apart: which variables it read, what it assigned. *)
Ltac stmt_cases H :=
  cbv [line_41 line_42 line_51 line_52 line_62 line_63 line_72 line_73
       line_74 line_83 line_84 line_85 line_94 line_98 line_112 line_119
       line_120 line_121 line_122 line_123 line_124 line_125 line_126
       line_127 var assign bind] in H;
  repeat case_match; simplify_eq.

Lemma assigned_by_frame (st : stmt) (x y : string) (s s' : Env) :
  (st, x) ∈ assigned_by -> st s = Ok s' -> y <> x -> s' !! y = s !! y.
Proof.
  intros Hin Hst Hy. unfold assigned_by in Hin.
  repeat (apply elem_of_cons in Hin as [[= -> ->]|Hin]);
    try (stmt_cases Hst; by rewrite lookup_insert_ne).
  by apply elem_of_nil in Hin.
Qed.

Lemma line_52_renames (s s' : Env) :
  line_52 s = Ok s' ->
  exists rows,
    s !! "renewal_counts"%string = Some (VValueCounts rows)
    /\ s' !! "renewal_counts"%string = Some (VCounts rows).
Proof.
  intros Hst. stmt_cases Hst. eexists. split; [reflexivity|].
  apply lookup_insert_eq.
Qed.

Lemma updates_add_column (st : stmt) (x : string) (s s' : Env) :
  (st, x) ∈ updates_in_place -> st s = Ok s' ->
  exists v v',
    s !! x = Some v /\ s' !! x = Some v'
    /\ (adds_column v v' \/ renames_columns v v').
Proof.
  intros Hin Hst. unfold updates_in_place in Hin.
  repeat (apply elem_of_cons in Hin as [[= -> ->]|Hin]);
    try (stmt_cases Hst; eexists _, _;
         split; [first [reflexivity|eassumption]|];
         split; [apply lookup_insert_eq|];
         first [by right
               |left; simpl; unfold add_Total_Contracts, add_Contracts_Share,
                                    add_Estimated_Profit;
                solve [auto with columns]]).
  by apply elem_of_nil in Hin.
Qed.

(** The states of the run that the next lemma compares. *)
Lemma state_after_line_42 (c : list ClientRow) (f : list FinanceRow) :
  exists s s',
    state_after 1 c f = Some s /\ state_after 2 c f = Some s'
    /\ s !! "clients_per_year"%string = Some (VYearly (clients_per_year_of c))
    /\ s' !! "clients_per_year"%string
       = Some (VYearlyGrowth (zip (clients_per_year_of c)
                                  (Growth_of (clients_per_year_of c)))).
Proof.
  eexists _, _. unfold state_after, analyzers, normalized. cbn [take firstn].
  split; [|split].
  - run_stmt line_41. reflexivity.
  - run_stmt line_41. run_stmt line_42. reflexivity.
  - split; by rewrite lookup_insert_eq.
Qed.

Lemma state_after_line_52 (c : list ClientRow) (f : list FinanceRow) :
  exists s s',
    state_after 3 c f = Some s /\ state_after 4 c f = Some s'
    /\ s !! "renewal_counts"%string = Some (VValueCounts (renewal_counts_of c))
    /\ s' !! "renewal_counts"%string = Some (VCounts (renewal_counts_of c)).
Proof.
  eexists _, _. unfold state_after, analyzers, normalized. cbn [take firstn].
  split; [|split].
  - run_stmt line_41. run_stmt line_42. run_stmt line_51. reflexivity.
  - run_stmt line_41. run_stmt line_42. run_stmt line_51. run_stmt line_52.
    reflexivity.
  - split; by rewrite lookup_insert_eq.
Qed.

Lemma state_after_line_112 (c : list ClientRow) (f : list FinanceRow) :
  (2 <= length (years_of c))%nat ->
  exists s s',
    state_after 0 c f = Some s /\ state_after 15 c f = Some s'
    /\ s !! "finance"%string = Some (VFinance f)
    /\ s' !! "finance"%string
       = Some (VFinanceMargin (zip f (Profit_Margin_of f))).
Proof.
  intros Hge%fig5_traces_two_years.
  eexists _, _. unfold state_after, analyzers, normalized. cbn [take firstn].
  split; [reflexivity|]. split.
  - run_to_line_94 c.
    erewrite exec_cons_ok;
      [|unfold line_98, assign; repeat read_var; rewrite Hge; reflexivity].
    run_stmt line_112. reflexivity.
  - split; by rewrite lookup_insert_eq.
Qed.

(** C5, the failing part.  On the example tables, which have two years,
    [finance] holds one table when the Normalizer has finished and
    another after line 112 (the 15th analyzer statement),
    [clients_per_year] holds one table after line 41 and another after
    line 42, and [renewal_counts] one after line 51 and another after
    line 52: tables are updated after their creation, and not only by
    the Normalizer. *)
Lemma tables_updated_in_place :
  years_of three_contracts = [2020; 2021]
  /\ (exists s s',
        state_after 0 three_contracts sales_2021 = Some s
        /\ state_after 15 three_contracts sales_2021 = Some s'
        /\ s !! "finance"%string = Some (VFinance sales_2021)
        /\ s' !! "finance"%string
           = Some (VFinanceMargin (zip sales_2021 (Profit_Margin_of sales_2021))))
  /\ (exists s s',
        state_after 1 three_contracts sales_2021 = Some s
        /\ state_after 2 three_contracts sales_2021 = Some s'
        /\ s !! "clients_per_year"%string = Some (VYearly [(2020, 2); (2021, 1)])
        /\ s' !! "clients_per_year"%string
           = Some (VYearlyGrowth
                     (zip [(2020, 2); (2021, 1)]
                          (Growth_of [(2020, 2); (2021, 1)]))))
  /\ (exists s s',
        state_after 3 three_contracts sales_2021 = Some s
        /\ state_after 4 three_contracts sales_2021 = Some s'
        /\ s !! "renewal_counts"%string = Some (VValueCounts [(0, 1); (1, 1)])
        /\ s' !! "renewal_counts"%string = Some (VCounts [(0, 1); (1, 1)]))
  /\ ~ never_updated three_contracts sales_2021.
Proof.
  assert (Hyears : (2 <= length (years_of three_contracts))%nat)
    by (vm_compute; lia).
  pose proof (state_after_line_112 three_contracts sales_2021 Hyears) as Hfinance.
  split; [by vm_compute|]. split; [exact Hfinance|]. split; [|split].
  - assert (clients_per_year_of three_contracts = [(2020, 2); (2021, 1)])
      as <- by by vm_compute.
    apply state_after_line_42.
  - assert (renewal_counts_of three_contracts = [(0, 1); (1, 1)])
      as <- by by vm_compute.
    apply state_after_line_52.
  - intros Hnever. destruct Hfinance as (s & s' & Hs & Hs' & Hv & Hv').
    assert (0 <= 15)%nat as Hle by lia.
    pose proof (Hnever _ _ _ _ _ _ Hle Hs Hs' Hv) as Hsame.
    rewrite Hv' in Hsame. discriminate.
Qed.

(** C5, amended.  After the Normalizer no analyzer statement assigns
    [clients], and only line 112 assigns [finance]; every analyzer
    statement leaves all variables other than the one it assigns as they
    were; a statement that updates an existing table keeps its rows and
    the values in its columns: lines 42, 63, 74, 112, 120, 124 and 125
    add one column, line 52 renames the two columns of [renewal_counts].
    On a sheet with an int64 [Renewal_No] column and a finance sheet
    that casts, the run ends in one of two ways.  With two years or more
    in [clients] it finishes, and every table is the function
    [final_vars] of the cleaned [clients] and [finance].  With fewer it
    stops at line 98 with a KeyError, the tables of sections 1 to 5
    being the same functions of the cleaned [clients], and [finance] the
    table of line 36. *)
Theorem analyzers_only_add_columns (clients_xlsx : list RawClient)
    (finance_xlsx : list RawFinance) (f : list FinanceRow) :
  analyzers = assigned_by.*1
  /\ filter (fun p => p.2 = "clients"%string) assigned_by = []
  /\ filter (fun p => p.2 = "finance"%string) assigned_by
     = [(line_112, "finance"%string)]
  /\ (forall st x y s s',
        (st, x) ∈ assigned_by -> st s = Ok s' -> y <> x -> s' !! y = s !! y)
  /\ (forall st x s s',
        (st, x) ∈ updates_in_place -> st s = Ok s' ->
        exists v v',
          s !! x = Some v /\ s' !! x = Some v'
          /\ (adds_column v v' \/ renames_columns v v'))
  /\ (forall s s',
        line_52 s = Ok s' ->
        exists rows,
          s !! "renewal_counts"%string = Some (VValueCounts rows)
          /\ s' !! "renewal_counts"%string = Some (VCounts rows))
  /\ (int64_column clients_xlsx = true ->
      clean_finance finance_xlsx = Ok f ->
      let c := clean_clients clients_xlsx in
      ((2 <= length (years_of c))%nat ->
       exists s,
         dashboard clients_xlsx finance_xlsx = Finished s
         /\ forall x v, (x, v) ∈ final_vars c f -> s !! x = Some v)
      /\ ((length (years_of c) < 2)%nat ->
          exists s,
            dashboard clients_xlsx finance_xlsx = Aborted KeyError s
            /\ forall x v, (x, v) ∈ vars_at_line_98 c f -> s !! x = Some v)).
Proof.
  split; [done|]. split; [done|]. split; [done|].
  split; [intros st x y s s'; apply assigned_by_frame|].
  split; [intros st x s s'; apply updates_add_column|].
  split; [apply line_52_renames|].
  intros Hint Hf c. rewrite (dashboard_cast_ok _ _ f Hint Hf). fold c. split.
  - apply analyzers_run.
  - intros Hlt. destruct (analyzers_key_error c f Hlt) as (s & Hs & Hvars & _).
    by exists s.
Qed.

Lemma analyzers_only_add_columns_witness :
  (exists s',
     line_112 (normalized three_contracts sales_2021) = Ok s'
     /\ s' !! "clients"%string = Some (VClients three_contracts)
     /\ exists v', s' !! "finance"%string = Some v'
                   /\ adds_column (VFinance sales_2021) v')
  /\ (exists s,
        years_of (clean_clients clients_sheet) = [2020; 2021]
        /\ dashboard clients_sheet finance_clean = Finished s
        /\ s !! "top_clients_15"%string
           = Some (VProfit (top_clients_15_of (clean_clients clients_sheet)
                                              sales_2021)))
  /\ (exists s,
        years_of (clean_clients one_year_sheet) = [2020]
        /\ dashboard one_year_sheet finance_clean = Aborted KeyError s
        /\ s !! "churn_df"%string = Some (VChurn [])).
Proof.
  destruct (analyzers_only_add_columns clients_sheet finance_clean sales_2021)
    as (_ & _ & _ & Hframe & Hadd & _ & Hrun).
  split; [|split].
  - assert (exists s', line_112 (normalized three_contracts sales_2021) = Ok s')
      as [s' Hst].
    { eexists. unfold line_112, assign, normalized. read_var. reflexivity. }
    assert (normalized three_contracts sales_2021 !! "finance"%string
            = Some (VFinance sales_2021)) as Hfin
      by apply lookup_insert_eq.
    assert (normalized three_contracts sales_2021 !! "clients"%string
            = Some (VClients three_contracts)) as Hcli.
    { unfold normalized. rewrite lookup_insert_ne by done.
      apply lookup_insert_eq. }
    exists s'. split; [done|]. split.
    + rewrite <- Hcli.
      apply (Hframe line_112 "finance"%string "clients"%string
                    (normalized three_contracts sales_2021) s');
        [|done|done].
      unfold assigned_by.
      repeat first [apply list_elem_of_here|apply list_elem_of_further].
    + destruct (Hadd line_112 "finance"%string
                     (normalized three_contracts sales_2021) s')
        as (v & v' & Hv & Hv' & Hcol); [|exact Hst|].
      * unfold updates_in_place.
        repeat first [apply list_elem_of_here|apply list_elem_of_further].
      * exists v'. split; [done|].
        assert (v = VFinance sales_2021) as -> by congruence.
        by destruct Hcol as [Hcol|Hcol].
  - destruct (Hrun eq_refl eq_refl) as [Hge _].
    destruct Hge as (s & Hs & Hvars); [by vm_compute|].
    exists s. split; [by vm_compute|]. split; [done|]. apply Hvars.
    unfold final_vars.
    repeat first [apply list_elem_of_here|apply list_elem_of_further].
  - destruct (analyzers_only_add_columns one_year_sheet finance_clean sales_2021)
      as (_ & _ & _ & _ & _ & _ & Hrun1).
    destruct (Hrun1 eq_refl eq_refl) as [_ Hlt].
    destruct Hlt as (s & Hs & Hvars); [by vm_compute|].
    exists s. split; [by vm_compute|]. split; [done|].
    assert (Hc : churn_rows_of (clean_clients one_year_sheet) = [])
      by by vm_compute.
    rewrite <- Hc. apply Hvars. unfold vars_at_line_98.
    repeat first [apply list_elem_of_here|apply list_elem_of_further].
Defined.
(* ===================================================================== *)
(** * Part III. Further properties of the pipeline *)
(* ===================================================================== *)

(** ** Active clients by year (line 41) *)

Lemma size_list_to_set_le (l : list string) :
  (size (list_to_set l : gset string) <= length l)%nat.
Proof.
  induction l as [|x l IH].
  - by rewrite list_to_set_nil, size_empty.
  - rewrite list_to_set_cons, size_union_alt, size_singleton. csimpl.
    assert (Hsub : list_to_set l ∖ {[x]} ⊆ (list_to_set l : gset string))
      by apply subseteq_difference_l, reflexivity.
    apply subseteq_size in Hsub. lia.
Qed.

Lemma sum_Z_le {A : Type} (f g : A -> Z) (l : list A) :
  (forall a, a ∈ l -> f a <= g a) -> sum_Z (f <$> l) <= sum_Z (g <$> l).
Proof.
  induction l as [|a l IH]; intros Hl; csimpl; [done|].
  pose proof (Hl a (list_elem_of_here _ _)).
  pose proof (IH (fun b Hb => Hl b (list_elem_of_further _ _ _ Hb))).
  unfold sum_Z in *. lia.
Qed.

Lemma size_union_years (clients : list ClientRow) (ys : list Z) :
  Z.of_nat (size (⋃ (companies_in clients <$> ys)))
  <= sum_Z ((fun y => Z.of_nat (size (companies_in clients y))) <$> ys).
Proof.
  induction ys as [|y ys IH].
  - by rewrite fmap_nil, union_list_nil, size_empty.
  - rewrite !fmap_cons, union_list_cons, size_union_alt. csimpl.
    assert (Hsub : ⋃ (companies_in clients <$> ys) ∖ companies_in clients y
                   ⊆ ⋃ (companies_in clients <$> ys))
      by apply subseteq_difference_l, reflexivity.
    apply subseteq_size in Hsub. unfold sum_Z in *. lia.
Qed.

Lemma active_clients_bounds (clients : list ClientRow) (y a : Z) :
  (y, a) ∈ clients_per_year_of clients ->
  a = Z.of_nat (size (companies_in clients y))
  /\ 1 <= a <= Z.of_nat (length (filter (fun r => Year r = y) clients)).
Proof.
  intros Hin. apply elem_of_groupby in Hin as [Hy ->].
  split; [done|]. unfold nunique. fold (companies_in clients y).
  pose proof (companies_in_nonempty clients y
                ltac:(by apply elem_of_sorted_unique)).
  pose proof (size_list_to_set_le
                (Company <$> filter (fun r => Year r = y) clients)) as Hle.
  rewrite length_fmap in Hle. unfold companies_in in *. lia.
Qed.

(** X2 (line 41, [clients_per_year]).  One row per distinct year, years
    ascending; [Active_Clients] of a year is the number of distinct
    companies with a row in that year, the size of the set the churn loop
    builds for it, at least 1 and at most the number of rows of the year.
    Summed over the years it lies between the number of distinct
    companies and the number of rows: a company counts once in every
    year it has a row in. *)
Theorem clients_per_year_spec (clients : list ClientRow) :
  let rows := clients_per_year_of clients in
  rows.*1 = years_of clients
  /\ StronglySorted Z.lt rows.*1
  /\ (forall y a, (y, a) ∈ rows ->
        a = Z.of_nat (size (companies_in clients y))
        /\ 1 <= a <= Z.of_nat (length (filter (fun r => Year r = y) clients)))
  /\ Z.of_nat (size (list_to_set (Company <$> clients) : gset string))
     <= sum_Z rows.*2 <= Z.of_nat (length clients).
Proof.
  intros rows.
  assert (Hk : rows.*1 = years_of clients) by apply groupby_keys.
  assert (Hsum : sum_Z rows.*2
            = sum_Z ((fun y => Z.of_nat (size (companies_in clients y)))
                     <$> years_of clients)).
  { unfold rows, clients_per_year_of, groupby, years_of.
    rewrite <- list_fmap_compose. done. }
  split; [done|]. split.
  { rewrite Hk. apply years_of_spec. }
  split; [apply active_clients_bounds|]. rewrite Hsum. split.
  - etrans; [|apply size_union_years].
    apply Nat2Z.inj_le, subseteq_size. intros c Hc.
    apply elem_of_list_to_set, list_elem_of_fmap in Hc as (r & -> & Hr).
    apply elem_of_union_list. exists (companies_in clients (Year r)). split.
    + apply list_elem_of_fmap. exists (Year r). split; [done|].
      apply years_of_spec. by exists r.
    + apply elem_of_companies_in. by exists r.
  - rewrite <- (group_sizes_sum Year (years_of clients) clients).
    + apply sum_Z_le. intros y Hy.
      pose proof (size_list_to_set_le
                    (Company <$> filter (fun r => Year r = y) clients)) as Hle.
      rewrite length_fmap in Hle. unfold companies_in. lia.
    + apply sorted_unique_NoDup.
    + intros r Hr. apply years_of_spec. by exists r.
Qed.

(** ** First contracts against all contracts (lines 62-63, 72-74) *)

Lemma length_filter_sublist {A : Type} (P : A -> Prop) `{forall x, Decision (P x)}
    (l k : list A) :
  l `sublist_of` k -> (length (filter P l) <= length (filter P k))%nat.
Proof.
  induction 1 as [|x l k _ IH|x l k _ IH]; [done| |].
  - rewrite !filter_cons. case_decide; csimpl; lia.
  - rewrite filter_cons. case_decide; csimpl; lia.
Qed.

(** X3 (lines 62 and 72-73, [dept_share] and [first_share]).  The first
    contracts are the rows with [Renewal_No = 0], in table order.  A
    department listed in [first_share] is listed in [dept_share], and its
    [First_Contracts] is at least 1 and at most its [Total_Contracts];
    every [Total_Contracts] is at least 1; [first_share] has no more rows
    than [dept_share]. *)
Theorem first_share_within_dept_share (clients : list ClientRow) :
  let firsts := first_contracts_of clients in
  firsts `sublist_of` clients
  /\ (forall r, r ∈ firsts <-> r ∈ clients /\ Renewal_No r = 0)
  /\ (forall d n, (d, n) ∈ contracts_by_department firsts ->
        exists m, (d, m) ∈ contracts_by_department clients /\ 1 <= n <= m)
  /\ (forall d m, (d, m) ∈ contracts_by_department clients -> 1 <= m)
  /\ (length (share_view firsts) <= length (share_view clients))%nat.
Proof.
  intros firsts.
  assert (Hsub : firsts `sublist_of` clients) by apply sublist_filter.
  assert (Hpos : forall rows d m,
            (d, m) ∈ contracts_by_department rows -> 1 <= m).
  { intros rows d m Hin. apply elem_of_groupby in Hin as [Hd ->].
    apply group_nonempty in Hd.
    destruct (filter _ rows); [done|]. csimpl. lia. }
  split; [done|]. split.
  { intros r. unfold firsts, first_contracts_of.
    rewrite list_elem_of_filter. tauto. }
  split.
  { intros d n Hin. pose proof (Hpos _ _ _ Hin).
    apply elem_of_groupby in Hin as [Hd ->].
    exists (Z.of_nat (length (filter (fun r => Department r = d) clients))).
    split.
    - apply elem_of_groupby. split; [|done].
      apply list_elem_of_fmap in Hd as (r & -> & Hr).
      apply list_elem_of_fmap. exists r. split; [done|].
      by eapply elem_of_sublist.
    - split; [done|]. apply Nat2Z.inj_le. by apply length_filter_sublist. }
  split; [apply Hpos|].
  rewrite <- (length_fmap fst (share_view firsts)),
          <- (length_fmap fst (share_view clients)), !share_view_counts.
  unfold contracts_by_department. rewrite !length_groupby.
  apply submseteq_length, NoDup_submseteq; [apply sorted_unique_NoDup|].
  intros d Hd%(proj1 (elem_of_sorted_unique _ _)).
  apply (proj2 (elem_of_sorted_unique _ _)).
  apply list_elem_of_fmap in Hd as (r & -> & Hr).
  apply list_elem_of_fmap. exists r. split; [done|]. by eapply elem_of_sublist.
Qed.
(** ** The churn chart (lines 94-101) *)

(** X4 (lines 94-101, [churn_df] and [fig5]).  With fewer than two
    distinct years among the clients the loop appends nothing, [churn_df]
    is the frame of the empty list and has no [Year] column, and the first
    [churn_df["Year"]] raises KeyError.  With two years or more both
    traces get every year but the last on the x axis and one rate for each
    of them. *)
Theorem fig5_needs_two_years (clients : list ClientRow) :
  let years := years_of clients in
  let churn_df := churn_rows_of clients in
  ((length years <= 1)%nat -> churn_df = [] /\ fig5_traces churn_df = None)
  /\ ((2 <= length years)%nat ->
      fig5_traces churn_df
      = Some ((removelast years, Churn <$> churn_df),
              (removelast years, Retention <$> churn_df))
      /\ length (Churn <$> churn_df) = length (removelast years)
      /\ length (Retention <$> churn_df) = length (removelast years)).
Proof.
  intros years churn_df.
  destruct (churn_data_rows clients) as (rows & Hrows & Hlen & Hrow).
  assert (Hdf : churn_df = rows).
  { unfold churn_df, churn_rows_of. by rewrite Hrows. }
  assert (Hyears : churn_Year <$> rows = removelast years).
  { apply churn_years; [done|]. intros i row Hi.
    destruct (Hrow i row Hi) as (y & y' & Hy & _ & Hyr & _). eauto. }
  fold years in Hlen. rewrite Hdf. split.
  - intros Hle. assert (rows = []) as ->; [|done].
    apply length_zero_iff_nil. lia.
  - intros Hge. rewrite !length_fmap, length_removelast.
    split; [|done].
    destruct rows as [|row rows]; [simpl in Hlen; lia|].
    unfold fig5_traces, churn_column. by rewrite Hyears.
Qed.

Lemma fig5_needs_two_years_witness :
  fig5_traces (churn_rows_of one_year) = None
  /\ exists churn retention,
       fig5_traces (churn_rows_of three_contracts)
       = Some (([2020], churn), ([2020], retention))
       /\ length churn = 1%nat.
Proof.
  split.
  - apply (fig5_needs_two_years one_year). vm_compute. lia.
  - destruct (fig5_needs_two_years three_contracts) as [_ Hge].
    destruct Hge as (Hfig & Hlen & _); [vm_compute; lia|].
    eexists _, _. split; [exact Hfig|exact Hlen].
Defined.

(** ** Rows of the merged table (lines 119-125) *)

Section MergeCount.
Context {L R K : Type} `{EqDecision K} (lkey : L -> K) (rkey : R -> K).

Lemma length_join_row (right : list R) (l : L) :
  length (join_row lkey rkey right l)
  = (1 `max` length (filter (fun r => rkey r = lkey l) right))%nat.
Proof.
  unfold join_row. destruct (filter _ right) as [|r ms]; [done|].
  rewrite length_fmap. simpl. lia.
Qed.

Lemma length_merge_left (left : list L) (right : list R) :
  Z.of_nat (length (merge_left lkey rkey left right))
  = sum_Z ((fun l => Z.of_nat
              (1 `max` length (filter (fun r => rkey r = lkey l) right)))
           <$> left).
Proof.
  unfold merge_left. induction left as [|l left IH]; [done|].
  cbn [flat_map]. rewrite length_app, Nat2Z.inj_add, IH, length_join_row.
  done.
Qed.

End MergeCount.

Lemma full_row_merged1 (contracts : list Contract) (l : list Merged1) :
  (full_row contracts <$> l).*1.*1.*1 = l.
Proof.
  rewrite <- !list_fmap_compose. induction l as [|m l IH]; [done|].
  csimpl. by rewrite IH.
Qed.

(** X5 (lines 121-125, [merged_clients_profit]).  The second merge and
    the two column assignments leave the rows of the first merge as they
    are, in order.  A (Department, Company) pair has one row for each
    finance row of its department and one row when the department has
    none; so the table is never shorter than [client_contracts], and has
    one row per pair when no department has two finance rows. *)
Theorem merged_row_count (clients : list ClientRow) (finance : list FinanceRow) :
  let merged := merged_clients_profit_of clients finance in
  let contracts := add_Total_Contracts (client_contracts_of clients) in
  let pairs := sorted_unique (pair_of <$> clients) in
  merged.*1.*1.*1 = merge_finance contracts (finance_columns finance)
  /\ Z.of_nat (length merged)
     = sum_Z ((fun k => Z.of_nat
                 (1 `max` length (filter (fun f => fin_Department f = k.1) finance)))
              <$> pairs)
  /\ (length contracts <= length merged)%nat
  /\ ((forall d, (length (filter (fun f => fin_Department f = d) finance) <= 1)%nat) ->
      length merged = length pairs).
Proof.
  intros merged contracts pairs.
  assert (Hm : merged = full_row contracts
                 <$> merge_finance contracts (finance_columns finance))
    by apply merged_rows.
  assert (Hlen : Z.of_nat (length merged)
            = sum_Z ((fun k => Z.of_nat
                        (1 `max` length (filter (fun f => fin_Department f = k.1)
                                                finance)))
                     <$> pairs)).
  { rewrite Hm, length_fmap. unfold merge_finance.
    rewrite length_merge_left. unfold contracts. rewrite contracts_rows.
    rewrite <- list_fmap_compose. fold pairs.
    apply (f_equal sum_Z), list_fmap_ext. intros _ k _. unfold compose. cbn [fst snd].
    rewrite filter_finance_columns. unfold finance_columns.
    by rewrite length_fmap. }
  assert (Hc : length contracts = length pairs).
  { unfold contracts. by rewrite contracts_rows, length_fmap. }
  split; [by rewrite Hm, full_row_merged1|]. split; [done|]. split.
  - apply Nat2Z.inj_le. rewrite Hlen, Hc.
    rewrite <- (Z.mul_1_l (Z.of_nat (length pairs))).
    clear. induction pairs as [|k pairs IH]; [done|].
    csimpl. unfold sum_Z in *. lia.
  - intros Hone. apply Nat2Z.inj. rewrite Hlen.
    clear -Hone. induction pairs as [|k pairs IH]; [done|].
    csimpl. pose proof (Hone k.1). unfold sum_Z in *. lia.
Qed.

Lemma merged_row_count_witness :
  length (merged_clients_profit_of two_departments sales_2021)
  = length (sorted_unique (pair_of <$> two_departments)).
Proof.
  apply (merged_row_count two_departments sales_2021).
  intros d. unfold sales_2021. rewrite filter_cons, filter_nil.
  case_decide; simpl; lia.
Defined.

(** ** The top-15 table and its chart (lines 126-129) *)

Section SortedInput.
Context {R : Type} (le : R -> R -> bool).

Lemma insert_row_front (x : R) (l : list R) :
  Forall (fun y => le x y = true) l -> insert_row le x l = x :: l.
Proof. destruct 1 as [|y l Hxy _]; simpl; [done|]. by rewrite Hxy. Qed.

Lemma stable_sort_sorted_id (l : list R) :
  StronglySorted (fun a b => le a b = true) l -> stable_sort le l = l.
Proof.
  unfold stable_sort. induction 1 as [|x l _ IH Hx]; simpl; [done|].
  rewrite IH. by apply insert_row_front.
Qed.

End SortedInput.

Section HeadAll.
Context {R K : Type} `{EqDecision K} (key : R -> K).

Lemma head_from_all (n : nat) (seen : list K) (l : list R) :
  (forall k, (passed k seen + length (filter (fun r => key r = k) l) <= n)%nat) ->
  head_from key n seen l = l.
Proof.
  revert seen. induction l as [|r l IH]; intros seen Hall; [done|].
  simpl. pose proof (Hall (key r)) as Hr.
  rewrite filter_cons in Hr. rewrite decide_True in Hr by done.
  simpl in Hr. destruct (Nat.ltb_spec (passed (key r) seen) n); [|lia].
  f_equal. apply IH. intros k. specialize (Hall k).
  rewrite filter_cons in Hall. unfold passed in *. rewrite filter_cons.
  destruct (decide (key r = k)); simpl in *; lia.
Qed.

End HeadAll.

Lemma merged_department (clients : list ClientRow) (finance : list FinanceRow)
    (r : ProfitRow) :
  r ∈ merged_clients_profit_of clients finance ->
  p_Department r ∈ Department <$> clients.
Proof.
  rewrite merged_rows. intros (m & -> & Hm)%list_elem_of_fmap.
  apply elem_of_merge_left_fst, elem_of_contracts in Hm as [Hp _].
  apply list_elem_of_fmap in Hp as (c & Hc & Hin).
  apply list_elem_of_fmap. exists c. split; [|done].
  change (p_Department (full_row _ m)) with m.1.1.1.1. by rewrite Hc.
Qed.

(** X6 (lines 126-127, [top_clients_15]).  The table is cut out of the
    sorted table in order, so each of its rows is a row of
    [merged_clients_profit]; it has at most 15 rows for each department
    of [clients]; and it is the whole sorted table when no department has
    more than 15 rows there. *)
Theorem top_clients_15_within_merged (clients : list ClientRow)
    (finance : list FinanceRow) :
  let merged := merged_clients_profit_of clients finance in
  let out := top_clients_15_of clients finance in
  out `sublist_of` sort_values merged
  /\ (forall r, r ∈ out -> r ∈ merged)
  /\ (length out <= 15 * length (sorted_unique (Department <$> clients)))%nat
  /\ ((forall d, (length (filter (fun r => p_Department r = d) merged) <= 15)%nat) ->
      out = sort_values merged).
Proof.
  intros merged out.
  assert (Hsub : out `sublist_of` sort_values merged) by apply head_from_sublist.
  assert (Hperm : sort_values merged ≡ₚ merged) by apply stable_sort_perm.
  assert (Hin : forall r, r ∈ out -> r ∈ merged).
  { intros r Hr. rewrite <- Hperm. by eapply elem_of_sublist. }
  split; [done|]. split; [done|]. split.
  - apply Nat2Z.inj_le.
    rewrite <- (group_sizes_sum p_Department
                  (sorted_unique (Department <$> clients)) out).
    + assert (Hk : forall k,
                (length (filter (fun r => p_Department r = k) out) <= 15)%nat).
      { intros k. unfold out, top_clients_15_of.
        rewrite filter_department_head_15, length_take. lia. }
      rewrite Nat2Z.inj_mul.
      generalize (sorted_unique (Department <$> clients)). intros ks.
      induction ks as [|k ks IH]; [done|].
      csimpl. pose proof (Hk k). unfold sum_Z in *. lia.
    + apply sorted_unique_NoDup.
    + intros r Hr. apply elem_of_sorted_unique.
      by apply (merged_department clients finance), Hin.
  - intros Hsmall. apply head_from_all. intros d.
    unfold passed. rewrite filter_nil. simpl.
    pose proof (Hsmall d) as Hd.
    erewrite <- Permutation_length in Hd; [exact Hd|].
    by apply filter_Permutation.
Qed.

Lemma top_clients_15_within_merged_witness :
  top_clients_15_of two_departments sales_2021
  = sort_values (merged_clients_profit_of two_departments sales_2021).
Proof.
  apply (top_clients_15_within_merged two_departments sales_2021).
  intros d. etrans; [apply length_filter|]. vm_compute. lia.
Defined.

(** X7 (line 129, [fig_top15]).  The chart sorts [top_clients_15] again by
    the keys of line 126; the table is already in that order, and the
    stable sort returns it row for row.  Sorting twice is sorting once. *)
Theorem fig_top15_rows_unchanged (clients : list ClientRow)
    (finance : list FinanceRow) (rows : list ProfitRow) :
  fig_top15_rows (top_clients_15_of clients finance)
  = top_clients_15_of clients finance
  /\ sort_values (sort_values rows) = sort_values rows.
Proof.
  split.
  - apply stable_sort_sorted_id.
    eapply StronglySorted_sublist; [apply head_from_sublist|].
    apply sort_values_sorted.
  - apply stable_sort_sorted_id, sort_values_sorted.
Qed.
(** ** Integers that convert to a finite float64 *)

Lemma digits2_pos_bounds (p : positive) :
  2 ^ (Z.pos (digits2_pos p) - 1) <= Z.pos p < 2 ^ Z.pos (digits2_pos p).
Proof.
  induction p as [p IH|p IH|]; simpl digits2_pos; [| |simpl; lia].
  - rewrite Pos2Z.inj_succ.
    replace (Z.succ (Z.pos (digits2_pos p)) - 1)
      with (Z.succ (Z.pos (digits2_pos p) - 1)) by lia.
    rewrite !Z.pow_succ_r by lia. lia.
  - rewrite Pos2Z.inj_succ.
    replace (Z.succ (Z.pos (digits2_pos p)) - 1)
      with (Z.succ (Z.pos (digits2_pos p) - 1)) by lia.
    rewrite !Z.pow_succ_r by lia. lia.
Qed.

Lemma Zdigits2_bounds (m : Z) :
  0 < m -> 0 < Zdigits2 m /\ 2 ^ (Zdigits2 m - 1) <= m < 2 ^ Zdigits2 m.
Proof.
  destruct m as [|p|p]; try lia. intros _. simpl.
  split; [lia|apply digits2_pos_bounds].
Qed.

Lemma Zdigits2_le (m : Z) (n : Z) :
  0 < m -> m < 2 ^ n -> Zdigits2 m <= n.
Proof.
  intros Hm Hn. destruct (Zdigits2_bounds m Hm) as (Hd & Hlo & _).
  destruct (Z.le_gt_cases (Zdigits2 m) n) as [|Hgt]; [done|].
  assert (2 ^ n <= 2 ^ (Zdigits2 m - 1)); [|lia].
  apply Z.pow_le_mono_r; lia.
Qed.

Lemma shr_1_half (mrs : shr_record) :
  0 <= shr_m mrs -> shr_m (shr_1 mrs) = shr_m mrs / 2.
Proof.
  destruct mrs as [m r s]; simpl.
  destruct m as [|p|p]; simpl; [done| |lia]. intros _.
  destruct p as [p|p|]; simpl; [| |done].
  - apply (Z.div_unique _ _ _ 1); lia.
  - apply (Z.div_unique _ _ _ 0); lia.
Qed.

Lemma iter_shr_1_div (p : positive) (mrs : shr_record) :
  0 <= shr_m mrs ->
  shr_m (SpecFloat.iter_pos shr_1 p mrs) = shr_m mrs / 2 ^ Z.pos p.
Proof.
  revert mrs. induction p as [p IH|p IH|]; intros mrs Hm; simpl SpecFloat.iter_pos.
  - assert (0 < 2 ^ Z.pos p) by (apply Z.pow_pos_nonneg; lia).
    rewrite IH by (apply iter_shr_1_nonneg; by apply shr_1_nonneg).
    rewrite IH by (by apply shr_1_nonneg). rewrite shr_1_half by done.
    rewrite !Z.div_div by lia. f_equal.
    replace (Z.pos p~1) with (1 + Z.pos p + Z.pos p) by lia.
    rewrite !Z.pow_add_r by lia. change (2 ^ 1) with 2. ring.
  - assert (0 < 2 ^ Z.pos p) by (apply Z.pow_pos_nonneg; lia).
    rewrite IH by (by apply iter_shr_1_nonneg). rewrite IH by done.
    rewrite !Z.div_div by lia. f_equal.
    replace (Z.pos p~0) with (Z.pos p + Z.pos p) by lia.
    rewrite !Z.pow_add_r by lia. ring.
  - rewrite shr_1_half by done. done.
Qed.

Lemma shr_record_of_loc_m (m : Z) (l : location) :
  shr_m (shr_record_of_loc m l) = m.
Proof. by destruct l as [|[]]. Qed.

(** Rounding a positive mantissa whose exponent is not below the least
    one to 53 bits leaves a positive mantissa that is no larger, and an
    exponent between the old one and the one the digits ask for. *)
Lemma shr_fexp_pos (m e : Z) (l : location) :
  0 < m -> - 1074 <= e ->
  0 < shr_m (shr_fexp 53 1024 m e l).1 <= m
  /\ e <= (shr_fexp 53 1024 m e l).2 <= Z.max e (Zdigits2 m + e - 53).
Proof.
  intros Hm He. destruct (Zdigits2_bounds m Hm) as (Hd & Hlo & Hhi).
  unfold shr_fexp, shr, fexp, emin.
  change (IntDef.Z.max ?a ?b) with (Z.max a b).
  destruct (Z.max (Zdigits2 m + e - 53) (3 - 1024 - 53) - e) as [|k|k] eqn:Hn;
    cbn [fst snd]; rewrite ?shr_record_of_loc_m; try lia.
  rewrite iter_shr_1_div by (rewrite shr_record_of_loc_m; lia).
  rewrite shr_record_of_loc_m.
  assert (Hk : Z.pos k <= Zdigits2 m - 1) by lia.
  assert (0 < 2 ^ Z.pos k) by (apply Z.pow_pos_nonneg; lia).
  split; [split|lia].
  - apply Z.div_str_pos. split; [done|].
    etrans; [|exact Hlo]. apply Z.pow_le_mono_r; lia.
  - apply Z.div_le_upper_bound; [done|]. nia.
Qed.

Lemma round_nearest_even_bounds (m : Z) (l : location) :
  m <= round_nearest_even m l <= m + 1.
Proof.
  destruct l as [|[]]; simpl; try lia. destruct (Z.even m); lia.
Qed.

Lemma binary_round_aux_finite (s : bool) (m e : Z) (l : location) :
  0 < m -> - 1074 <= e <= 0 -> Zdigits2 m <= 100 ->
  exists m' e', binary_round_aux 53 1024 s m e l = S754_finite s m' e'.
Proof.
  intros Hm He Hd. unfold binary_round_aux.
  pose proof (shr_fexp_pos m e l Hm ltac:(lia)) as H1.
  destruct (shr_fexp 53 1024 m e l) as [mrs' e']. cbn [fst snd] in H1.
  pose proof (round_nearest_even_bounds (shr_m mrs') (loc_of_shr_record mrs'))
    as Hr.
  set (m2 := round_nearest_even (shr_m mrs') (loc_of_shr_record mrs')) in *.
  destruct (Zdigits2_bounds m Hm) as (Hd0 & _ & Hhi).
  assert (Hd2 : Zdigits2 m2 <= Zdigits2 m + 1).
  { apply Zdigits2_le; [lia|]. rewrite Z.pow_add_r by lia.
    change (2 ^ 1) with 2. lia. }
  pose proof (shr_fexp_pos m2 e' loc_Exact ltac:(lia) ltac:(lia)) as H2.
  destruct (shr_fexp 53 1024 m2 e' loc_Exact) as [mrs'' e'']. cbn [fst snd] in H2.
  destruct (shr_m mrs'') as [|p|p]; [lia| |lia].
  destruct (Z.leb_spec e'' (1024 - 53)); [eauto|lia].
Qed.

Lemma digits2_pos_iter_xO (k p : positive) :
  digits2_pos (Pos.iter xO p k) = (digits2_pos p + k)%positive.
Proof.
  induction k as [|k IH] using Pos.peano_ind.
  - simpl. lia.
  - rewrite Pos.iter_succ. simpl. rewrite IH. lia.
Qed.

(** Every positive int64 converts to a positive finite float64. *)
Lemma f64_of_Z_finite (z : Z) :
  0 < z < 2 ^ 63 -> exists m e, f64_of_Z z = S754_finite false m e.
Proof.
  intros Hz. destruct z as [|p|p]; try lia.
  unfold f64_of_Z, binary_normalize, binary_round, shl_align, fexp, emin.
  change (IntDef.Z.max ?a ?b) with (Z.max a b).
  destruct (Zdigits2_bounds (Z.pos p) ltac:(lia)) as (Hd & Hlo & _).
  assert (Hd63 : Zdigits2 (Z.pos p) <= 63) by (apply Zdigits2_le; lia).
  simpl Zdigits2 in *.
  destruct (Z.max (Z.pos (digits2_pos p) + 0 - 53) (3 - 1024 - 53) - 0)
    as [|k|k] eqn:Hn.
  - apply binary_round_aux_finite; simpl; lia.
  - apply binary_round_aux_finite; simpl; lia.
  - apply binary_round_aux_finite; [lia|lia|].
    simpl. rewrite digits2_pos_iter_xO. lia.
Qed.

(** ** More float64 operations that never give NaN *)

Lemma fsub_not_nan_finite (x : f64) (sy : bool) (my : positive) (ey : Z) :
  is_nan x = false -> is_nan (fsub x (S754_finite sy my ey)) = false.
Proof.
  destruct x as [sx|sx| |sx mx ex]; try done. intros _.
  unfold fsub, SFsub. apply binary_normalize_not_nan.
Qed.

Lemma fmul_not_nan_finite (x : f64) (sy : bool) (my : positive) (ey : Z) :
  is_nan x = false -> is_nan (fmul x (S754_finite sy my ey)) = false.
Proof.
  destruct x as [sx|sx| |sx mx ex]; try done. intros _.
  unfold fmul, SFmul. by apply binary_round_aux_not_nan.
Qed.

Lemma rint_not_nan (x : f64) : is_nan x = false -> is_nan (rint x) = false.
Proof.
  destruct x as [sx|sx| |sx mx ex]; try done. intros _. unfold rint.
  destruct (0 <=? ex); [done|]. destruct (_ =? 0); [done|].
  apply binary_normalize_not_nan.
Qed.

Lemma np_round_not_nan (d : Z) (x : f64) :
  0 <= d <= 2 -> is_nan x = false -> is_nan (np_round d x) = false.
Proof.
  intros Hd Hx. unfold np_round.
  assert (exists m e, f64_of_Z (10 ^ d) = S754_finite false m e) as (m & e & ->).
  { apply f64_of_Z_finite.
    assert (d = 0 \/ d = 1 \/ d = 2) as [->|[->| ->]] by lia; simpl; lia. }
  by apply fdiv_finite_not_nan, rint_not_nan, fmul_not_nan_finite.
Qed.

Lemma np_round_nan (d : Z) : np_round d NaN = NaN.
Proof. done. Qed.
(** ** Growth of the active clients (line 42) *)

Lemma lookup_pct_change_from (prev : f64) (l : list Z) (i : nat) (a a' : Z) :
  l !! i = Some a -> l !! S i = Some a' ->
  pct_change_from prev l !! S i
  = Some (fsub (fdiv (f64_of_Z a') (f64_of_Z a)) (f64_of_Z 1)).
Proof.
  revert prev i. induction l as [|x l IH]; intros prev i Hi HSi; [done|].
  destruct i as [|i]; simpl in Hi.
  - simplify_eq. destruct l as [|y l]; simplify_eq/=. done.
  - simpl. apply (IH _ i); done.
Qed.

Lemma growth_not_nan (a a' : Z) :
  0 < a < 2 ^ 63 ->
  is_nan (np_round 1 (fmul (fsub (fdiv (f64_of_Z a') (f64_of_Z a)) (f64_of_Z 1))
                           (f64_of_Z 100))) = false.
Proof.
  intros Ha. destruct (f64_of_Z_finite a Ha) as (m & e & ->).
  destruct (f64_of_Z_finite 1 ltac:(lia)) as (m1 & e1 & ->).
  destruct (f64_of_Z_finite 100 ltac:(lia)) as (m100 & e100 & ->).
  apply np_round_not_nan; [lia|].
  apply fmul_not_nan_finite, fsub_not_nan_finite, fdiv_finite_not_nan.
  apply binary_normalize_not_nan.
Qed.

(** X8 (line 42, [Growth_%]).  The column has one value per year.  The
    first is null, the year having no year before it; the value of any
    later row is [(a' / a - 1) * 100] rounded to one decimal, for the
    [Active_Clients] [a'] of the row and [a] of the row before, whatever
    the gap between the two years.  With fewer than [2 ^ 63] client rows
    no value after the first is null. *)
Theorem growth_spec (clients : list ClientRow) :
  let rows := clients_per_year_of clients in
  let growth := Growth_of rows in
  length growth = length rows
  /\ growth !! 0%nat = (fun _ => NaN) <$> rows !! 0%nat
  /\ (forall i y a y' a',
        rows !! i = Some (y, a) -> rows !! S i = Some (y', a') ->
        growth !! S i
        = Some (np_round 1 (fmul (fsub (fdiv (f64_of_Z a') (f64_of_Z a))
                                       (f64_of_Z 1))
                                 (f64_of_Z 100))))
  /\ (Z.of_nat (length clients) < 2 ^ 63 ->
      forall i g, growth !! S i = Some g -> is_nan g = false).
Proof.
  intros rows growth.
  assert (Hlen : length growth = length rows).
  { unfold growth, Growth_of, pct_change.
    by rewrite length_fmap, length_pct_change_from, length_fmap. }
  assert (Hstep : forall i y a y' a',
            rows !! i = Some (y, a) -> rows !! S i = Some (y', a') ->
            growth !! S i
            = Some (np_round 1 (fmul (fsub (fdiv (f64_of_Z a') (f64_of_Z a))
                                           (f64_of_Z 1))
                                     (f64_of_Z 100)))).
  { intros i y a y' a' Hi HSi. unfold growth, Growth_of, pct_change.
    rewrite list_lookup_fmap.
    rewrite (lookup_pct_change_from _ _ i a a'); [done| |].
    - by rewrite list_lookup_fmap, Hi.
    - by rewrite list_lookup_fmap, HSi. }
  split; [done|]. split.
  { unfold growth, Growth_of, pct_change.
    destruct rows as [|[y a] rows']; [done|]. csimpl.
    by destruct (f64_of_Z a). }
  split; [done|]. intros Hsmall i g Hg.
  destruct (rows !! i) as [[y a]|] eqn:Hi.
  2:{ apply lookup_ge_None in Hi. apply lookup_lt_Some in Hg. lia. }
  destruct (rows !! S i) as [[y' a']|] eqn:HSi.
  2:{ apply lookup_ge_None in HSi. apply lookup_lt_Some in Hg. lia. }
  rewrite (Hstep i y a y' a' Hi HSi) in Hg. simplify_eq.
  apply growth_not_nan.
  apply list_elem_of_lookup_2, active_clients_bounds in Hi as [_ Ha].
  pose proof (length_filter (fun r => Year r = y) clients). lia.
Qed.

Lemma growth_spec_witness :
  Growth_of (clients_per_year_of three_contracts) !! 1%nat
  = Some (np_round 1 (fmul (fsub (fdiv (f64_of_Z 1) (f64_of_Z 2)) (f64_of_Z 1))
                           (f64_of_Z 100)))
  /\ forall i g,
       Growth_of (clients_per_year_of three_contracts) !! S i = Some g ->
       is_nan g = false.
Proof.
  destruct (growth_spec three_contracts) as (_ & _ & Hstep & Hdef).
  split.
  - by apply (Hstep 0%nat 2020 2 2021 1).
  - apply Hdef. simpl. lia.
Defined.

(** ** Shares that are defined (lines 63, 74 and 124) *)

(** X9 (lines 63 and 74, [Share_%]).  The divisor of both views is the
    number of rows counted, so with fewer than [2 ^ 63] rows no [Share_%]
    is null; a table without rows gives a view without rows, and no
    division takes place. *)
Theorem share_defined (rows : list ClientRow) :
  share_view [] = []
  /\ (Z.of_nat (length rows) < 2 ^ 63 ->
      forall d tc sh, (d, tc, sh) ∈ share_view rows -> is_nan sh = false).
Proof.
  split; [done|]. intros Hsmall d tc sh Hin.
  rewrite share_view_rows in Hin.
  apply list_elem_of_fmap in Hin as ([d' tc'] & [= -> -> ->] & Hin).
  assert (Hrows : rows <> []).
  { intros ->. by apply elem_of_nil in Hin. }
  assert (Htotal : i64_sum (contracts_by_department rows).*2
                   = Z.of_nat (length rows)).
  { rewrite i64_sum_wrap. unfold contracts_by_department.
    rewrite sum_groupby_length. apply wrap64_small. lia. }
  rewrite Htotal.
  destruct (f64_of_Z_finite (Z.of_nat (length rows))) as (m & e & ->).
  { destruct rows; [done|]. simpl length in *. lia. }
  apply np_round_not_nan; [lia|].
  apply fdiv_finite_not_nan, binary_normalize_not_nan.
Qed.

Lemma share_defined_witness :
  Forall (fun r : string * Z * f64 => is_nan r.2 = false)
         (share_view three_contracts).
Proof.
  apply Forall_forall. intros [[d tc] sh] Hin.
  apply (proj2 (share_defined three_contracts) ltac:(simpl; lia) d tc sh Hin).
Defined.

Lemma sum_Z_bounds (l : list Z) (lo hi : Z) :
  (forall x, x ∈ l -> lo <= x <= hi) ->
  lo * Z.of_nat (length l) <= sum_Z l <= hi * Z.of_nat (length l).
Proof.
  induction l as [|x l IH]; intros Hl; [simpl; lia|].
  pose proof (Hl x (list_elem_of_here _ _)).
  pose proof (IH (fun y Hy => Hl y (list_elem_of_further _ _ _ Hy))).
  cbn [length]. unfold sum_Z in *. cbn [foldr]. lia.
Qed.

Lemma sum_Z_nonneg (l : list Z) : (forall y, y ∈ l -> 0 <= y) -> 0 <= sum_Z l.
Proof.
  induction l as [|x l IH]; intros Hl; [done|].
  pose proof (Hl x (list_elem_of_here _ _)).
  pose proof (IH (fun y Hy => Hl y (list_elem_of_further _ _ _ Hy))).
  unfold sum_Z in *. cbn [foldr]. lia.
Qed.

Lemma sum_Z_elem (l : list Z) (x : Z) :
  (forall y, y ∈ l -> 0 <= y) -> x ∈ l -> x <= sum_Z l.
Proof.
  induction l as [|z l IH]; intros Hl Hx; [by apply elem_of_nil in Hx|].
  pose proof (Hl z (list_elem_of_here _ _)).
  pose proof (sum_Z_nonneg l (fun y Hy => Hl y (list_elem_of_further _ _ _ Hy))).
  apply elem_of_cons in Hx as [->|Hx].
  - unfold sum_Z in *. cbn [foldr]. lia.
  - pose proof (IH (fun y Hy => Hl y (list_elem_of_further _ _ _ Hy)) Hx).
    unfold sum_Z in *. cbn [foldr]. lia.
Qed.
(** ** Contracts of a client within its department (lines 119-124) *)

Lemma length_sorted_unique_le {K : Type} `{CmpLaws K} (l : list K) :
  (length (sorted_unique l) <= length l)%nat.
Proof.
  apply submseteq_length, NoDup_submseteq; [apply sorted_unique_NoDup|].
  by intros x Hx%(proj1 (elem_of_sorted_unique _ _)).
Qed.

Lemma pair_max_bounds (clients : list ClientRow) (k : string * string) (B : Z) :
  (forall r, r ∈ clients -> 0 <= Renewal_No r <= B) ->
  k ∈ pair_of <$> clients -> 0 <= pair_max clients k <= B.
Proof.
  intros HB Hk. unfold pair_max.
  destruct (max_list_spec (Renewal_No <$> filter (fun r => pair_of r = k) clients))
    as [Hin _].
  { apply group_nonempty in Hk. by destruct (filter _ clients). }
  apply list_elem_of_fmap in Hin as (r & -> & [_ Hr]%list_elem_of_filter).
  by apply HB.
Qed.

Lemma total_contracts_bounds (clients : list ClientRow) (c : Contract) (B : Z) :
  (forall r, r ∈ clients -> 0 <= Renewal_No r <= B) ->
  Z.of_nat (length clients) * (B + 1) < 2 ^ 63 ->
  c ∈ add_Total_Contracts (client_contracts_of clients) ->
  1 <= c.2 <= B + 1.
Proof.
  intros HB Hfit Hc. apply elem_of_contracts in Hc as (Hk & _ & ->).
  pose proof (pair_max_bounds clients c.1.1 B HB Hk) as Hpm.
  assert (1 <= Z.of_nat (length clients)).
  { apply list_elem_of_fmap in Hk as (r & _ & Hr).
    destruct clients; [by apply elem_of_nil in Hr|]. simpl length. lia. }
  unfold i64_add. rewrite wrap64_small; [lia|]. nia.
Qed.

Lemma dept_total_bounds (clients : list ClientRow) (c : Contract) (B : Z) :
  let contracts := add_Total_Contracts (client_contracts_of clients) in
  (forall r, r ∈ clients -> 0 <= Renewal_No r <= B) ->
  Z.of_nat (length clients) * (B + 1) < 2 ^ 63 ->
  c ∈ contracts ->
  c.2 <= dept_total contracts c.1.1.1 <= Z.of_nat (length clients) * (B + 1).
Proof.
  intros contracts HB Hfit Hc. unfold dept_total. rewrite i64_sum_wrap.
  set (g := filter (fun c' : Contract => c'.1.1.1 = c.1.1.1) contracts).
  assert (Hg : forall x, x ∈ snd <$> g -> 1 <= x <= B + 1).
  { intros x (c' & -> & [_ Hc']%list_elem_of_filter)%list_elem_of_fmap.
    by apply (total_contracts_bounds clients). }
  pose proof (sum_Z_bounds (snd <$> g) 1 (B + 1) Hg) as Hsum.
  assert (Hlen : (length (snd <$> g) <= length clients)%nat).
  { rewrite length_fmap. etrans; [apply length_filter|].
    unfold contracts. rewrite contracts_rows, length_fmap.
    etrans; [apply length_sorted_unique_le|]. by rewrite length_fmap. }
  assert (Hle : c.2 <= sum_Z (snd <$> g)).
  { apply sum_Z_elem.
    - intros y Hy. specialize (Hg y Hy). lia.
    - apply list_elem_of_fmap. exists c. split; [done|].
      by apply list_elem_of_filter. }
  pose proof (total_contracts_bounds clients c B HB Hfit Hc).
  rewrite wrap64_small; [|nia]. split; [done|]. nia.
Qed.

(** X10 (lines 119-124, [Contracts_Share_%]).  When no [Renewal_No] is
    negative and the contracts cannot overflow an int64 (every
    [Renewal_No] at most [B], and [rows * (B + 1) < 2 ^ 63]), every row of
    [merged_clients_profit] has [1 <= Total_Contracts <=
    Dept_Total_Contracts]: the divisor of line 124 is never zero and the
    share is never null. *)
Theorem contracts_within_department (clients : list ClientRow)
    (finance : list FinanceRow) (B : Z) :
  (forall r, r ∈ clients -> 0 <= Renewal_No r <= B) ->
  Z.of_nat (length clients) * (B + 1) < 2 ^ 63 ->
  forall r, r ∈ merged_clients_profit_of clients finance ->
    exists total,
      p_Dept_Total_Contracts r = Some total
      /\ 1 <= p_Total_Contracts r <= total
      /\ is_nan (Contracts_Share r) = false.
Proof.
  intros HB Hfit r Hr. rewrite merged_rows in Hr.
  apply list_elem_of_fmap in Hr as (m & -> & Hm).
  apply elem_of_merge_left_fst in Hm.
  set (contracts := add_Total_Contracts (client_contracts_of clients)) in *.
  pose proof (total_contracts_bounds clients m.1 B HB Hfit Hm) as Htc.
  pose proof (dept_total_bounds clients m.1 B HB Hfit Hm) as Hdt.
  fold contracts in Hdt.
  exists (dept_total contracts (m_Department m)).
  split; [done|]. split.
  { change (p_Total_Contracts (full_row contracts m)) with m.1.2.
    unfold m_Department. lia. }
  change (Contracts_Share (full_row contracts m))
    with (np_round 1 (fdiv (f64_of_Z (i64_mul 100 m.1.2))
                           (f64_of_Z (dept_total contracts m.1.1.1.1)))).
  destruct (f64_of_Z_finite (dept_total contracts m.1.1.1.1)) as (mt & et & ->);
    [lia|].
  apply np_round_not_nan; [lia|].
  apply fdiv_finite_not_nan, binary_normalize_not_nan.
Qed.

Lemma contracts_within_department_witness :
  Forall (fun r => exists total,
                     p_Dept_Total_Contracts r = Some total
                     /\ 1 <= p_Total_Contracts r <= total
                     /\ is_nan (Contracts_Share r) = false)
         (merged_clients_profit_of two_departments sales_2021).
Proof.
  apply Forall_forall.
  apply (contracts_within_department two_departments sales_2021 3).
  - intros r Hr. unfold two_departments in Hr.
    repeat (apply elem_of_cons in Hr as [->|Hr]); simpl; try lia.
    by apply elem_of_nil in Hr.
  - simpl. lia.
Defined.

(** X11 (line 125, [Estimated_Profit]).  A row whose [Total Profit] is
    null, because the finance sheet has a blank there or because no
    finance row matched, has a null [Estimated_Profit]. *)
Theorem estimated_profit_null (clients : list ClientRow)
    (finance : list FinanceRow) (r : ProfitRow) :
  r ∈ merged_clients_profit_of clients finance ->
  is_nan (p_Total_Profit r) = true -> is_nan (Estimated_Profit r) = true.
Proof.
  rewrite merged_rows. intros (m & -> & _)%list_elem_of_fmap.
  change (p_Total_Profit (full_row _ m)) with (m_Total_Profit m).
  unfold full_row, Estimated_Profit, Estimated_Profit_of. cbn [fst snd].
  destruct (m_Total_Profit m); try done. intros _.
  by rewrite fmul_nan_r.
Qed.

Lemma estimated_profit_null_witness :
  exists r,
    r ∈ merged_clients_profit_of two_departments sales_2021
    /\ is_nan (p_Total_Profit r) = true /\ is_nan (Estimated_Profit r) = true.
Proof.
  set (r := full_row (add_Total_Contracts (client_contracts_of two_departments))
              (("Ops", "A", 3, 4)%string, None)).
  assert (Hin : r ∈ merged_clients_profit_of two_departments sales_2021).
  { apply (list_elem_of_lookup_2 _ 0%nat). by vm_compute. }
  exists r. split; [done|]. split; [done|].
  by apply (estimated_profit_null two_departments sales_2021).
Defined.

(** ** The ends of the churn scale (lines 88-90) *)

Lemma div_eucl_mul (k : Z) (p : positive) :
  Z.div_eucl (k * Z.pos p) (Z.pos p) = (k, 0).
Proof.
  pose proof (Z_div_mod (k * Z.pos p) (Z.pos p) eq_refl) as Hdiv.
  destruct (Z.div_eucl (k * Z.pos p) (Z.pos p)) as [q r].
  destruct Hdiv as [Heq Hr]. assert (q = k) by nia. subst. f_equal. lia.
Qed.

Lemma digits_100 (p : positive) :
  Z.pos (digits2_pos (100 * p)) - Z.pos (digits2_pos p) = 6
  \/ Z.pos (digits2_pos (100 * p)) - Z.pos (digits2_pos p) = 7.
Proof.
  pose proof (digits2_pos_bounds p) as [Hlo Hhi].
  pose proof (digits2_pos_bounds (100 * p)) as [Hlo' Hhi'].
  set (d := Z.pos (digits2_pos p)) in *.
  set (d' := Z.pos (digits2_pos (100 * p))) in *.
  assert (0 < d) by (unfold d; lia). assert (0 < d') by (unfold d'; lia).
  rewrite Pos2Z.inj_mul in Hlo', Hhi'.
  assert (d' - 1 < d + 7).
  { apply (Z.pow_lt_mono_r_iff 2); [lia|lia|].
    eapply Z.le_lt_trans; [exact Hlo'|].
    rewrite Z.pow_add_r by lia. change (2 ^ 7) with 128. lia. }
  assert (d + 5 < d').
  { apply (Z.pow_lt_mono_r_iff 2); [lia|lia|].
    eapply Z.le_lt_trans; [|exact Hhi'].
    replace (d + 5) with (d - 1 + 6) by lia.
    rewrite Z.pow_add_r by lia. change (2 ^ 6) with 64. lia. }
  lia.
Qed.

Lemma SFdiv_core_100 (p : positive) :
  SFdiv_core_binary 53 1024 (Z.pos (100 * p)) 0 (Z.pos p) 0
  = (100 * 2 ^ 47, - 47, loc_Exact)
  \/ SFdiv_core_binary 53 1024 (Z.pos (100 * p)) 0 (Z.pos p) 0
     = (100 * 2 ^ 46, - 46, loc_Exact).
Proof.
  assert (Hloc : new_location (Z.pos p) 0 = loc_Exact).
  { unfold new_location. by destruct (IntDef.Z.even _). }
  unfold SFdiv_core_binary. cbv zeta. cbn [Zdigits2].
  replace (Z.pos (digits2_pos (100 * p)) + 0 - (Z.pos (digits2_pos p) + 0))
    with (Z.pos (digits2_pos (100 * p)) - Z.pos (digits2_pos p)) by lia.
  destruct (digits_100 p) as [-> | ->]; [left|right].
  - change (IntDef.Z.min (fexp 53 1024 6) (0 - 0)) with (- 47).
    change (0 - 0 - - 47) with 47. cbv iota.
    change (IntDef.Z.shiftl ?a ?b) with (Z.shiftl a b).
    rewrite Z.shiftl_mul_pow2 by lia.
    replace (Z.pos (100 * p) * 2 ^ 47) with (100 * 2 ^ 47 * Z.pos p) by lia.
    change (IntDef.Z.div_eucl ?a ?b) with (Z.div_eucl a b).
    by rewrite div_eucl_mul, Hloc.
  - change (IntDef.Z.min (fexp 53 1024 7) (0 - 0)) with (- 46).
    change (0 - 0 - - 46) with 46. cbv iota.
    change (IntDef.Z.shiftl ?a ?b) with (Z.shiftl a b).
    rewrite Z.shiftl_mul_pow2 by lia.
    replace (Z.pos (100 * p) * 2 ^ 46) with (100 * 2 ^ 46 * Z.pos p) by lia.
    change (IntDef.Z.div_eucl ?a ?b) with (Z.div_eucl a b).
    by rewrite div_eucl_mul, Hloc.
Qed.

(** [100 * n / n] on Python integers is the float 100.0, whatever [n]. *)
Lemma truediv_100 (p : positive) :
  fdiv (int_exact (Z.pos (100 * p))) (int_exact (Z.pos p)) = f64_of_Z 100.
Proof.
  unfold int_exact, fdiv, SFdiv.
  destruct (SFdiv_core_100 p) as [-> | ->]; by vm_compute.
Qed.

(** X12 (lines 88-90, [churn_rate] and [retention_rate]).  For a year
    with at least one company: if every company of the year is there
    again in the next year, churn is 0.0 and retention 100.0; if none is,
    churn is 100.0 and retention 0.0, whatever the number of companies. *)
Theorem churn_rates_ends (current next_year : gset string) :
  size current <> 0%nat ->
  (current ⊆ next_year ->
   churn_rates current next_year = Ok (S754_zero false, f64_of_Z 100))
  /\ (current ## next_year ->
      churn_rates current next_year = Ok (f64_of_Z 100, S754_zero false)).
Proof.
  intros Hsize. unfold churn_rates.
  destruct (Nat.ltb_spec 0 (size current)); [|lia].
  destruct (Z.of_nat (size current)) as [|p|p] eqn:Hn; try lia.
  split.
  - intros Hsub. rewrite (subseteq_empty_difference_L _ _ Hsub).
    rewrite size_empty. done.
  - intros Hdisj. rewrite (difference_disjoint_L _ _ Hdisj).
    rewrite Hn. unfold py_truediv. cbn [Z.eqb bind].
    change (100 * Z.pos p) with (Z.pos (100 * p)).
    rewrite truediv_100. by vm_compute.
Qed.

Lemma churn_rates_ends_witness :
  churn_rates {["A"; "B"]}%string {["A"; "B"; "C"]}%string
  = Ok (S754_zero false, f64_of_Z 100)
  /\ churn_rates {["A"; "B"]}%string {["C"]}%string
     = Ok (f64_of_Z 100, S754_zero false).
Proof.
  split.
  - apply (churn_rates_ends {["A"; "B"]}%string {["A"; "B"; "C"]}%string);
      [by vm_compute|by compute_done].
  - apply (churn_rates_ends {["A"; "B"]}%string {["C"]}%string);
      [by vm_compute|by compute_done].
Defined.

(** ** Nulls in the finance sheet (line 112) *)

(** X13 (line 112, [Profit Margin_%]).  A blank [Total Sales] or a blank
    [Total Profit] gives a null margin and no error; no profit on sales
    that are neither zero nor blank gives a margin of zero. *)
Theorem profit_margin_nulls (r : FinanceRow) :
  (is_nan (Total_Sales r) = true \/ is_nan (Total_Profit r) = true ->
   is_nan (Profit_Margin r) = true)
  /\ (forall sp ss m e,
        Total_Profit r = S754_zero sp -> Total_Sales r = S754_finite ss m e ->
        Profit_Margin r = S754_zero (xorb sp ss)).
Proof.
  unfold Profit_Margin. split.
  - intros [Hs|Hp].
    + destruct (Total_Sales r); try done. by destruct (Total_Profit r).
    + by destruct (Total_Profit r).
  - intros sp ss m e -> ->. by destruct sp, ss.
Qed.

Lemma profit_margin_nulls_witness :
  is_nan (Profit_Margin (mkFinance "Sales" 2020 NaN (f64_of_Z 250))) = true
  /\ Profit_Margin (mkFinance "Sales" 2020 (f64_of_Z 80) (S754_zero false))
     = S754_zero false.
Proof.
  split.
  - apply (profit_margin_nulls (mkFinance "Sales" 2020 NaN (f64_of_Z 250))).
    by left.
  - by apply (proj2 (profit_margin_nulls
                       (mkFinance "Sales" 2020 (f64_of_Z 80) (S754_zero false)))
                    false false 5629499534213120%positive (-46)).
Defined.
(** ** Department totals (line 122) *)

Lemma sum_Z_scale {A : Type} (c : Z) (f : A -> Z) (l : list A) :
  sum_Z ((fun a => c * f a) <$> l) = c * sum_Z (f <$> l).
Proof. unfold sum_Z. induction l; csimpl; lia. Qed.

(** Over distinct keys that cover the rows, the sums of a column within
    the groups add up to the sum of the column. *)
Lemma group_sums_sum {R K : Type} `{EqDecision K} (key : R -> K) (w : R -> Z)
    (ks : list K) (rows : list R) :
  NoDup ks -> (forall r, r ∈ rows -> key r ∈ ks) ->
  sum_Z ((fun k => sum_Z (w <$> filter (fun r => key r = k) rows)) <$> ks)
  = sum_Z (w <$> rows).
Proof.
  intros Hnd. induction rows as [|r rows IH]; intros Hcov.
  - simpl. apply sum_Z_zero.
  - rewrite (sum_Z_ext _ (fun k =>
      w r * (if decide (key r = k) then 1 else 0)
      + sum_Z (w <$> filter (fun r => key r = k) rows))).
    + rewrite sum_Z_add, IH, sum_Z_scale, sum_Z_indicator.
      * unfold sum_Z. csimpl. lia.
      * done.
      * apply Hcov. by left.
      * intros r' Hr'. apply Hcov. by right.
    + intros k. rewrite filter_cons.
      destruct (decide (key r = k)); unfold sum_Z; csimpl; lia.
Qed.

Lemma wrap64_add_r (a b : Z) : wrap64 (a + wrap64 b) = wrap64 (a + b).
Proof. rewrite Z.add_comm, wrap64_add_l. f_equal. lia. Qed.

Lemma wrap64_sum_wrap {A : Type} (f : A -> Z) (l : list A) :
  wrap64 (sum_Z ((fun a => wrap64 (f a)) <$> l)) = wrap64 (sum_Z (f <$> l)).
Proof.
  induction l as [|a l IH]; [done|]. unfold sum_Z in *. csimpl.
  rewrite wrap64_add_l, <- wrap64_add_r, IH, wrap64_add_r. done.
Qed.

(** X14 (line 122, [dept_totals]).  One row per department of [clients];
    [Dept_Total_Contracts] is the int64 sum of the [Total_Contracts] of
    the department's rows of [client_contracts]; the totals of all
    departments add up, as int64, to the sum of all [Total_Contracts]:
    every contract row counts in one department. *)
Theorem dept_totals_partition (clients : list ClientRow) :
  let contracts := add_Total_Contracts (client_contracts_of clients) in
  let totals := dept_totals_of contracts in
  NoDup totals.*1
  /\ (forall d, d ∈ totals.*1 <-> d ∈ Department <$> clients)
  /\ (forall d t, (d, t) ∈ totals -> t = dept_total contracts d)
  /\ wrap64 (sum_Z totals.*2) = wrap64 (sum_Z contracts.*2).
Proof.
  intros contracts totals.
  assert (Hk : totals.*1
               = sorted_unique ((fun c : Contract => c.1.1.1) <$> contracts))
    by apply groupby_keys.
  split; [rewrite Hk; apply sorted_unique_NoDup|]. split.
  { intros d. rewrite Hk, elem_of_sorted_unique. unfold contracts.
    rewrite contracts_rows, <- list_fmap_compose, !list_elem_of_fmap. split.
    - intros (k & -> & Hin%(proj1 (elem_of_sorted_unique _ _))).
      apply list_elem_of_fmap in Hin as (r & -> & Hr). by exists r.
    - intros (r & -> & Hr). exists (pair_of r). split; [done|].
      apply (proj2 (elem_of_sorted_unique _ _)), list_elem_of_fmap. eauto. }
  split.
  { intros d t Hin. by apply elem_of_groupby in Hin as [_ ->]. }
  unfold totals, dept_totals_of, groupby. rewrite <- list_fmap_compose.
  rewrite (sum_Z_ext _
             (fun d => wrap64 (sum_Z (snd <$> filter (fun c : Contract =>
                                                        c.1.1.1 = d) contracts))))
    by (intros d; apply i64_sum_wrap).
  rewrite wrap64_sum_wrap. f_equal. apply group_sums_sum.
  - apply sorted_unique_NoDup.
  - intros c Hc. apply (proj2 (elem_of_sorted_unique _ _)), list_elem_of_fmap.
    eauto.
Qed.

(** ** Renewals of a company and contracts of a pair (lines 51 and 119) *)

Lemma elem_of_not_nil {A : Type} (x : A) (l : list A) : x ∈ l -> l <> [].
Proof. intros Hx ->. by apply elem_of_nil in Hx. Qed.

Lemma max_list_mono (l k : list Z) :
  l <> [] -> (forall x, x ∈ l -> x ∈ k) -> max_list l <= max_list k.
Proof.
  intros Hl Hsub. destruct (max_list_spec l Hl) as [Hin _].
  assert (Hk : k <> []).
  { intros ->. by apply Hsub, elem_of_nil in Hin. }
  destruct (max_list_spec k Hk) as [_ Hmax]. by apply Hmax, Hsub.
Qed.

(** X15 (lines 51 and 119).  The renewal distribution takes the largest
    [Renewal_No] of a company over all its rows, [client_contracts] the
    largest within one department: the number of a (Department, Company)
    pair is never above the number of the company, and in one department
    at least it is that number. *)
Theorem pair_max_within_company_max (clients : list ClientRow) (d c : string) :
  (d, c) ∈ pair_of <$> clients ->
  pair_max clients (d, c) <= company_max clients c
  /\ exists d', (d', c) ∈ pair_of <$> clients
       /\ pair_max clients (d', c) = company_max clients c.
Proof.
  intros Hin.
  assert (Hsub : forall d' x,
            x ∈ Renewal_No <$> filter (fun r => pair_of r = (d', c)) clients ->
            x ∈ Renewal_No <$> filter (fun r => Company r = c) clients).
  { intros d' x (r & -> & [[= _ Hc] Hr]%list_elem_of_filter)%list_elem_of_fmap.
    apply list_elem_of_fmap. exists r. split; [done|].
    by apply list_elem_of_filter. }
  assert (Hne : forall d', (d', c) ∈ pair_of <$> clients ->
            Renewal_No <$> filter (fun r => pair_of r = (d', c)) clients <> []).
  { intros d' (r & Hp & Hr)%list_elem_of_fmap.
    apply (elem_of_not_nil (Renewal_No r)), list_elem_of_fmap.
    exists r. split; [done|]. by apply list_elem_of_filter. }
  split; [by apply max_list_mono; [apply Hne|apply Hsub]|].
  destruct (max_list_spec (Renewal_No <$> filter (fun r => Company r = c) clients))
    as [Hmax _].
  { apply list_elem_of_fmap in Hin as (r & [= _ Hc] & Hr).
    apply (elem_of_not_nil (Renewal_No r)), list_elem_of_fmap.
    exists r. split; [done|]. by apply list_elem_of_filter. }
  apply list_elem_of_fmap in Hmax as (r & Hr & [Hc Hrin]%list_elem_of_filter).
  assert (Hp : (Department r, c) ∈ pair_of <$> clients).
  { apply list_elem_of_fmap. exists r. unfold pair_of. by rewrite Hc. }
  exists (Department r). split; [done|].
  apply Z.le_antisymm; [by apply max_list_mono; [apply Hne|apply Hsub]|].
  unfold company_max. rewrite Hr.
  apply max_list_spec; [by apply Hne|].
  apply list_elem_of_fmap. exists r. split; [done|].
  apply list_elem_of_filter. unfold pair_of. by rewrite Hc.
Qed.

Lemma pair_max_within_company_max_witness :
  pair_max two_departments ("Sales", "A")%string
  <= company_max two_departments "A"%string
  /\ exists d', (d', "A"%string) ∈ pair_of <$> two_departments
       /\ pair_max two_departments (d', "A"%string)
          = company_max two_departments "A"%string.
Proof.
  apply (pair_max_within_company_max two_departments "Sales" "A").
  apply (list_elem_of_lookup_2 _ 0%nat). reflexivity.
Defined.

(** ** A year without growth (line 42) *)

Lemma SFdiv_core_self (m : positive) (e : Z) :
  SFdiv_core_binary 53 1024 (Z.pos m) e (Z.pos m) e = (2 ^ 53, - 53, loc_Exact).
Proof.
  assert (Hloc : new_location (Z.pos m) 0 = loc_Exact).
  { unfold new_location. by destruct (IntDef.Z.even _). }
  unfold SFdiv_core_binary. cbv zeta.
  replace (Zdigits2 (Z.pos m) + e - (Zdigits2 (Z.pos m) + e)) with 0 by lia.
  replace (e - e) with 0 by lia.
  change (IntDef.Z.min (fexp 53 1024 0) 0) with (- 53).
  change (0 - - 53) with 53. cbv iota.
  change (IntDef.Z.shiftl ?a ?b) with (Z.shiftl a b).
  rewrite Z.shiftl_mul_pow2 by lia.
  replace (Z.pos m * 2 ^ 53) with (2 ^ 53 * Z.pos m) by lia.
  change (IntDef.Z.div_eucl ?a ?b) with (Z.div_eucl a b).
  by rewrite div_eucl_mul, Hloc.
Qed.

Lemma fdiv_self (s : bool) (m : positive) (e : Z) :
  fdiv (S754_finite s m e) (S754_finite s m e) = f64_of_Z 1.
Proof.
  unfold fdiv, SFdiv. rewrite SFdiv_core_self. by destruct s; vm_compute.
Qed.

(** X16 (line 42, [Growth_%]).  With fewer than [2 ^ 63] client rows, a
    year with as many active clients as the year before has a growth of
    0.0. *)
Theorem growth_unchanged (clients : list ClientRow) (i : nat) (y y' a : Z) :
  let rows := clients_per_year_of clients in
  Z.of_nat (length clients) < 2 ^ 63 ->
  rows !! i = Some (y, a) -> rows !! S i = Some (y', a) ->
  Growth_of rows !! S i = Some (S754_zero false).
Proof.
  intros rows Hsmall Hi HSi. unfold Growth_of, pct_change.
  rewrite list_lookup_fmap.
  rewrite (lookup_pct_change_from _ _ i a a);
    [|by rewrite list_lookup_fmap, Hi|by rewrite list_lookup_fmap, HSi].
  destruct (f64_of_Z_finite a) as (m & e & ->).
  { apply list_elem_of_lookup_2, active_clients_bounds in Hi as [_ Ha].
    pose proof (length_filter (fun r => Year r = y) clients). lia. }
  rewrite fdiv_self. by vm_compute.
Qed.

Lemma growth_unchanged_witness :
  Growth_of (clients_per_year_of
               (mkClient "A" "Sales" 0 2020 :: mkClient "A" "Sales" 1 2021 :: []))
    !! 1%nat
  = Some (S754_zero false).
Proof.
  apply (growth_unchanged
           (mkClient "A" "Sales" 0 2020 :: mkClient "A" "Sales" 1 2021 :: [])
           0%nat 2020 2021 1).
  - simpl. lia.
  - by vm_compute.
  - by vm_compute.
Defined.

(** ** The sections of the script do not depend on each other *)

(** Run the statements of a section on the cleaned tables. *)
Ltac run_block c :=
  unfold normalized;
  repeat first
    [ erewrite exec_cons_ok;
      [|unfold line_85, assign; repeat read_var;
        change (churn_loop c (years_of c) 0 (removelast (years_of c)) [])
          with (churn_data_of c);
        rewrite churn_data_of_rows; cbn [bind]; reflexivity]
    | erewrite exec_cons_ok;
      [|first [unfold line_41|unfold line_42|unfold line_51|unfold line_52
              |unfold line_62|unfold line_63|unfold line_72|unfold line_73
              |unfold line_74|unfold line_83|unfold line_84|unfold line_94
              |unfold line_112|unfold line_119|unfold line_120
              |unfold line_121|unfold line_122|unfold line_123
              |unfold line_124|unfold line_125|unfold line_126
              |unfold line_127];
        unfold assign; repeat read_var; reflexivity] ].

(** X17 (lines 41-127).  When [clients] has two years or more, the
    analyzers run to the end, and each section, run alone on the cleaned
    tables, finishes and binds the variable its chart reads to the table
    that variable holds at the end of the whole run: no section reads
    what another one computed, and the margin column line 112 adds to
    [finance] does not change the merge of line 121.  With fewer than
    two years section 5 alone stops with the KeyError of line 98, and
    every other section alone still finishes. *)
Theorem analyzer_blocks_independent (c : list ClientRow) (f : list FinanceRow) :
  concat analyzer_blocks.*1 = analyzers
  /\ ((2 <= length (years_of c))%nat ->
      exists s,
        exec analyzers (normalized c f) = Finished s
        /\ Forall (fun bx : list stmt * string =>
                     exists s' v,
                       exec bx.1 (normalized c f) = Finished s'
                       /\ s' !! bx.2 = Some v /\ s !! bx.2 = Some v)
                  analyzer_blocks)
  /\ ((length (years_of c) < 2)%nat ->
      Forall (fun bx : list stmt * string =>
                if decide (bx.2 = "churn_df"%string)
                then exists s',
                       exec bx.1 (normalized c f) = Aborted KeyError s'
                else exists s' v,
                       exec bx.1 (normalized c f) = Finished s'
                       /\ s' !! bx.2 = Some v)
             analyzer_blocks).
Proof.
  split; [done|]. split.
  - intros Hge. destruct (analyzers_run c f Hge) as (s & Hs & Hvars).
    apply fig5_traces_two_years in Hge.
    exists s. split; [done|]. unfold analyzer_blocks.
    repeat apply Forall_cons_2; [..|apply Forall_nil_2]; cbn [fst snd].
    + eexists _, _. split; [run_block c; reflexivity|].
      split; [by rewrite lookup_insert_eq|].
      apply Hvars. unfold final_vars. do 2 right. left.
    + eexists _, _. split; [run_block c; reflexivity|].
      split; [by rewrite lookup_insert_eq|].
      apply Hvars. unfold final_vars. do 3 right. left.
    + eexists _, _. split; [run_block c; reflexivity|].
      split; [by rewrite lookup_insert_eq|].
      apply Hvars. unfold final_vars. do 4 right. left.
    + eexists _, _. split; [run_block c; reflexivity|].
      split; [by rewrite lookup_insert_eq|].
      apply Hvars. unfold final_vars. do 6 right. left.
    + eexists _, _. split.
      { run_block c.
        erewrite exec_cons_ok;
          [|unfold line_98, assign; repeat read_var; rewrite Hge; reflexivity].
        reflexivity. }
      split; [rewrite lookup_insert_ne by done; by rewrite lookup_insert_eq|].
      apply Hvars. unfold final_vars. do 9 right. left.
    + eexists _, _. split; [run_block c; reflexivity|].
      split; [by rewrite lookup_insert_eq|].
      apply Hvars. unfold final_vars. do 1 right. left.
    + eexists _, _. split; [run_block c; reflexivity|].
      split; [by rewrite lookup_insert_eq|].
      apply Hvars. unfold final_vars. do 15 right. left.
  - intros Hlt%fig5_traces_one_year. unfold analyzer_blocks.
    repeat apply Forall_cons_2; [..|apply Forall_nil_2]; cbn [fst snd];
      (case_decide; [try done|try done]).
    + eexists _, _. split; [run_block c; reflexivity|].
      by rewrite lookup_insert_eq.
    + eexists _, _. split; [run_block c; reflexivity|].
      by rewrite lookup_insert_eq.
    + eexists _, _. split; [run_block c; reflexivity|].
      by rewrite lookup_insert_eq.
    + eexists _, _. split; [run_block c; reflexivity|].
      by rewrite lookup_insert_eq.
    + eexists. run_block c.
      erewrite exec_cons_raise; [reflexivity|].
      unfold line_98. repeat read_var. by rewrite Hlt.
    + eexists _, _. split; [run_block c; reflexivity|].
      by rewrite lookup_insert_eq.
    + eexists _, _. split; [run_block c; reflexivity|].
      by rewrite lookup_insert_eq.
Qed.

Lemma analyzer_blocks_independent_witness :
  (exists s s',
     years_of three_contracts = [2020; 2021]
     /\ exec analyzers (normalized three_contracts sales_2021) = Finished s
     /\ exec [line_51; line_52] (normalized three_contracts sales_2021)
        = Finished s'
     /\ s' !! "renewal_counts"%string = Some (VCounts [(0, 1); (1, 1)])
     /\ s !! "renewal_counts"%string = Some (VCounts [(0, 1); (1, 1)]))
  /\ (exists s',
        years_of one_year = [2020]
        /\ exec [line_83; line_84; line_85; line_94; line_98]
                (normalized one_year sales_2021) = Aborted KeyError s').
Proof.
  split.
  - destruct (analyzer_blocks_independent three_contracts sales_2021)
      as (_ & Hge & _).
    destruct Hge as (s & Hs & Hall); [by vm_compute|].
    apply Forall_cons_1 in Hall as [_ Hall].
    apply Forall_cons_1 in Hall as [(s' & v & Hs' & Hv' & Hv) _].
    cbn [fst snd] in Hs', Hv', Hv.
    exists s, s'. split; [by vm_compute|]. split; [done|]. split; [done|].
    assert (Hrun : exec [line_51; line_52]
                     (normalized three_contracts sales_2021)
                   = Finished
                       (<["renewal_counts"%string :=
                            VCounts (renewal_counts_of three_contracts)]>
                          (<["renewal_counts"%string :=
                               VValueCounts (renewal_counts_of three_contracts)]>
                             (normalized three_contracts sales_2021)))).
    { run_block three_contracts. reflexivity. }
    rewrite Hrun in Hs'. injection Hs' as <-.
    rewrite lookup_insert_eq in Hv'. injection Hv' as <-.
    assert (renewal_counts_of three_contracts = [(0, 1); (1, 1)]) as <-
      by by vm_compute.
    done.
  - destruct (analyzer_blocks_independent one_year sales_2021)
      as (_ & _ & Hlt).
    assert (Hone : (length (years_of one_year) < 2)%nat) by (vm_compute; lia).
    specialize (Hlt Hone).
    do 4 apply Forall_cons_1 in Hlt as [_ Hlt].
    apply Forall_cons_1 in Hlt as [Hfive _].
    cbn [fst snd] in Hfive. case_decide; [|done].
    destruct Hfive as [s' Hs']. exists s'. split; [by vm_compute|done].
Defined.
(** ** The rows the top-15 table leaves out (lines 126-127) *)

(** X18 (lines 126-127, [top_clients_15]).  A row of
    [merged_clients_profit] that is not in the table does not come before
    any row of its department that is: its [Estimated_Profit] is null, or
    it is not above the estimate of any row kept. *)
Theorem top_clients_15_keeps_first (clients : list ClientRow)
    (finance : list FinanceRow) (x y : ProfitRow) :
  let merged := merged_clients_profit_of clients finance in
  let out := top_clients_15_of clients finance in
  x ∈ out -> y ∈ merged -> y ∉ out -> p_Department x = p_Department y ->
  is_nan (Estimated_Profit y) = true
  \/ SFcompare (Estimated_Profit x) (Estimated_Profit y) = Some Gt
  \/ SFcompare (Estimated_Profit x) (Estimated_Profit y) = Some Eq.
Proof.
  intros merged out Hx Hy Hny Hd.
  set (d := p_Department y) in *.
  set (S := filter (fun r => p_Department r = d) (sort_values merged)).
  assert (Hout : filter (fun r => p_Department r = d) out = take 15 S)
    by apply filter_department_head_15.
  assert (Hsorted : StronglySorted (fun a b => sort_le a b = true)
                      (take 15 S ++ drop 15 S)).
  { rewrite take_drop. eapply StronglySorted_sublist; [apply sublist_filter|].
    apply sort_values_sorted. }
  assert (HxS : x ∈ take 15 S).
  { rewrite <- Hout. by apply list_elem_of_filter. }
  assert (HyS : y ∈ drop 15 S).
  { assert (Hin : y ∈ take 15 S ++ drop 15 S).
    { rewrite take_drop. apply list_elem_of_filter. split; [done|].
      unfold sort_values. by rewrite stable_sort_perm. }
    apply elem_of_app in Hin as [Hin|Hin]; [|done].
    rewrite <- Hout in Hin. by apply list_elem_of_filter in Hin as [_ Hin]. }
  pose proof (StronglySorted_app_1_elem_of _ _ _ x y Hsorted HxS HyS) as Hle.
  unfold sort_le in Hle. fold d in Hle. rewrite Hd, cmp_refl in Hle.
  by apply desc_nan_last_iff.
Qed.

(** Sixteen companies of Sales with 2 to 17 contracts: the table keeps
    C16, whose estimate is 28.0, and leaves out C01, whose estimate is
    3.25. *)
Lemma top_clients_15_keeps_first_witness :
  exists x y,
    x ∈ top_clients_15_of sixteen_in_sales sales_2021
    /\ y ∈ merged_clients_profit_of sixteen_in_sales sales_2021
    /\ (y ∉ top_clients_15_of sixteen_in_sales sales_2021)
    /\ p_Company x = "C16"%string /\ p_Company y = "C01"%string
    /\ p_Company <$> top_clients_15_of sixteen_in_sales sales_2021
       = ["C16"; "C15"; "C14"; "C13"; "C12"; "C11"; "C10"; "C09"; "C08";
          "C07"; "C06"; "C05"; "C04"; "C03"; "C02"]%string
    /\ Estimated_Profit x = S754_finite false 7881299347898368 (-48)
    /\ Estimated_Profit y = S754_finite false 7318349394477056 (-51)
    /\ SFcompare (Estimated_Profit x) (Estimated_Profit y) = Some Gt.
Proof.
  assert (exists x, top_clients_15_of sixteen_in_sales sales_2021 !! 0%nat
                    = Some x /\ p_Company x = "C16"%string)
    as (x & Hx & Hcx) by (eexists; split; by vm_compute).
  assert (Hex : Estimated_Profit x = S754_finite false 7881299347898368 (-48)).
  { clear -Hx. vm_compute in Hx. by injection Hx as <-. }
  assert (exists y, merged_clients_profit_of sixteen_in_sales sales_2021 !! 0%nat
                    = Some y /\ p_Company y = "C01"%string
                    /\ p_Department y = p_Department x
                    /\ is_nan (Estimated_Profit y) = false)
    as (y & Hy & Hcy & Hd & Hnan).
  { clear -Hx. vm_compute in Hx. injection Hx as <-.
    eexists. split; [by vm_compute|]. by vm_compute. }
  assert (Hey : Estimated_Profit y = S754_finite false 7318349394477056 (-51)).
  { clear -Hy. vm_compute in Hy. by injection Hy as <-. }
  assert (Hny : y ∉ top_clients_15_of sixteen_in_sales sales_2021).
  { intros Hin. apply (list_elem_of_fmap_2 p_Company) in Hin.
    rewrite Hcy in Hin. clear -Hin. vm_compute in Hin.
    repeat (apply elem_of_cons in Hin as [Hin|Hin]; [discriminate|]).
    by apply elem_of_nil in Hin. }
  pose proof (list_elem_of_lookup_2 _ _ _ Hx) as Hxin.
  pose proof (list_elem_of_lookup_2 _ _ _ Hy) as Hyin.
  exists x, y. split; [done|]. split; [done|]. split; [done|].
  split; [done|]. split; [done|]. split; [by vm_compute|].
  split; [done|]. split; [done|].
  destruct (top_clients_15_keeps_first sixteen_in_sales sales_2021 x y
              Hxin Hyin Hny (eq_sym Hd)) as [Hn|[Hgt|Heq]].
  - congruence.
  - done.
  - exfalso. clear -Heq Hx Hy.
    vm_compute in Hx. injection Hx as <-.
    vm_compute in Hy. injection Hy as <-.
    vm_compute in Heq. discriminate.
Defined.
(** ** A share of the whole (lines 63, 74 and 124) *)








